(** * Offline attendance capture and reconciliation

    A shallow embedding of the attendance flow of the application:
    the scanner's record builder ([processAttendance], StudentDashboard),
    the application shell's drain ([syncOfflineData], App.tsx), and the
    mock remote store ([mockApiService], services/mockApiService).

    JavaScript values are modelled as follows.
    - strings are [string]; [s.split('-')] is [split];
    - [number] coordinates are IEEE-754 doubles ([float]);
      [Date.now()] is a natural number of milliseconds ([N]);
    - [T | null] and optional fields are [option T];
    - a rejected promise / thrown [Error] is [inl e], a fulfilled one [inr v];
    - React state, [localStorage] and the mock module's variables are
      threaded explicitly through the record [Sys];
    - a call of [markAttendance] acts on the service when it is issued (its
      delay is not modelled); what stays in flight is the rest of
      [syncOfflineData] after its [await], which a later event settles.  *)

From Stdlib Require Import Bool List String Ascii Arith NArith ZArith Lia.
From Stdlib Require Import Decimal DecimalString DecimalN.
From Stdlib Require Import Floats.
Import ListNotations.

Local Open Scope string_scope.
Local Open Scope list_scope.

Set Implicit Arguments.

(** ** Strings *)

(** [s.split(sep)] for a one-character separator: the pieces of [s]
    between occurrences of [sep]; never the empty array. *)
Fixpoint split (sep : ascii) (s : string) : list string :=
  match s with
  | EmptyString => [EmptyString]
  | String c rest =>
      if Ascii.eqb c sep then EmptyString :: split sep rest
      else match split sep rest with
           | [] => [String c EmptyString]
           | piece :: pieces => String c piece :: pieces
           end
  end.

(** JavaScript truthiness of a possibly-undefined string. *)
Definition truthy (v : option string) : bool :=
  match v with
  | None => false
  | Some EmptyString => false
  | Some (String _ _) => true
  end.

(** [c] occurs in [s]. *)
Fixpoint occurs (c : ascii) (s : string) : bool :=
  match s with
  | EmptyString => false
  | String d rest => Ascii.eqb d c || occurs c rest
  end.

(** The part of [s] before the first [c] (all of [s] when there is none). *)
Fixpoint before_first (c : ascii) (s : string) : string :=
  match s with
  | EmptyString => EmptyString
  | String d rest => if Ascii.eqb d c then EmptyString else String d (before_first c rest)
  end.

Definition dash : ascii := "-"%char.

(** [String(n)] for a non-negative integer (template-literal interpolation). *)
Definition decimal (n : N) : string := NilEmpty.string_of_uint (N.to_uint n).

(** ** Data model (types.ts) *)

Inductive Role := Admin | Teacher | Student.

Record User := mkUser {
  user_id : string;
  name : string;
  email : string;
  role : Role;
  password : option string;
  phone : option string;
  address : option string;
  specialization : option string;
  enrollmentNumber : option string
}.

Record Position := mkPosition {
  latitude : float;
  longitude : float
}.

(** [Omit<AttendanceRecord, 'id'>]: what the scanner builds and the queue holds. *)
Record PendingRecord := mkPending {
  studentId : string;
  studentName : string;
  studentEnrollmentNumber : option string;
  teacherId : string;
  sessionId : string;
  timestamp : string;
  location : option Position
}.

(** [AttendanceRecord]: [{ ...record, id }]. *)
Record AttendanceRecord := mkAttendance {
  att_id : string;
  att_fields : PendingRecord
}.

(** What a rejected promise carries: an [Error] with its message, or some
    other value. *)
Inductive JsError :=
| mkError (message : string)
| notAnError.

(** [err instanceof Error ? err.message : 'An unknown error occurred.'] *)
Definition error_message (e : JsError) : string :=
  match e with
  | mkError m => m
  | notAnError => "An unknown error occurred."
  end.

Definition Promise (A : Type) : Type := (JsError + A)%type.

(** ** Session codes (TeacherDashboard.generateCode) *)

(** [`${user.id}-SESSION-${Date.now()}`] *)
Definition sessionCodeOf (teacher : string) (ts : string) : string :=
  teacher ++ "-SESSION-" ++ ts.

Definition generateCode (user : User) (now : N) : string :=
  sessionCodeOf (user_id user) (decimal now).

(** The identity [addTeacher] gives a new teacher: [`teacher${Date.now()}`]. *)
Definition newTeacherId (now : N) : string := "teacher" ++ decimal now.

(** ** Attendance record builder (first half of processAttendance) *)

Definition invalidQr : JsError := mkError "Invalid QR code format.".

(** Lines 203-217 of the scanner: derive the identities, validate, and
    assemble [attendanceData].  [now] is [new Date().toISOString()]. *)
Definition buildAttendanceData (user : User) (now : string)
    (location : option Position) (decodedText : string) : Promise PendingRecord :=
  let sessionId := decodedText in
  let teacherId := nth_error (split dash sessionId) 0 in
  if negb (truthy teacherId) || negb (truthy (Some sessionId)) then inl invalidQr
  else
    match teacherId with
    | None => inl invalidQr
    | Some teacherId =>
        inr {| studentId := user_id user;
               studentName := name user;
               studentEnrollmentNumber := enrollmentNumber user;
               teacherId := teacherId;
               sessionId := sessionId;
               timestamp := now;
               location := location |}
    end.

(** ** Browser environment: localStorage, console, alert *)

(** [window.localStorage], with its values kept typed (JSON text is not
    modelled).  [quotaExceeded] says whether [setItem] currently throws. *)
Record LocalStorage := mkStorage {
  item_pendingAttendance : option (list PendingRecord);
  item_mock_attendance : option (list AttendanceRecord);
  item_mock_teachers : option (list User);
  item_mock_students : option (list User);
  quotaExceeded : bool
}.

Inductive LogEntry :=
| LogWriteError (key : string)
| LogSyncing (count : nat)
| LogSynced (records : list AttendanceRecord)
| LogSyncFailed (e : JsError)
| LogNowOnline
| LogNowOffline
| LogLocationError (msg : string).

(** The log line with which [syncOfflineData] starts a drain. *)
Definition beginsDrain (e : LogEntry) : bool :=
  match e with
  | LogSyncing _ => true
  | _ => false
  end.

Record Browser := mkBrowser {
  localStorage : LocalStorage;
  console : list LogEntry;
  alerts : list string
}.

Definition log (entry : LogEntry) (w : Browser) : Browser :=
  {| localStorage := localStorage w;
     console := console w ++ [entry];
     alerts := alerts w |}.

Definition alert (msg : string) (w : Browser) : Browser :=
  {| localStorage := localStorage w;
     console := console w;
     alerts := alerts w ++ [msg] |}.

(** [localStorage.setItem(key, ...)]: [None] is the thrown exception. *)
Definition setItem (put : LocalStorage -> LocalStorage) (ls : LocalStorage)
  : option LocalStorage :=
  if quotaExceeded ls then None else Some (put ls).

Definition put_pendingAttendance (v : list PendingRecord) (ls : LocalStorage) :=
  {| item_pendingAttendance := Some v;
     item_mock_attendance := item_mock_attendance ls;
     item_mock_teachers := item_mock_teachers ls;
     item_mock_students := item_mock_students ls;
     quotaExceeded := quotaExceeded ls |}.

Definition put_mock_attendance (v : list AttendanceRecord) (ls : LocalStorage) :=
  {| item_pendingAttendance := item_pendingAttendance ls;
     item_mock_attendance := Some v;
     item_mock_teachers := item_mock_teachers ls;
     item_mock_students := item_mock_students ls;
     quotaExceeded := quotaExceeded ls |}.

Definition put_mock_teachers (v : list User) (ls : LocalStorage) :=
  {| item_pendingAttendance := item_pendingAttendance ls;
     item_mock_attendance := item_mock_attendance ls;
     item_mock_teachers := Some v;
     item_mock_students := item_mock_students ls;
     quotaExceeded := quotaExceeded ls |}.

Definition put_mock_students (v : list User) (ls : LocalStorage) :=
  {| item_pendingAttendance := item_pendingAttendance ls;
     item_mock_attendance := item_mock_attendance ls;
     item_mock_teachers := item_mock_teachers ls;
     item_mock_students := Some v;
     quotaExceeded := quotaExceeded ls |}.

(** The persistence layer of the mock service:
    [try { setItem } catch (error) { console.error(...) }]. *)
Definition setStoredData (key : string) (put : LocalStorage -> LocalStorage)
    (w : Browser) : Browser :=
  match setItem put (localStorage w) with
  | Some ls => {| localStorage := ls; console := console w; alerts := alerts w |}
  | None => log (LogWriteError key) w
  end.

(** [getStoredData(key, defaultValue)] *)
Definition getStoredData {T : Type} (item : LocalStorage -> option T)
    (defaultValue : T) (w : Browser) : T :=
  match item (localStorage w) with
  | Some stored => stored
  | None => defaultValue
  end.

(** ** Remote store *)

(** The interface the shell and the scanner call: one submission acts on
    the service's state and the browser, and settles fulfilled or rejected.
    [moduleLoad] is the evaluation of the service's module when the page
    loads: its variables are initialised from local storage. *)
Class ApiService (B : Type) := {
  markAttendance : PendingRecord -> B * Browser -> (B * Browser) * Promise AttendanceRecord;
  moduleLoad : Browser -> B -> B
}.

(** Module state of services/mockApiService.  [timeline k] is what the
    [k]-th call of [Date.now()] returns and [Date_calls] counts the calls;
    [toISOString ms] is [new Date(ms).toISOString()].  Clock and date
    formatting are the platform's, taken as given. *)
Record MockBackend := mkMock {
  teachers : list User;
  students : list User;
  attendanceRecords : list AttendanceRecord;
  timeline : nat -> N;
  toISOString : Z -> string;
  Date_calls : nat
}.

Definition Date_now (be : MockBackend) : N := timeline be (Date_calls be).

(** *** Initial mock data (used only if localStorage is empty) *)

Definition teacher1 : User :=
  {| user_id := "teacher1"; name := "Dr. Evelyn Reed"; email := "e.reed@school.com";
     role := Teacher; password := Some "password123"; phone := Some "123-456-7890";
     address := Some "123 Oak St"; specialization := Some "Physics";
     enrollmentNumber := None |}.

Definition teacher2 : User :=
  {| user_id := "teacher2"; name := "Mr. Samuel Chen"; email := "s.chen@school.com";
     role := Teacher; password := Some "password123"; phone := Some "098-765-4321";
     address := Some "456 Pine St"; specialization := Some "Mathematics";
     enrollmentNumber := None |}.

Definition student1 : User :=
  {| user_id := "student1"; name := "Alice Johnson"; email := "alice.j@school.com";
     role := Student; password := Some "password123"; phone := None;
     address := None; specialization := None; enrollmentNumber := Some "S001" |}.

Definition student2 : User :=
  {| user_id := "student2"; name := "Bob Williams"; email := "bob.w@school.com";
     role := Student; password := Some "password123"; phone := None;
     address := None; specialization := None; enrollmentNumber := Some "S002" |}.

Definition student3 : User :=
  {| user_id := "student3"; name := "Charlie Brown"; email := "charlie.b@school.com";
     role := Student; password := Some "password123"; phone := None;
     address := None; specialization := None; enrollmentNumber := Some "S003" |}.

Definition initialTeachers : list User := [teacher1; teacher2].

Definition initialStudents : list User := [student1; student2; student3].

(** [{ latitude: 34.0522, longitude: -118.2437 }], as the doubles these
    decimals denote. *)
Definition initialPosition : Position :=
  {| latitude := 0x1.106ae7d566cf4p+5; longitude := -0x1.d8f98c7e28241p+6 |}.

(** [initialAttendance]; each record reads the clock for its timestamp,
    [new Date(Date.now() - 86400000).toISOString()]. *)
Definition initialAttendance (stamp1 stamp2 : string) : list AttendanceRecord :=
  [ {| att_id := "att1";
       att_fields :=
         {| studentId := "student1"; studentName := "Alice Johnson";
            studentEnrollmentNumber := Some "S001"; teacherId := "teacher1";
            sessionId := "PHYS101-202401"; timestamp := stamp1;
            location := Some initialPosition |} |};
    {| att_id := "att2";
       att_fields :=
         {| studentId := "student2"; studentName := "Bob Williams";
            studentEnrollmentNumber := Some "S002"; teacherId := "teacher1";
            sessionId := "PHYS101-202401"; timestamp := stamp2;
            location := Some initialPosition |} |} ].

(** The day before the [k]-th reading of the clock, formatted. *)
Definition yesterday (be : MockBackend) (k : nat) : string :=
  toISOString be (Z.of_N (timeline be k) - 86400000).

(** Data initialization: the module's variables when the page loads, read
    with [getStoredData] from local storage, the initial data as defaults. *)
Definition mock_moduleLoad (w : Browser) (be : MockBackend) : MockBackend :=
  let initial := initialAttendance (yesterday be (Date_calls be))
                                   (yesterday be (S (Date_calls be))) in
  {| teachers := getStoredData item_mock_teachers initialTeachers w;
     students := getStoredData item_mock_students initialStudents w;
     attendanceRecords := getStoredData item_mock_attendance initial w;
     timeline := timeline be;
     toISOString := toISOString be;
     Date_calls := S (S (Date_calls be)) |}.

Definition mock_markAttendance (record : PendingRecord) (st : MockBackend * Browser)
  : (MockBackend * Browser) * Promise AttendanceRecord :=
  let (be, w) := st in
  let newRecord := {| att_id := "att" ++ decimal (Date_now be); att_fields := record |} in
  let records := attendanceRecords be ++ [newRecord] in
  let be' := {| teachers := teachers be;
                students := students be;
                attendanceRecords := records;
                timeline := timeline be;
                toISOString := toISOString be;
                Date_calls := S (Date_calls be) |} in
  ((be', setStoredData "mock_attendance" (put_mock_attendance records) w), inr newRecord).

#[export] Instance mockApiService : ApiService MockBackend :=
  {| markAttendance := mock_markAttendance; moduleLoad := mock_moduleLoad |}.

(** A remote store that rejects the records selected by [down] (a lost
    request) and otherwise behaves as [inner]. *)
Definition flaky_markAttendance {B : Type} (inner : ApiService B)
    (down : PendingRecord -> bool) (record : PendingRecord) (st : B * Browser)
  : (B * Browser) * Promise AttendanceRecord :=
  if down record then (st, inl (mkError "Network request failed"))
  else @markAttendance B inner record st.

Definition flakyApiService {B : Type} (inner : ApiService B)
    (down : PendingRecord -> bool) : ApiService B :=
  {| markAttendance := flaky_markAttendance inner down;
     moduleLoad := @moduleLoad B inner |}.

(** *** Login (mockApiService.login) *)

Definition MOCK_ADMIN : User :=
  {| user_id := "admin1"; name := "Admin User"; email := "admin@school.com";
     role := Admin; password := None; phone := None; address := None;
     specialization := None; enrollmentNumber := None |}.

(** [const { password, ...userWithoutPassword } = user] *)
Definition userWithoutPassword (user : User) : User :=
  {| user_id := user_id user; name := name user; email := email user;
     role := role user; password := None; phone := phone user;
     address := address user; specialization := specialization user;
     enrollmentNumber := enrollmentNumber user |}.

(** [user.password === password] *)
Definition password_matches (stored : option string) (given : string) : bool :=
  match stored with
  | Some p => String.eqb p given
  | None => false
  end.

(** [toLowerCase] is the string method of the platform, taken as given. *)
Definition login (toLowerCase : string -> string) (be : MockBackend)
    (identifier password' : string) : Promise User :=
  if String.eqb identifier "admin" && String.eqb password' "123" then inr MOCK_ADMIN
  else
    let allUsers := teachers be ++ students be in
    match find (fun u => String.eqb (toLowerCase (name u)) (toLowerCase identifier)) allUsers with
    | Some user =>
        if password_matches (password user) password'
        then inr (userWithoutPassword user)
        else inl (mkError "Invalid credentials")
    | None => inl (mkError "Invalid credentials")
    end.

(** ASCII case folding, one admissible [toLowerCase]. *)
Definition lower_ascii (c : ascii) : ascii :=
  let n := nat_of_ascii c in
  if (Nat.leb 65 n && Nat.leb n 90)%bool then ascii_of_nat (n + 32) else c.

Fixpoint asciiLowerCase (s : string) : string :=
  match s with
  | EmptyString => EmptyString
  | String c rest => String (lower_ascii c) (asciiLowerCase rest)
  end.

(** ** Client state *)

Inductive MessageType := info | success | error.

(** React state of the QRCodeScanner component. *)
Record ScannerState := mkScanner {
  message : string;
  messageType : MessageType;
  locationError : option string;
  pendingScanData : option string;
  scanCompleted : bool;
  scannerPaused : bool
}.

Definition initialScanner : ScannerState :=
  {| message := "Scan a session QR code to mark attendance.";
     messageType := info;
     locationError := None;
     pendingScanData := None;
     scanCompleted := false;
     scannerPaused := false |}.

(** A drain in flight: what the [Promise.all] that [syncOfflineData]
    awaits will settle to. *)
Definition Batch := Promise (list AttendanceRecord).

(** The whole client: the shell's React state ([isOffline], the pending
    queue), the scanner's state, the browser, and the remote service.
    [queueVersion] is the identity of the array held in [pendingAttendance]:
    every call of the setter installs a new array.  [mountOffline] and
    [mountQueue] are what the scanner's first render saw of the connectivity
    and of the queue: the scanner is started once, by an effect without
    dependencies, with the [onScanSuccess] of that render.  [draining] holds
    the drains whose [await] has not settled yet, the oldest first. *)
Record Sys (B : Type) := mkSys {
  isOffline : bool;
  pendingAttendance : list PendingRecord;
  queueVersion : nat;
  scanner : ScannerState;
  mountOffline : bool;
  mountQueue : list PendingRecord;
  draining : list Batch;
  browser : Browser;
  backend : B
}.

Arguments mkSys {B}.

Section Client.

Context {B : Type} {api : ApiService B}.

Definition with_scanner (f : ScannerState -> ScannerState) (s : Sys B) : Sys B :=
  mkSys (isOffline s) (pendingAttendance s) (queueVersion s) (f (scanner s))
        (mountOffline s) (mountQueue s) (draining s) (browser s) (backend s).

Definition with_browser (f : Browser -> Browser) (s : Sys B) : Sys B :=
  mkSys (isOffline s) (pendingAttendance s) (queueVersion s) (scanner s)
        (mountOffline s) (mountQueue s) (draining s) (f (browser s)) (backend s).

Definition with_draining (f : list Batch -> list Batch) (s : Sys B) : Sys B :=
  mkSys (isOffline s) (pendingAttendance s) (queueVersion s) (scanner s)
        (mountOffline s) (mountQueue s) (f (draining s)) (browser s) (backend s).

Definition setIsOffline (v : bool) (s : Sys B) : Sys B :=
  mkSys v (pendingAttendance s) (queueVersion s) (scanner s)
        (mountOffline s) (mountQueue s) (draining s) (browser s) (backend s).

(** Modelled from the spec: hooks/useLocalStorage is not under src/.  The
    pending queue is one ordered sequence persisted to durable local storage
    under the fixed name [pendingAttendance] (section 3); the setter replaces
    the value held in memory and writes it through, and a failing write is
    logged and swallowed (section 4.4, "current behavior logs and swallows"),
    as the sibling [setStoredData] does. *)
Definition setPendingAttendance (v : list PendingRecord) (s : Sys B) : Sys B :=
  mkSys (isOffline s) v (S (queueVersion s)) (scanner s)
        (mountOffline s) (mountQueue s) (draining s)
        (setStoredData "pendingAttendance" (put_pendingAttendance v) (browser s))
        (backend s).

(** Modelled from the spec: the initial value of the hook is the persisted
    sequence, or the default (the empty queue) when nothing is stored. *)
Definition useLocalStorage_initial (w : Browser) : list PendingRecord :=
  getStoredData item_pendingAttendance [] w.

Definition setMessage (m : string) : Sys B -> Sys B :=
  with_scanner (fun c => mkScanner m (messageType c) (locationError c)
                                   (pendingScanData c) (scanCompleted c) (scannerPaused c)).

Definition setMessageType (t : MessageType) : Sys B -> Sys B :=
  with_scanner (fun c => mkScanner (message c) t (locationError c)
                                   (pendingScanData c) (scanCompleted c) (scannerPaused c)).

Definition setLocationError (e : option string) : Sys B -> Sys B :=
  with_scanner (fun c => mkScanner (message c) (messageType c) e
                                   (pendingScanData c) (scanCompleted c) (scannerPaused c)).

Definition setPendingScanData (d : option string) : Sys B -> Sys B :=
  with_scanner (fun c => mkScanner (message c) (messageType c) (locationError c)
                                   d (scanCompleted c) (scannerPaused c)).

Definition setScanCompleted (b : bool) : Sys B -> Sys B :=
  with_scanner (fun c => mkScanner (message c) (messageType c) (locationError c)
                                   (pendingScanData c) b (scannerPaused c)).

Definition setScannerPaused (b : bool) : Sys B -> Sys B :=
  with_scanner (fun c => mkScanner (message c) (messageType c) (locationError c)
                                   (pendingScanData c) (scanCompleted c) b).

(** [await mockApiService.markAttendance(record)] *)
Definition callMarkAttendance (record : PendingRecord) (s : Sys B)
  : Promise AttendanceRecord * Sys B :=
  let '(st, res) := markAttendance record (backend s, browser s) in
  (res, mkSys (isOffline s) (pendingAttendance s) (queueVersion s) (scanner s)
              (mountOffline s) (mountQueue s) (draining s) (snd st) (fst st)).

(** ** Scanner (QRCodeScanner) *)

(** What a callback created by a render sees of the state: values, not
    references. *)
Record Closure := mkClosure {
  c_isOffline : bool;
  c_pendingAttendance : list PendingRecord;
  c_locationError : option string;
  c_pendingScanData : option string;
  c_scanCompleted : bool
}.

(** The closure of the latest render. *)
Definition render (s : Sys B) : Closure :=
  {| c_isOffline := isOffline s;
     c_pendingAttendance := pendingAttendance s;
     c_locationError := locationError (scanner s);
     c_pendingScanData := pendingScanData (scanner s);
     c_scanCompleted := scanCompleted (scanner s) |}.

(** The closure of the scanner's first render: the connectivity and the
    queue of that moment, and the initial values of the scanner's own state.
    The effect that starts the scanner has no dependencies, so the
    [onScanSuccess] the scanner calls is this render's for as long as the
    component stays mounted. *)
Definition mountClosure (s : Sys B) : Closure :=
  {| c_isOffline := mountOffline s;
     c_pendingAttendance := mountQueue s;
     c_locationError := locationError initialScanner;
     c_pendingScanData := pendingScanData initialScanner;
     c_scanCompleted := scanCompleted initialScanner |}.

(** [processAttendance(location, decodedText)]; the result is [inl] when the
    async function rejects. *)
Definition processAttendance (cl : Closure) (user : User) (now : string)
    (location : option Position) (decodedText : string) (s : Sys B)
  : Promise unit * Sys B :=
  match buildAttendanceData user now location decodedText with
  | inl e => (inl e, s)
  | inr attendanceData =>
      if c_isOffline cl then
        let s1 := setPendingAttendance (c_pendingAttendance cl ++ [attendanceData]) s in
        let offlineMessage :=
          match location with
          | Some _ => "You are offline. Attendance saved locally."
          | None => "Offline. Attendance saved locally (no location)."
          end in
        (inr tt, setMessageType success (setMessage offlineMessage s1))
      else
        match callMarkAttendance attendanceData s with
        | (inl e, s1) => (inl e, s1)
        | (inr _, s1) =>
            let onlineMessage :=
              match location with
              | Some _ => "Attendance marked successfully!"
              | None => "Success! Attendance marked without location."
              end in
            (inr tt, setMessageType success (setMessage onlineMessage s1))
        end
  end.

(** [onScanSuccess(decodedText)]; [located] is how
    [locationService.getCurrentPosition()] settles. *)
Definition onScanSuccess (cl : Closure) (user : User) (now : string)
    (located : Promise Position) (decodedText : string) (s : Sys B) : Sys B :=
  match c_locationError cl with
  | Some _ => s
  | None =>
      if c_scanCompleted cl then s
      else
        let s1 := setMessageType info
                    (setMessage "QR code scanned. Getting location..."
                       (setScannerPaused true s)) in
        let failed (e : JsError) (s' : Sys B) :=
          setPendingScanData (Some decodedText)
            (setLocationError (Some (error_message e))
               (with_browser (log (LogLocationError (error_message e))) s')) in
        match located with
        | inl e => failed e s1
        | inr location =>
            match processAttendance cl user now (Some location) decodedText s1 with
            | (inr _, s2) => setScanCompleted true s2
            | (inl e, s2) => failed e s2
            end
        end
  end.

(** [handleMarkWithoutLocation()]; [!pendingScanData] holds of [null] and
    of the empty string. *)
Definition handleMarkWithoutLocation (cl : Closure) (user : User) (now : string)
    (s : Sys B) : Sys B :=
  match c_pendingScanData cl with
  | None => s
  | Some EmptyString => s
  | Some pendingScanData =>
      let s1 := setLocationError None s in
      let s2 :=
        match processAttendance cl user now None pendingScanData s1 with
        | (inr _, s') => setScanCompleted true s'
        | (inl e, s') => setMessageType error (setMessage ("Error: " ++ error_message e) s')
        end in
      setPendingScanData None s2
  end.

(** [handleResumeScanning()] *)
Definition handleResumeScanning (s : Sys B) : Sys B :=
  let s1 := setMessageType info
              (setMessage "Scan a session QR code to mark attendance."
                 (setScanCompleted false s)) in
  if scannerPaused (scanner s1) then setScannerPaused false s1 else s1.

(** ** Sync coordinator (App) *)

(** [pendingAttendance.map(record => mockApiService.markAttendance(record))]:
    every submission is issued; equal delays settle them in issue order. *)
Fixpoint submitAll (records : list PendingRecord) (st : B * Browser)
  : (B * Browser) * list (Promise AttendanceRecord) :=
  match records with
  | [] => (st, [])
  | record :: rest =>
      let '(st1, res) := markAttendance record st in
      let '(st2, results) := submitAll rest st1 in
      (st2, res :: results)
  end.

(** [Promise.all]: the values in order, or the first rejection. *)
Fixpoint Promise_all {A : Type} (results : list (Promise A)) : Promise (list A) :=
  match results with
  | [] => inr []
  | inl e :: _ => inl e
  | inr v :: rest =>
      match Promise_all rest with
      | inl e => inl e
      | inr vs => inr (v :: vs)
      end
  end.

(** [syncOfflineData], up to the [await]: the guard, the log line and the
    submissions of the snapshot held by the callback. *)
Definition syncOfflineData_begin (cl : Closure) (s : Sys B) : option Batch * Sys B :=
  if Nat.ltb 0 (List.length (c_pendingAttendance cl)) && negb (c_isOffline cl) then
    let s1 := with_browser (log (LogSyncing (List.length (c_pendingAttendance cl)))) s in
    let '(st, results) := submitAll (c_pendingAttendance cl) (backend s1, browser s1) in
    (Some (Promise_all results),
     mkSys (isOffline s1) (pendingAttendance s1) (queueVersion s1) (scanner s1)
           (mountOffline s1) (mountQueue s1) (draining s1) (snd st) (fst st))
  else (None, s).

(** [syncOfflineData], after the [await]: the rest of [try] or [catch]. *)
Definition syncOfflineData_settle (batch : option Batch) (s : Sys B) : Sys B :=
  match batch with
  | None => s
  | Some (inr syncedRecords) =>
      with_browser (alert "Offline attendance records have been synced.")
        (setPendingAttendance []
           (with_browser (log (LogSynced syncedRecords)) s))
  | Some (inl e) =>
      with_browser (alert "Could not sync all offline data. Will try again later.")
        (with_browser (log (LogSyncFailed e)) s)
  end.

(** A drain that nothing interleaves with. *)
Definition syncOfflineData (s : Sys B) : Sys B :=
  let '(batch, s1) := syncOfflineData_begin (render s) s in
  syncOfflineData_settle batch s1.

(** The effect [if (!isOffline) syncOfflineData()], with a drain that
    nothing interleaves with. *)
Definition syncEffect (s : Sys B) : Sys B :=
  if negb (isOffline s) then syncOfflineData s else s.

(** The dependencies [isOffline, syncOfflineData] of the effect changed
    between two renders. *)
Definition depsChanged (before after : Sys B) : bool :=
  negb (Bool.eqb (isOffline before) (isOffline after))
  || negb (Nat.eqb (queueVersion before) (queueVersion after)).

(** Run the effect, and once more when its own state update changed its
    dependencies. *)
Definition runEffects (s : Sys B) : Sys B :=
  let s1 := syncEffect s in
  if depsChanged s s1 then syncEffect s1 else s1.

(** [syncOfflineData] as the effect calls it: it runs up to its [await],
    and the drain it began, if any, is in flight from then on. *)
Definition startDrain (s : Sys B) : Sys B :=
  match syncOfflineData_begin (render s) s with
  | (Some batch, s1) => with_draining (fun inFlight => inFlight ++ [batch]) s1
  | (None, s1) => s1
  end.

(** The effect [if (!isOffline) syncOfflineData()], which does not wait for
    the promise [syncOfflineData] returns. *)
Definition drainEffect (s : Sys B) : Sys B :=
  if negb (isOffline s) then startDrain s else s.

(** What happens to the client.  [EvMount] is the page being loaded with the
    student logged in; [EvScan] is the scanner calling the callback it was
    started with; [EvSettled] is the [await] of the oldest drain in flight
    settling. *)
Inductive Event :=
| EvMount (navigatorOnLine : bool)
| EvOnline
| EvOffline
| EvScan (now : string) (located : Promise Position) (decodedText : string)
| EvMarkWithoutLocation (now : string)
| EvResume
| EvQuota (exceeded : bool)
| EvSettled.

Definition setQuota (exceeded : bool) (w : Browser) : Browser :=
  {| localStorage :=
       {| item_pendingAttendance := item_pendingAttendance (localStorage w);
          item_mock_attendance := item_mock_attendance (localStorage w);
          item_mock_teachers := item_mock_teachers (localStorage w);
          item_mock_students := item_mock_students (localStorage w);
          quotaExceeded := exceeded |};
     console := console w;
     alerts := alerts w |}.

(** The event handlers, before any effect runs.  A page load evaluates the
    service's module, initialises the shell and the scanner from
    [navigator.onLine] and local storage, starts the scanner with the
    callback of this first render, and leaves behind whatever was in flight
    (the console is kept, as a trace).  A scan runs the callback the scanner
    was started with, on the closure of the first render; the button "Mark
    Attendance Anyway" runs the handler of the latest render. *)
Definition handle (user : User) (ev : Event) (s : Sys B) : Sys B :=
  match ev with
  | EvMount navigatorOnLine =>
      let queue := useLocalStorage_initial (browser s) in
      mkSys (negb navigatorOnLine) queue (S (queueVersion s)) initialScanner
            (negb navigatorOnLine) queue []
            (browser s) (moduleLoad (browser s) (backend s))
  | EvOnline => setIsOffline false (with_browser (log LogNowOnline) s)
  | EvOffline => setIsOffline true (with_browser (log LogNowOffline) s)
  | EvScan now located decodedText =>
      onScanSuccess (mountClosure s) user now located decodedText s
  | EvMarkWithoutLocation now => handleMarkWithoutLocation (render s) user now s
  | EvResume => handleResumeScanning s
  | EvQuota exceeded => with_browser (setQuota exceeded) s
  | EvSettled =>
      match draining s with
      | [] => s
      | batch :: rest =>
          syncOfflineData_settle (Some batch) (with_draining (fun _ => rest) s)
      end
  end.

(** One event: its handler, then the effect when the component mounted or
    the effect's dependencies changed.  The effect only begins a drain: the
    rest of [syncOfflineData] runs when [EvSettled] arrives, and any event
    may come before.  The awaits inside a scanner callback (the location
    service, its one submission) are taken to settle before the next
    event. *)
Definition step (user : User) (ev : Event) (s : Sys B) : Sys B :=
  let s1 := handle user ev s in
  match ev with
  | EvMount _ => drainEffect s1
  | _ => if depsChanged s s1 then drainEffect s1 else s1
  end.

Definition run (user : User) (evs : list Event) (s : Sys B) : Sys B :=
  fold_left (fun s ev => step user ev s) evs s.

(** Number of drains begun so far (the log line of [syncOfflineData]). *)
Definition drainsBegun (s : Sys B) : nat :=
  List.length (filter beginsDrain (console (browser s))).

End Client.

(** ** Vocabulary of the statements *)

(** The codes the guard [!teacherId || !sessionId] rejects. *)
Definition guardRejects (code : string) : bool :=
  match code with
  | EmptyString => true
  | String c _ => Ascii.eqb c dash
  end.

(** [{ ...record, location }] *)
Definition withLocation (r : PendingRecord) (loc : option Position) : PendingRecord :=
  {| studentId := studentId r; studentName := studentName r;
     studentEnrollmentNumber := studentEnrollmentNumber r;
     teacherId := teacherId r; sessionId := sessionId r;
     timestamp := timestamp r; location := loc |}.

Definition rejected {A : Type} (p : Promise A) : bool :=
  match p with inl _ => true | inr _ => false end.

(** The record the mock stores for the next submission of [r]. *)
Definition nextStored (be : MockBackend) (r : PendingRecord) : AttendanceRecord :=
  {| att_id := "att" ++ decimal (Date_now be); att_fields := r |}.

(** The records the mock stores for a batch: identities read off the clock
    from its [k]-th reading on. *)
Fixpoint stamped (timeline : nat -> N) (k : nat) (records : list PendingRecord)
  : list AttendanceRecord :=
  match records with
  | [] => []
  | r :: rest =>
      {| att_id := "att" ++ decimal (timeline k); att_fields := r |}
        :: stamped timeline (S k) rest
  end.

(** What the scanner is given for one attendance: the clock reading, the
    position or null, and the decoded text. *)
Record Capture := mkCapture {
  cap_now : string;
  cap_location : option Position;
  cap_code : string
}.

Section Scenarios.

Context {B : Type} {api : ApiService B}.

(** The closure of the render that makes a call of [processAttendance]:
    with a position the call comes from [onScanSuccess], which is the first
    render's; without one it comes from [handleMarkWithoutLocation], which is
    the latest render's. *)
Definition callerClosure (location : option Position) (s : Sys B) : Closure :=
  match location with
  | Some _ => mountClosure s
  | None => render s
  end.

(** One call of [processAttendance], as its caller makes it. *)
Definition capture (user : User) (c : Capture) (s : Sys B) : Sys B :=
  snd (processAttendance (callerClosure (cap_location c) s) user
         (cap_now c) (cap_location c) (cap_code c) s).


(** The records the builder makes of a sequence of captures (a malformed
    code makes none). *)
Fixpoint built (user : User) (caps : list Capture) : list PendingRecord :=
  match caps with
  | [] => []
  | c :: rest =>
      match buildAttendanceData user (cap_now c) (cap_location c) (cap_code c) with
      | inr r => r :: built user rest
      | inl _ => built user rest
      end
  end.

(** How the submissions of the batch a drain of [s] would issue settle. *)
Definition submissionResults (s : Sys B) : list (Promise AttendanceRecord) :=
  snd (submitAll (pendingAttendance s)
         (backend s, log (LogSyncing (List.length (pendingAttendance s))) (browser s))).

(** The drain guard of [syncOfflineData]. *)
Definition drainGuard (s : Sys B) : bool :=
  Nat.ltb 0 (List.length (pendingAttendance s)) && negb (isOffline s).

(** The effect runs after this event: the component mounted, or the
    handler changed a dependency of the effect. *)
Definition effectRuns (user : User) (ev : Event) (s : Sys B) : bool :=
  match ev with
  | EvMount _ => true
  | _ => depsChanged s (handle user ev s)
  end.

(** A scan for which the location service gave a position. *)
Definition locatedScan (ev : Event) : bool :=
  match ev with
  | EvScan _ (inr _) _ => true
  | _ => false
  end.

(** The callback the scanner was started with still sees the connectivity
    and the queue as they are now. *)
Definition scannerUpToDate (s : Sys B) : Prop :=
  mountOffline s = isOffline s /\ mountQueue s = pendingAttendance s.

(** What one call of [processAttendance] may change, by the connectivity
    its closure holds: online, not the queue; offline, not the remote store,
    and the queue only by appending the record built. *)
Definition touchesLike (cl : Closure) (s s' : Sys B) : Prop :=
  isOffline s' = isOffline s /\
  (c_isOffline cl = false ->
     queueVersion s' = queueVersion s /\ pendingAttendance s' = pendingAttendance s) /\
  (c_isOffline cl = true ->
     backend s' = backend s /\
     ((pendingAttendance s' = pendingAttendance s /\ queueVersion s' = queueVersion s) \/
      exists r, pendingAttendance s' = c_pendingAttendance cl ++ [r])).

(** A drain of [s] during which the connection drops and a capture is made
    before the submissions have settled: [syncOfflineData] up to its
    [await], the offline event, the capture, then the rest of
    [syncOfflineData]. *)
Definition drainWithCapture (user : User) (c : Capture) (s : Sys B) : Sys B :=
  let '(batch, s1) := syncOfflineData_begin (render s) s in
  let s2 := step user EvOffline s1 in
  let s3 := capture user c s2 in
  syncOfflineData_settle batch s3.

End Scenarios.

(** A drain with the service [first], then another with [second]. *)
Definition drainThenRetry {B : Type} (first second : ApiService B) (s : Sys B) : Sys B :=
  @syncOfflineData B second (@syncOfflineData B first s).

(** ** Sample data (the scenarios of the spec) *)

Definition emptyStorage : LocalStorage :=
  {| item_pendingAttendance := None; item_mock_attendance := None;
     item_mock_teachers := None; item_mock_students := None;
     quotaExceeded := false |}.

Definition storageFull : LocalStorage :=
  {| item_pendingAttendance := None; item_mock_attendance := None;
     item_mock_teachers := None; item_mock_students := None;
     quotaExceeded := true |}.

Definition freshBrowser : Browser :=
  {| localStorage := emptyStorage; console := []; alerts := [] |}.

(** A clock that advances one millisecond per reading. *)
Definition tickingClock (k : nat) : N := (1700000000500 + N.of_nat k)%N.

(** A clock that does not advance between readings. *)
Definition frozenClock (_ : nat) : N := 1700000000500%N.

(** A stand-in for the platform's date formatting in the samples. *)
Definition plainDate (ms : Z) : string :=
  match ms with
  | Z.neg _ => "1969-12-31T00:00:00.000Z"
  | _ => ("ms" ++ decimal (Z.to_N ms))%string
  end.

Definition mockWith (timeline : nat -> N) : MockBackend :=
  {| teachers := [teacher1]; students := [student1; student2];
     attendanceRecords := []; timeline := timeline; toISOString := plainDate;
     Date_calls := 0 |}.

(** A client as mounting leaves it, with the given connectivity and queue. *)
Definition clientWith (offline : bool) (queue : list PendingRecord)
    (timeline : nat -> N) : Sys MockBackend :=
  mkSys offline queue 0 initialScanner offline queue [] freshBrowser (mockWith timeline).

Definition sampleCode : string := "teacher1-SESSION-1700000000000".

Definition sampleStamp : string := "2023-11-14T22:13:20.000Z".

Definition sampleRecord (stamp : string) : PendingRecord :=
  {| studentId := "student1"; studentName := "Alice Johnson";
     studentEnrollmentNumber := Some "S001"; teacherId := "teacher1";
     sessionId := sampleCode; timestamp := stamp; location := None |}.

(** The offline capture of the spec's scenario: code
    [teacher1-SESSION-1700000000000], student S001, no location. *)
Definition sampleCapture : Capture :=
  {| cap_now := sampleStamp; cap_location := None; cap_code := sampleCode |}.

Definition geolocationDenied : JsError := mkError "User denied Geolocation".

(** Three queued records, and a remote store that loses the second. *)
Definition threeQueued : list PendingRecord :=
  [sampleRecord "09:00"; sampleRecord "09:01"; sampleRecord "09:02"].

Definition secondIsLost (r : PendingRecord) : bool :=
  String.eqb (timestamp r) "09:01".

Definition lossyApiService : ApiService MockBackend :=
  flakyApiService mockApiService secondIsLost.

(** An offline client whose storage accepts no more writes. *)
Definition clientStorageFull : Sys MockBackend :=
  mkSys true [] 0 initialScanner true [] []
        {| localStorage := storageFull; console := []; alerts := [] |}
        (mockWith tickingClock).

(** A client that is online with one record still queued, in memory and in
    local storage (as a drain that failed leaves it). *)
Definition clientOnlineQueued : Sys MockBackend :=
  mkSys false [sampleRecord "09:00"] 1 initialScanner false [sampleRecord "09:00"] []
        {| localStorage :=
             {| item_pendingAttendance := Some [sampleRecord "09:00"];
                item_mock_attendance := Some [];
                item_mock_teachers := None;
                item_mock_students := None;
                quotaExceeded := false |};
           console := []; alerts := [] |}
        (mockWith tickingClock).

(** ** Accounts and attendance queries (mockApiService) *)

(** [Omit<User, 'id' | 'role'>]: what registration and the teacher form
    hand to the service. *)
Record UserData := mkUserData {
  ud_name : string;
  ud_email : string;
  ud_password : option string;
  ud_phone : option string;
  ud_address : option string;
  ud_specialization : option string;
  ud_enrollmentNumber : option string
}.

(** [{ ...userData, id, role }] *)
Definition newUser (userData : UserData) (id : string) (r : Role) : User :=
  {| user_id := id; name := ud_name userData; email := ud_email userData;
     role := r; password := ud_password userData; phone := ud_phone userData;
     address := ud_address userData; specialization := ud_specialization userData;
     enrollmentNumber := ud_enrollmentNumber userData |}.

(** [list.some(u => u.email === email)] *)
Definition hasEmail (mail : string) (users : list User) : bool :=
  existsb (fun u => String.eqb (email u) mail) users.

(** A write of a key whose item the record [LocalStorage] does not track
    (the quiz tables): the tracked items are left alone, a failing write is
    logged. *)
Definition writeUntracked (key : string) (w : Browser) : Browser :=
  setStoredData key (fun ls => ls) w.

Definition emailExists : JsError := mkError "An account with this email already exists.".

Definition registerStudent (userData : UserData) (st : MockBackend * Browser)
  : (MockBackend * Browser) * Promise User :=
  let (be, w) := st in
  if hasEmail (ud_email userData) (students be) || hasEmail (ud_email userData) (teachers be)
  then (st, inl emailExists)
  else
    let newStudent := newUser userData ("student" ++ decimal (Date_now be)) Student in
    let be' := {| teachers := teachers be;
                  students := students be ++ [newStudent];
                  attendanceRecords := attendanceRecords be;
                  timeline := timeline be;
                  toISOString := toISOString be;
                  Date_calls := S (Date_calls be) |} in
    ((be', setStoredData "mock_students" (put_mock_students (students be')) w),
     inr (userWithoutPassword newStudent)).

Definition getTeachers (be : MockBackend) : list User :=
  map userWithoutPassword (teachers be).

Definition addTeacher (teacherData : UserData) (st : MockBackend * Browser)
  : (MockBackend * Browser) * Promise User :=
  let (be, w) := st in
  if hasEmail (ud_email teacherData) (teachers be) || hasEmail (ud_email teacherData) (students be)
  then (st, inl emailExists)
  else
    let newTeacher := newUser teacherData (newTeacherId (Date_now be)) Teacher in
    let be' := {| teachers := teachers be ++ [newTeacher];
                  students := students be;
                  attendanceRecords := attendanceRecords be;
                  timeline := timeline be;
                  toISOString := toISOString be;
                  Date_calls := S (Date_calls be) |} in
    ((be', setStoredData "mock_teachers" (put_mock_teachers (teachers be')) w),
     inr (userWithoutPassword newTeacher)).

(** [list.findIndex(p)]; [None] is [-1]. *)
Fixpoint findIndex {A : Type} (p : A -> bool) (l : list A) : option nat :=
  match l with
  | [] => None
  | x :: rest =>
      if p x then Some 0
      else match findIndex p rest with
           | Some i => Some (S i)
           | None => None
           end
  end.

(** [list[index] = v], for an index within the list. *)
Fixpoint setAt {A : Type} (index : nat) (v : A) (l : list A) : list A :=
  match l, index with
  | [], _ => []
  | _ :: rest, 0 => v :: rest
  | x :: rest, S i => x :: setAt i v rest
  end.

(** An optional key of the second object overrides the first when present. *)
Definition spreadOver {A : Type} (base over : option A) : option A :=
  match over with
  | Some v => Some v
  | None => base
  end.

(** [{ ...originalTeacher, ...teacher }], then the password of the original
    when [!teacher.password]. *)
Definition updatedTeacherData (originalTeacher teacher : User) : User :=
  {| user_id := user_id teacher; name := name teacher; email := email teacher;
     role := role teacher;
     password := if truthy (password teacher) then password teacher
                 else password originalTeacher;
     phone := spreadOver (phone originalTeacher) (phone teacher);
     address := spreadOver (address originalTeacher) (address teacher);
     specialization := spreadOver (specialization originalTeacher) (specialization teacher);
     enrollmentNumber := spreadOver (enrollmentNumber originalTeacher)
                                    (enrollmentNumber teacher) |}.

Definition teacherNotFound : JsError := mkError "Teacher not found".

Definition updateTeacher (teacher : User) (st : MockBackend * Browser)
  : (MockBackend * Browser) * Promise User :=
  let (be, w) := st in
  match findIndex (fun t => String.eqb (user_id t) (user_id teacher)) (teachers be) with
  | None => (st, inl teacherNotFound)
  | Some index =>
      match nth_error (teachers be) index with
      | None => (st, inl teacherNotFound)
      | Some originalTeacher =>
          let updated := updatedTeacherData originalTeacher teacher in
          let be' := {| teachers := setAt index updated (teachers be);
                        students := students be;
                        attendanceRecords := attendanceRecords be;
                        timeline := timeline be;
                        toISOString := toISOString be;
                        Date_calls := Date_calls be |} in
          ((be', setStoredData "mock_teachers" (put_mock_teachers (teachers be')) w),
           inr (userWithoutPassword updated))
      end
  end.

(** [deleteTeacher(teacherId)]; it always answers [{ success: true }]. *)
Definition deleteTeacher (teacherId' : string) (st : MockBackend * Browser)
  : (MockBackend * Browser) * Promise bool :=
  let (be, w) := st in
  let be' := {| teachers := filter (fun t => negb (String.eqb (user_id t) teacherId')) (teachers be);
                students := students be;
                attendanceRecords := attendanceRecords be;
                timeline := timeline be;
                toISOString := toISOString be;
                Date_calls := Date_calls be |} in
  ((be', setStoredData "mock_teachers" (put_mock_teachers (teachers be')) w), inr true).

Definition getStudents (be : MockBackend) : list User := students be.

Definition getAttendanceForSession (session : string) (be : MockBackend)
  : list AttendanceRecord :=
  filter (fun r => String.eqb (sessionId (att_fields r)) session) (attendanceRecords be).

Definition getAllAttendance (be : MockBackend) : list AttendanceRecord :=
  attendanceRecords be.

(** *** Vocabulary for the account operations *)

(** The stored teacher a given identity denotes: the first with it. *)
Definition teacherById (id : string) (be : MockBackend) : option User :=
  find (fun t => String.eqb (user_id t) id) (teachers be).

(** No two accounts, teachers and students together, share an email. *)
Definition distinctEmails (be : MockBackend) : Prop :=
  NoDup (map email (teachers be ++ students be)).

(** The two operations that create accounts. *)
Inductive AccountOp :=
| Register (userData : UserData)
| AddTeacher (teacherData : UserData).

Definition applyAccountOp (op : AccountOp) (st : MockBackend * Browser)
  : MockBackend * Browser :=
  match op with
  | Register userData => fst (registerStudent userData st)
  | AddTeacher teacherData => fst (addTeacher teacherData st)
  end.

Definition applyAccountOps (ops : list AccountOp) (st : MockBackend * Browser)
  : MockBackend * Browser :=
  fold_left (fun st op => applyAccountOp op st) ops st.

Definition aliceData : UserData :=
  {| ud_name := "Alice Johnson"; ud_email := "alice.j@school.com";
     ud_password := Some "secret"; ud_phone := None; ud_address := None;
     ud_specialization := None; ud_enrollmentNumber := Some "S009" |}.

Definition carolData : UserData :=
  {| ud_name := "Carol Diaz"; ud_email := "carol.d@school.com";
     ud_password := Some "secret"; ud_phone := None; ud_address := None;
     ud_specialization := None; ud_enrollmentNumber := Some "S010" |}.

(** ** Teacher form and teacher manager (admin dashboard) *)

(** State [teacher] of the form: the six inputs, always present since the
    state starts from [defaultState], and what else [initialData] brought. *)
Record FormTeacher := mkFormTeacher {
  f_name : string;
  f_email : string;
  f_password : string;
  f_phone : string;
  f_address : string;
  f_specialization : string;
  f_id : option string;
  f_role : option Role;
  f_enrollmentNumber : option string
}.

Definition defaultState : FormTeacher :=
  {| f_name := ""; f_email := ""; f_password := ""; f_phone := ""; f_address := "";
     f_specialization := ""; f_id := None; f_role := None; f_enrollmentNumber := None |}.

Definition orDefault (v : option string) (d : string) : string :=
  match v with
  | Some x => x
  | None => d
  end.

(** The effect on [initialData]:
    [{ ...defaultState, ...initialData, password: '' }], or [defaultState]. *)
Definition loadInitialData (initialData : option User) : FormTeacher :=
  match initialData with
  | Some d =>
      {| f_name := name d; f_email := email d; f_password := "";
         f_phone := orDefault (phone d) ""; f_address := orDefault (address d) "";
         f_specialization := orDefault (specialization d) "";
         f_id := Some (user_id d); f_role := Some (role d);
         f_enrollmentNumber := enrollmentNumber d |}
  | None => defaultState
  end.

Inductive InputName :=
| InName | InEmail | InPassword | InPhone | InAddress | InSpecialization.

(** [handleChange]: [{ ...teacher, [e.target.name]: e.target.value }] *)
Definition handleChange (input : InputName) (value : string) (t : FormTeacher)
  : FormTeacher :=
  match input with
  | InName =>
      mkFormTeacher value (f_email t) (f_password t) (f_phone t) (f_address t)
                    (f_specialization t) (f_id t) (f_role t) (f_enrollmentNumber t)
  | InEmail =>
      mkFormTeacher (f_name t) value (f_password t) (f_phone t) (f_address t)
                    (f_specialization t) (f_id t) (f_role t) (f_enrollmentNumber t)
  | InPassword =>
      mkFormTeacher (f_name t) (f_email t) value (f_phone t) (f_address t)
                    (f_specialization t) (f_id t) (f_role t) (f_enrollmentNumber t)
  | InPhone =>
      mkFormTeacher (f_name t) (f_email t) (f_password t) value (f_address t)
                    (f_specialization t) (f_id t) (f_role t) (f_enrollmentNumber t)
  | InAddress =>
      mkFormTeacher (f_name t) (f_email t) (f_password t) (f_phone t) value
                    (f_specialization t) (f_id t) (f_role t) (f_enrollmentNumber t)
  | InSpecialization =>
      mkFormTeacher (f_name t) (f_email t) (f_password t) (f_phone t) (f_address t)
                    value (f_id t) (f_role t) (f_enrollmentNumber t)
  end.

(** [{ ...editingTeacher, ...teacherData }] *)
Definition mergeEdit (editingTeacher : User) (teacherData : FormTeacher) : User :=
  {| user_id := orDefault (f_id teacherData) (user_id editingTeacher);
     name := f_name teacherData; email := f_email teacherData;
     role := match f_role teacherData with Some r => r | None => role editingTeacher end;
     password := Some (f_password teacherData);
     phone := Some (f_phone teacherData);
     address := Some (f_address teacherData);
     specialization := Some (f_specialization teacherData);
     enrollmentNumber := spreadOver (enrollmentNumber editingTeacher)
                                    (f_enrollmentNumber teacherData) |}.

(** The form data as [addTeacher] reads it (it sets [id] and [role] itself). *)
Definition asUserData (teacherData : FormTeacher) : UserData :=
  {| ud_name := f_name teacherData; ud_email := f_email teacherData;
     ud_password := Some (f_password teacherData);
     ud_phone := Some (f_phone teacherData);
     ud_address := Some (f_address teacherData);
     ud_specialization := Some (f_specialization teacherData);
     ud_enrollmentNumber := f_enrollmentNumber teacherData |}.

(** State of the teacher manager with its modal form. *)
Record ManagerState := mkManager {
  m_teachers : list User;
  isModalOpen : bool;
  editingTeacher : option User;
  m_form : FormTeacher;
  m_error : string
}.


Definition handleOpenModalForEdit (teacher : User) (m : ManagerState) : ManagerState :=
  mkManager (m_teachers m) true (Some teacher) (loadInitialData (Some teacher)) (m_error m).

Definition typeInForm (input : InputName) (value : string) (m : ManagerState)
  : ManagerState :=
  mkManager (m_teachers m) (isModalOpen m) (editingTeacher m)
            (handleChange input value (m_form m)) (m_error m).

(** [handleFormSubmit(teacherData)], up to the refresh of the list. *)
Definition handleFormSubmit (editing : option User) (teacherData : FormTeacher)
    (st : MockBackend * Browser) : (MockBackend * Browser) * Promise User :=
  match editing with
  | Some editingTeacher => updateTeacher (mergeEdit editingTeacher teacherData) st
  | None => addTeacher (asUserData teacherData) st
  end.

(** [handleSubmit] of the form inside the manager's modal: submit, refresh
    the list and close, or show the error and stay open. *)
Definition submitTeacherForm (m : ManagerState) (st : MockBackend * Browser)
  : ManagerState * (MockBackend * Browser) :=
  match handleFormSubmit (editingTeacher m) (m_form m) st with
  | (st', inr _) =>
      (mkManager (getTeachers (fst st')) false (editingTeacher m) (m_form m) "", st')
  | (st', inl e) =>
      (mkManager (m_teachers m) (isModalOpen m) (editingTeacher m) (m_form m)
                 (match e with
                  | mkError msg => msg
                  | notAnError => "An unexpected error occurred"
                  end), st')
  end.

(** ** Login screen *)

Record LoginState := mkLogin {
  isRegistering : bool;
  activeTab : Role;
  identifier : string;
  l_password : string;
  l_name : string;
  l_enrollmentNumber : string;
  l_error : string
}.

Definition roleName (r : Role) : string :=
  match r with
  | Admin => "Admin"
  | Teacher => "Teacher"
  | Student => "Student"
  end.

Definition isStudentTab (r : Role) : bool :=
  match r with
  | Student => true
  | _ => false
  end.

Definition isAdminTab (r : Role) : bool :=
  match r with
  | Admin => true
  | _ => false
  end.

Definition sameRole (a b : Role) : bool :=
  match a, b with
  | Admin, Admin | Teacher, Teacher | Student, Student => true
  | _, _ => false
  end.

Definition isEmpty (s : string) : bool :=
  match s with
  | EmptyString => true
  | String _ _ => false
  end.

(** [resetFormState()] *)
Definition resetFormState (l : LoginState) : LoginState :=
  mkLogin (isRegistering l) (activeTab l) "" "" "" "" "".

(** [handleTabChange(tab)] *)
Definition handleTabChange (tab : Role) (l : LoginState) : LoginState :=
  resetFormState (mkLogin false tab (identifier l) (l_password l) (l_name l)
                          (l_enrollmentNumber l) (l_error l)).

Definition loginError (l : LoginState) (e : JsError) : LoginState :=
  mkLogin (isRegistering l) (activeTab l) (identifier l) (l_password l) (l_name l)
          (l_enrollmentNumber l)
          (match e with
           | mkError msg => msg
           | notAnError => "An unexpected error occurred."
           end).

(** [handleSubmit] of the login screen.  The third component is the user
    handed to [onLoginSuccess], if it was called. *)
Definition loginSubmit (toLowerCase : string -> string) (l : LoginState)
    (st : MockBackend * Browser)
  : LoginState * (MockBackend * Browser) * option User :=
  let l0 := mkLogin (isRegistering l) (activeTab l) (identifier l) (l_password l)
                    (l_name l) (l_enrollmentNumber l) "" in
  if isRegistering l && isStudentTab (activeTab l) then
    if isEmpty (l_name l) || isEmpty (identifier l) || isEmpty (l_password l)
       || isEmpty (l_enrollmentNumber l)
    then (loginError l0 (mkError "All fields are required for registration."), st, None)
    else
      match registerStudent
              {| ud_name := l_name l; ud_email := identifier l;
                 ud_password := Some (l_password l); ud_phone := None;
                 ud_address := None; ud_specialization := None;
                 ud_enrollmentNumber := Some (l_enrollmentNumber l) |} st with
      | (st', inr _) =>
          (resetFormState (mkLogin false (activeTab l) (identifier l) (l_password l)
                                   (l_name l) (l_enrollmentNumber l) ""),
           (fst st', alert "Registration successful! Please log in." (snd st')), None)
      | (st', inl e) => (loginError l0 e, st', None)
      end
  else
    let loginIdentifier := if isAdminTab (activeTab l) then "admin" else identifier l in
    match login toLowerCase (fst st) loginIdentifier (l_password l) with
    | inr user =>
        if sameRole (role user) (activeTab l) then (l0, st, Some user)
        else (loginError l0
                (mkError ("Invalid credentials for the " ++ roleName (activeTab l)
                          ++ " portal.")), st, None)
    | inl e => (loginError l0 e, st, None)
    end.

(** ** Live attendance (teacher dashboard) *)

Record TakerState := mkTaker {
  t_records : list AttendanceRecord;
  allStudents : list User;
  enrollmentInput : string;
  manualMarkMessage : string * MessageType
}.

(** [fetchAttendance()] *)
Definition fetchAttendance (sessionCode : string) (be : MockBackend) (t : TakerState)
  : TakerState :=
  if isEmpty sessionCode then t
  else mkTaker (getAttendanceForSession sessionCode be) (allStudents t)
               (enrollmentInput t) (manualMarkMessage t).

Definition setManualMarkMessage (msg : string * MessageType) (t : TakerState) : TakerState :=
  mkTaker (t_records t) (allStudents t) (enrollmentInput t) msg.

(** [presentStudentIds.has(id)] *)
Definition isPresent (id : string) (t : TakerState) : bool :=
  existsb (fun r => String.eqb (studentId (att_fields r)) id) (t_records t).

(** [s.enrollmentNumber === enrollmentInput] *)
Definition hasEnrollment (input : string) (s : User) : bool :=
  match enrollmentNumber s with
  | Some e => String.eqb e input
  | None => false
  end.

(** The record a manual mark submits. *)
Definition manualRecord (user studentToMark : User) (sessionCode now : string)
  : PendingRecord :=
  {| studentId := user_id studentToMark;
     studentName := name studentToMark;
     studentEnrollmentNumber := enrollmentNumber studentToMark;
     teacherId := user_id user;
     sessionId := sessionCode;
     timestamp := now;
     location := None |}.

(** [handleManualMarkByEnrollment]; [user] is the teacher, [now] is
    [new Date().toISOString()]. *)
Definition handleManualMarkByEnrollment {api : ApiService MockBackend}
    (user : User) (sessionCode now : string)
    (t : TakerState) (st : MockBackend * Browser)
  : TakerState * (MockBackend * Browser) :=
  if isEmpty (enrollmentInput t) then
    (setManualMarkMessage ("Please enter an enrollment number.", error) t, st)
  else
    match find (hasEnrollment (enrollmentInput t)) (allStudents t) with
    | None =>
        (setManualMarkMessage ("Student with that enrollment number not found.", error) t, st)
    | Some studentToMark =>
        if isPresent (user_id studentToMark) t then
          (setManualMarkMessage
             ((name studentToMark ++ " is already marked as present.")%string, info) t, st)
        else
          match markAttendance (manualRecord user studentToMark sessionCode now) st with
          | (st', inr _) =>
              (fetchAttendance sessionCode (fst st')
                 (mkTaker (t_records t) (allStudents t) ""
                          (("Successfully marked " ++ name studentToMark
                            ++ " as present.")%string, success)),
               st')
          | (st', inl _) =>
              (setManualMarkMessage ("Failed to mark attendance.", error) t, st')
          end
    end.

Definition setEnrollmentInput (v : string) (t : TakerState) : TakerState :=
  mkTaker (t_records t) (allStudents t) v (manualMarkMessage t).

(** Typing into the form, one input after the other. *)
Definition typeAll (changes : list (InputName * string)) (m : ManagerState)
  : ManagerState :=
  fold_left (fun m c => typeInForm (fst c) (snd c) m) changes m.

Definition isPasswordInput (input : InputName) : bool :=
  match input with
  | InPassword => true
  | _ => false
  end.

Definition closedManager : ManagerState :=
  {| m_teachers := []; isModalOpen := false; editingTeacher := None;
     m_form := defaultState; m_error := "" |}.

Definition adminTab (pw : string) : LoginState :=
  {| isRegistering := false; activeTab := Admin; identifier := "someone";
     l_password := pw; l_name := ""; l_enrollmentNumber := ""; l_error := "" |}.

Definition studentTab (who pw : string) : LoginState :=
  {| isRegistering := false; activeTab := Student; identifier := who;
     l_password := pw; l_name := ""; l_enrollmentNumber := ""; l_error := "" |}.

Definition registeringTab (who mail pw enrolled : string) : LoginState :=
  {| isRegistering := true; activeTab := Student; identifier := mail;
     l_password := pw; l_name := who; l_enrollmentNumber := enrolled; l_error := "" |}.

(** A teacher's live view before anything was fetched or typed. *)
Definition takerWith (known : list User) (input : string) : TakerState :=
  {| t_records := []; allStudents := known; enrollmentInput := input;
     manualMarkMessage := ("", info) |}.

Definition samplePosition : Position :=
  {| latitude := 34.5%float; longitude := (-118.25)%float |}.

(** The remote store of [s'] is that of [s] with records appended. *)
Definition storeExtends (s s' : Sys MockBackend) : Prop :=
  exists added,
    attendanceRecords (backend s') = attendanceRecords (backend s) ++ added.


(** A page load. *)
Definition isMount (ev : Event) : bool :=
  match ev with
  | EvMount _ => true
  | _ => false
  end.

(** Local storage starts to refuse writes. *)
Definition fillsStorage (ev : Event) : bool :=
  match ev with
  | EvQuota exceeded => exceeded
  | _ => false
  end.

(** Local storage accepts writes and holds the attendance list the module
    has in memory. *)
Definition persisted (be : MockBackend) (w : Browser) : Prop :=
  quotaExceeded (localStorage w) = false /\
  item_mock_attendance (localStorage w) = Some (attendanceRecords be).

Definition storePersisted (s : Sys MockBackend) : Prop :=
  persisted (backend s) (browser s).

(** ** Quizzes (types.ts, mockApiService, geminiService, student dashboard) *)

Record QuizQuestion := mkQuestion {
  questionText : string;
  options : list string;
  correctAnswerIndex : Z
}.

Record Quiz := mkQuiz {
  quiz_id : string;
  title : string;
  questions : list QuizQuestion
}.

(** [Omit<QuizResult, 'submittedAt'>] *)
Record ResultData := mkResultData {
  quizId : string;
  result_studentId : string;
  score : float;
  answers : list (option Z)
}.

Record QuizResult := mkQuizResult {
  result_data : ResultData;
  submittedAt : string
}.

(** The module variables [quizzes] and [quizResults]. *)
Record QuizTables := mkQuizTables {
  quizzes : list Quiz;
  quizResults : list QuizResult
}.

(** [saveQuiz(quiz)]; [now] is what [Date.now()] returns. *)
Definition saveQuiz (quiz : Quiz) (now : N) (st : QuizTables * Browser)
  : (QuizTables * Browser) * Quiz :=
  let (tables, w) := st in
  let newQuiz := {| quiz_id := "quiz" ++ decimal now; title := title quiz;
                    questions := questions quiz |} in
  (({| quizzes := quizzes tables ++ [newQuiz]; quizResults := quizResults tables |},
    writeUntracked "mock_quizzes" w), newQuiz).

(** [submitQuiz(result)]; [now] is [new Date().toISOString()]. *)
Definition submitQuiz (result : ResultData) (now : string) (st : QuizTables * Browser)
  : (QuizTables * Browser) * QuizResult :=
  let (tables, w) := st in
  let newResult := {| result_data := result; submittedAt := now |} in
  (({| quizzes := quizzes tables; quizResults := quizResults tables ++ [newResult] |},
    writeUntracked "mock_quiz_results" w), newResult).

Definition getQuizResults (student : string) (tables : QuizTables) : list QuizResult :=
  filter (fun r => String.eqb (result_studentId (result_data r)) student)
         (quizResults tables).

Definition getQuizById (id : string) (tables : QuizTables) : option Quiz :=
  find (fun q => String.eqb (quiz_id q) id) (quizzes tables).

(** *** geminiService.generateQuiz *)

(** What [result.questions] reads as. *)
Inductive QuestionsValue :=
| QuestionsFalsy
| QuestionsNotArray
| QuestionsArray (qs : list QuizQuestion).

(** What [JSON.parse] returned: [null], on which reading a property
    throws, or a value with its [questions]. *)
Inductive ResponseValue :=
| ResponseNull
| ResponseWith (q : QuestionsValue).

(** The surroundings of the service: the key of the environment, the model
    call ([ai.models.generateContent], answering with [response.text]), and
    [JSON.parse] after [trim]. *)
Record Gemini := mkGemini {
  API_KEY : option string;
  generateContent : string -> Promise string;
  parseResponse : string -> Promise ResponseValue
}.

Definition newline : string := String (ascii_of_nat 10) EmptyString.

(** [`${n}`] for an integer. *)
Definition decimalZ (n : Z) : string := NilEmpty.string_of_int (Z.to_int n).

Definition contentLimit : nat := 30 * 1000.

(** The template literal [prompt]. *)
Definition promptOf (content difficulty : string) (numQuestions : Z) : string :=
  "Based on the following text, generate a quiz with " ++ decimalZ numQuestions
  ++ " multiple-choice questions. The difficulty level should be " ++ difficulty
  ++ ". Each question must have exactly 4 options, and only one correct answer."
  ++ newline ++ newline ++ "Text:" ++ newline ++ "---" ++ newline
  ++ substring 0 contentLimit content ++ newline ++ "---" ++ newline ++ newline
  ++ "Return the quiz in the specified JSON format." ++ newline.

Definition apiKeyMissing : JsError := mkError "API key is not configured.".

Definition invalidResponse : JsError :=
  mkError "Invalid response format from AI. Expected a 'questions' array.".

Definition generationFailed : JsError :=
  mkError "Failed to generate quiz. The AI service might be unavailable or the content might be unsuitable.".

(** The body of the [try] block.  (The line the [catch] writes on the
    console is not tracked.) *)
Definition generateQuiz_try (g : Gemini) (prompt : string) : Promise (list QuizQuestion) :=
  match generateContent g prompt with
  | inl e => inl e
  | inr text =>
      match parseResponse g text with
      | inl e => inl e
      | inr ResponseNull => inl notAnError
      | inr (ResponseWith QuestionsFalsy) => inl invalidResponse
      | inr (ResponseWith QuestionsNotArray) => inl invalidResponse
      | inr (ResponseWith (QuestionsArray qs)) => inr qs
      end
  end.

Definition generateQuiz (g : Gemini) (content difficulty : string) (numQuestions : Z)
  : Promise (list QuizQuestion) :=
  if negb (truthy (API_KEY g)) then inl apiKeyMissing
  else
    match generateQuiz_try g (promptOf content difficulty numQuestions) with
    | inr qs => inr qs
    | inl _ => inl generationFailed
    end.

(** *** QuizGenerator *)

Record File := mkFile {
  file_name : string;
  file_type : string;
  file_text : string
}.

Record GeneratorState := mkGenerator {
  g_file : option File;
  difficulty : string;
  numQuestions : Z;
  g_error : string
}.

Definition initialGenerator : GeneratorState :=
  {| g_file := None; difficulty := "Medium"; numQuestions := 5; g_error := "" |}.

(** [handleFileChange]; [files] is [e.target.files]. *)
Definition handleFileChange (files : option (list File)) (s : GeneratorState)
  : GeneratorState :=
  match files with
  | None => s
  | Some fs =>
      match fs with
      | uploadedFile :: _ =>
          if String.eqb (file_type uploadedFile) "text/plain"
          then mkGenerator (Some uploadedFile) (difficulty s) (numQuestions s) ""
          else mkGenerator None (difficulty s) (numQuestions s)
                           "Invalid file type. Please upload a .txt file."
      | [] => mkGenerator None (difficulty s) (numQuestions s)
                          "Invalid file type. Please upload a .txt file."
      end
  end.

(** [handleNumQuestionsChange]; [parsed] is [parseInt(e.target.value, 10)],
    [None] for [NaN]. *)
Definition handleNumQuestionsChange (parsed : option Z) (s : GeneratorState)
  : GeneratorState :=
  let value := match parsed with Some v => v | None => 1%Z end in
  let value := if Z.ltb 20 value then 20%Z else value in
  mkGenerator (g_file s) (difficulty s) value (g_error s).

Definition setGeneratorError (msg : string) (s : GeneratorState) : GeneratorState :=
  mkGenerator (g_file s) (difficulty s) (numQuestions s) msg.

(** [handleGenerate]; [now1] is the clock read for the identity of
    [newQuiz], [now2] the one [saveQuiz] reads.  The third component is the
    quiz handed to [onQuizGenerated], if it was called. *)
Definition handleGenerate (g : Gemini) (now1 now2 : N) (s : GeneratorState)
    (st : QuizTables * Browser)
  : GeneratorState * (QuizTables * Browser) * option Quiz :=
  match g_file s with
  | None => (setGeneratorError "Please upload a file." s, st, None)
  | Some file =>
      if Z.ltb (numQuestions s) 1 then
        (setGeneratorError "Number of questions must be at least 1." s, st, None)
      else
        match generateQuiz g (file_text file) (difficulty s) (numQuestions s) with
        | inl e =>
            (setGeneratorError (error_message e) s, st, None)
        | inr qs =>
            let newQuiz := {| quiz_id := "quiz-" ++ decimal now1;
                              title := file_name file; questions := qs |} in
            let '(st', _) := saveQuiz newQuiz now2 st in
            (setGeneratorError "" s, st', Some newQuiz)
        end
  end.

(** *** QuizView *)

Record QuizViewState := mkQuizView {
  currentQuestionIndex : nat;
  view_answers : list (option Z)
}.

(** [new Array(quiz.questions.length).fill(null)] *)
Definition initialQuizView (quiz : Quiz) : QuizViewState :=
  {| currentQuestionIndex := 0;
     view_answers := repeat None (List.length (questions quiz)) |}.

(** [array[index] = v] on a copy: within the array the element is
    replaced; beyond it the array grows, the holes reading as no answer. *)
Definition assignAt (index : nat) (v : option Z) (l : list (option Z))
  : list (option Z) :=
  if Nat.ltb index (List.length l) then setAt index v l
  else l ++ repeat None (index - List.length l) ++ [v].

Definition handleAnswer (optionIndex : nat) (s : QuizViewState) : QuizViewState :=
  {| currentQuestionIndex := currentQuestionIndex s;
     view_answers := assignAt (currentQuestionIndex s) (Some (Z.of_nat optionIndex))
                              (view_answers s) |}.

Definition handleNext (quiz : Quiz) (s : QuizViewState) : QuizViewState :=
  if Nat.ltb (currentQuestionIndex s) (List.length (questions quiz) - 1)
  then {| currentQuestionIndex := S (currentQuestionIndex s);
          view_answers := view_answers s |}
  else s.

(** [answers[i] === q.correctAnswerIndex] *)
Definition answeredCorrectly (given : option (option Z)) (q : QuizQuestion) : bool :=
  match given with
  | Some (Some a) => Z.eqb a (correctAnswerIndex q)
  | _ => false
  end.

(** The [forEach] of [handleSubmit], from question [i] on. *)
Fixpoint countCorrect (qs : list QuizQuestion) (i : nat) (given : list (option Z))
    (score : nat) : nat :=
  match qs with
  | [] => score
  | q :: rest =>
      countCorrect rest (S i) given
        (if answeredCorrectly (nth_error given i) q then S score else score)
  end.

(** A count as a JavaScript number. *)
Definition numberOfNat (n : nat) : float := PrimFloat.of_uint63 (Uint63.of_Z (Z.of_nat n)).

(** [resultData] of [handleSubmit]. *)
Definition resultDataOf (quiz : Quiz) (user : User) (s : QuizViewState) : ResultData :=
  let score := countCorrect (questions quiz) 0 (view_answers s) 0 in
  {| quizId := quiz_id quiz;
     result_studentId := user_id user;
     score := (numberOfNat score / numberOfNat (List.length (questions quiz)) * 100)%float;
     answers := view_answers s |}.

(** [handleSubmit] of the quiz view: the result saved and handed on. *)
Definition quizSubmit (quiz : Quiz) (user : User) (now : string) (s : QuizViewState)
    (st : QuizTables * Browser) : (QuizTables * Browser) * QuizResult :=
  submitQuiz (resultDataOf quiz user s) now st.

(** *** Vocabulary for the quiz properties *)

(** Every stored quiz has an identity of the form [saveQuiz] gives. *)
Definition savedIdentities (tables : QuizTables) : Prop :=
  Forall (fun q => exists n, quiz_id q = ("quiz" ++ decimal n)%string) (quizzes tables).

Inductive GeneratorEvent :=
| PickFile (files : option (list File))
| TypeCount (parsed : option Z)
| PickDifficulty (level : string).

Definition generatorStep (ev : GeneratorEvent) (s : GeneratorState) : GeneratorState :=
  match ev with
  | PickFile files => handleFileChange files s
  | TypeCount parsed => handleNumQuestionsChange parsed s
  | PickDifficulty level => mkGenerator (g_file s) level (numQuestions s) (g_error s)
  end.

Definition generatorRun (evs : list GeneratorEvent) (s : GeneratorState) : GeneratorState :=
  fold_left (fun s ev => generatorStep ev s) evs s.

Inductive QuizEvent :=
| Answer (optionIndex : nat)
| Next.

Definition quizStep (quiz : Quiz) (ev : QuizEvent) (s : QuizViewState) : QuizViewState :=
  match ev with
  | Answer optionIndex => handleAnswer optionIndex s
  | Next => handleNext quiz s
  end.

Definition quizRun (quiz : Quiz) (evs : list QuizEvent) (s : QuizViewState) : QuizViewState :=
  fold_left (fun s ev => quizStep quiz ev s) evs s.

Definition emptyTables : QuizTables := {| quizzes := []; quizResults := [] |}.

Definition notesFile : File :=
  {| file_name := "notes.txt"; file_type := "text/plain"; file_text := "Newton's laws." |}.

Definition sampleQuestions : list QuizQuestion :=
  [ {| questionText := "How many laws?"; options := ["1"; "2"; "3"; "4"];
       correctAnswerIndex := 2 |};
    {| questionText := "Who?"; options := ["Newton"; "Euler"; "Gauss"; "Noether"];
       correctAnswerIndex := 0 |} ].

(** A service that answers every prompt with the sample questions. *)
Definition cannedGemini : Gemini :=
  {| API_KEY := Some "key";
     generateContent := fun _ => inr "{...}";
     parseResponse := fun _ => inr (ResponseWith (QuestionsArray sampleQuestions)) |}.

(** A service whose answer has no [questions] array. *)
Definition malformedGemini : Gemini :=
  {| API_KEY := Some "key";
     generateContent := fun _ => inr "{}";
     parseResponse := fun _ => inr (ResponseWith QuestionsFalsy) |}.

Definition sampleQuiz : Quiz :=
  {| quiz_id := "quiz-1700000000500"; title := "notes.txt"; questions := sampleQuestions |}.

(** A text of [n] characters. *)
Fixpoint padding (n : nat) : string :=
  match n with
  | 0 => EmptyString
  | S k => String "a" (padding k)
  end.

(** [answer !== null] *)
Definition isAnswered (a : option Z) : bool :=
  match a with
  | Some _ => true
  | None => false
  end.

Unset Implicit Arguments.

(** * Properties *)

(** ** Strings *)

Lemma split_head (sep : ascii) (s : string) :
  nth_error (split sep s) 0 = Some (before_first sep s).
Proof.
  induction s as [|c rest IH]; simpl; [reflexivity|].
  destruct (Ascii.eqb c sep); [reflexivity|].
  destruct (split sep rest) as [|piece pieces] eqn:E; simpl in *.
  - discriminate.
  - congruence.
Qed.

Lemma before_first_app (sep : ascii) (t rest : string) :
  occurs sep t = false ->
  before_first sep (t ++ String sep rest) = t.
Proof.
  induction t as [|c t IH]; simpl; intros H.
  - now rewrite Ascii.eqb_refl.
  - apply orb_false_iff in H as [Hc Ht].
    rewrite Hc. now rewrite IH.
Qed.

Lemma before_first_empty_iff (sep : ascii) (s : string) :
  before_first sep s = "" <-> s = "" \/ exists rest, s = String sep rest.
Proof.
  destruct s as [|c rest]; simpl.
  - split; auto.
  - destruct (Ascii.eqb c sep) eqn:E.
    + apply Ascii.eqb_eq in E; subst. split; eauto.
    + split; [discriminate|].
      intros [H|[r H]]; [discriminate|].
      injection H as -> _. now rewrite Ascii.eqb_refl in E.
Qed.

(** The builder, case by case: it rejects exactly the codes whose first
    piece is empty, and otherwise takes the first piece as the teacher. *)
Lemma buildAttendanceData_cases (user : User) (now : string)
    (loc : option Position) (code : string) :
  buildAttendanceData user now loc code =
    match before_first dash code with
    | EmptyString => inl invalidQr
    | String _ _ as t =>
        inr {| studentId := user_id user; studentName := name user;
               studentEnrollmentNumber := enrollmentNumber user;
               teacherId := t; sessionId := code; timestamp := now;
               location := loc |}
    end.
Proof.
  unfold buildAttendanceData. rewrite split_head.
  destruct (before_first dash code) as [|c t] eqn:E; simpl; [reflexivity|].
  destruct code; [discriminate|reflexivity].
Qed.

(** ** Attendance record builder *)

Lemma sessionCodeOf_first_piece (T ts : string) :
  occurs dash T = false -> before_first dash (sessionCodeOf T ts) = T.
Proof.
  intros Hplain. unfold sessionCodeOf.
  change ("-SESSION-" ++ ts)%string with (String dash ("SESSION-" ++ ts)).
  now apply before_first_app.
Qed.

(** C3. For every session code [T-SESSION-<ts>] whose teacher identity [T]
    is non-empty and has no ['-'] of its own, the first piece of the code
    split on ['-'] is [T], and the builder makes the record whose teacher
    identity is exactly [T] and whose session identity is the whole scanned
    code. *)
Theorem build_extracts_teacher_identity
    (user : User) (now : string) (loc : option Position) (T ts : string)
    (Hnonempty : T <> "") (Hplain : occurs dash T = false) :
  nth_error (split dash (sessionCodeOf T ts)) 0 = Some T /\
  before_first dash (sessionCodeOf T ts) = T /\
  buildAttendanceData user now loc (sessionCodeOf T ts) =
    inr {| studentId := user_id user; studentName := name user;
           studentEnrollmentNumber := enrollmentNumber user;
           teacherId := T; sessionId := sessionCodeOf T ts;
           timestamp := now; location := loc |}.
Proof.
  pose proof (sessionCodeOf_first_piece T ts Hplain) as Hfirst.
  split; [|split].
  - now rewrite split_head, Hfirst.
  - exact Hfirst.
  - rewrite buildAttendanceData_cases, Hfirst.
    destruct T; [contradiction|reflexivity].
Qed.

Lemma build_extracts_teacher_identity_witness :
  "teacher1" <> "" /\ occurs dash "teacher1" = false /\
  buildAttendanceData student1 "2023-11-14T22:13:20.000Z" None sampleCode =
    inr (sampleRecord "2023-11-14T22:13:20.000Z").
Proof.
  split; [discriminate|]. split; [reflexivity|].
  refine (proj2 (proj2 (build_extracts_teacher_identity student1
            "2023-11-14T22:13:20.000Z" None "teacher1" "1700000000000" _ _)));
    [discriminate|reflexivity].
Defined.

Lemma string_of_uint_plain (d : Decimal.uint) :
  occurs dash (NilEmpty.string_of_uint d) = false.
Proof. induction d; simpl; auto. Qed.

(** The identities the service gives to teachers are non-empty and have no
    ['-']: the codes generated for them are read back exactly. *)
Lemma newTeacherId_plain (now : N) :
  newTeacherId now <> "" /\ occurs dash (newTeacherId now) = false.
Proof.
  unfold newTeacherId, decimal. split; [discriminate|].
  cbn. apply string_of_uint_plain.
Qed.

(** The code a teacher's dashboard generates is read back to that teacher. *)
Lemma generateCode_read_back (teacher student : User) (ms : N) (now : string)
    (loc : option Position) :
  user_id teacher <> "" -> occurs dash (user_id teacher) = false ->
  exists r, buildAttendanceData student now loc (generateCode teacher ms) = inr r /\
            teacherId r = user_id teacher /\
            sessionId r = generateCode teacher ms.
Proof.
  intros Hne Hplain. unfold generateCode.
  rewrite buildAttendanceData_cases, (sessionCodeOf_first_piece _ _ Hplain).
  destruct (user_id teacher) as [|c t]; [contradiction|].
  eexists; split; [reflexivity|]. split; reflexivity.
Qed.

Lemma guardRejects_spec (code : string) :
  guardRejects code = true <-> before_first dash code = "".
Proof.
  destruct code as [|c rest]; simpl; [tauto|].
  destruct (Ascii.eqb c dash); split; (reflexivity || discriminate).
Qed.

(** C4, as stated, fails: a non-empty code with no ['-'] at all is built
    into a record (its teacher identity is the whole code). *)
Lemma code_without_separator_is_built :
  occurs dash "PHYS101" = false /\
  buildAttendanceData student1 "2023-11-14T22:13:20.000Z" None "PHYS101" =
    inr {| studentId := "student1"; studentName := "Alice Johnson";
           studentEnrollmentNumber := Some "S001"; teacherId := "PHYS101";
           sessionId := "PHYS101"; timestamp := "2023-11-14T22:13:20.000Z";
           location := None |} /\
  ~ (forall user now loc code,
        code = "" \/ occurs dash code = false ->
        exists e, buildAttendanceData user now loc code = inl e).
Proof.
  split; [reflexivity|]. split; [reflexivity|].
  intros H.
  destruct (H student1 "" None "PHYS101" (or_intror eq_refl)) as [e He].
  discriminate He.
Qed.

(** C4, amended. The builder fails, with the error "Invalid QR code
    format.", exactly on the codes that are empty or begin with ['-'];
    [processAttendance] then rejects and changes nothing (no record is
    queued or submitted).  Every other code is built into a record whose
    teacher identity is the part of the code before its first ['-']. *)
Theorem build_rejects_empty_first_piece
    (user : User) (now : string) (loc : option Position) (code : string) :
  (guardRejects code = true <-> code = "" \/ exists rest, code = String dash rest) /\
  buildAttendanceData user now loc code =
    (if guardRejects code then inl invalidQr
     else inr {| studentId := user_id user; studentName := name user;
                 studentEnrollmentNumber := enrollmentNumber user;
                 teacherId := before_first dash code; sessionId := code;
                 timestamp := now; location := loc |}) /\
  (forall (B : Type) (api : ApiService B) (cl : Closure) (s : Sys B),
      guardRejects code = true ->
      processAttendance cl user now loc code s = (inl invalidQr, s)).
Proof.
  assert (Hbuild : buildAttendanceData user now loc code =
    (if guardRejects code then inl invalidQr
     else inr {| studentId := user_id user; studentName := name user;
                 studentEnrollmentNumber := enrollmentNumber user;
                 teacherId := before_first dash code; sessionId := code;
                 timestamp := now; location := loc |})).
  { rewrite buildAttendanceData_cases.
    destruct code as [|c rest]; simpl; [reflexivity|].
    destruct (Ascii.eqb c dash); reflexivity. }
  split; [|split].
  - rewrite guardRejects_spec. apply before_first_empty_iff.
  - exact Hbuild.
  - intros B api cl s Hrej. unfold processAttendance.
    rewrite Hbuild, Hrej. reflexivity.
Qed.

Lemma build_rejects_empty_first_piece_witness :
  guardRejects "-SESSION-1700000000000" = true /\
  buildAttendanceData student1 sampleStamp None "" = inl invalidQr /\
  processAttendance (render (clientWith true [] tickingClock)) student1 sampleStamp None
    "-SESSION-1700000000000" (clientWith true [] tickingClock)
  = (inl invalidQr, clientWith true [] tickingClock).
Proof.
  split; [reflexivity|]. split.
  - exact (proj1 (proj2 (build_rejects_empty_first_piece student1 sampleStamp None ""))).
  - apply (proj2 (proj2 (build_rejects_empty_first_piece student1 sampleStamp None
                           "-SESSION-1700000000000"))).
    reflexivity.
Defined.

(** ** Login *)

(** C10. Whatever [login] returns on success carries no password: the
    administrator's record has none, and a teacher's or student's is
    stripped before return. *)
Theorem login_returns_no_password
    (toLowerCase : string -> string) (be : MockBackend)
    (identifier pw : string) (u : User)
    (Hlogin : login toLowerCase be identifier pw = inr u) :
  password u = None.
Proof.
  unfold login in Hlogin.
  destruct (String.eqb identifier "admin" && String.eqb pw "123").
  - injection Hlogin as <-. reflexivity.
  - destruct (find _ _) as [user|]; [|discriminate].
    destruct (password_matches (password user) pw); [|discriminate].
    injection Hlogin as <-. reflexivity.
Qed.

Lemma login_returns_no_password_witness :
  login asciiLowerCase (mockWith tickingClock) "dr. evelyn REED" "password123"
    = inr (userWithoutPassword teacher1) /\
  password teacher1 = Some "password123" /\
  password (userWithoutPassword teacher1) = None.
Proof.
  split; [reflexivity|]. split; [reflexivity|].
  apply (login_returns_no_password asciiLowerCase (mockWith tickingClock)
           "dr. evelyn REED" "password123").
  reflexivity.
Defined.

(** Both kinds of successful login occur. *)
Lemma login_succeeds :
  login asciiLowerCase (mockWith tickingClock) "admin" "123" = inr MOCK_ADMIN /\
  login asciiLowerCase (mockWith tickingClock) "ALICE JOHNSON" "password123"
    = inr (userWithoutPassword student1) /\
  login asciiLowerCase (mockWith tickingClock) "Alice Johnson" "wrong"
    = inl (mkError "Invalid credentials").
Proof. repeat split. Qed.

(** ** The mock remote store *)

Lemma Promise_all_fulfilled {A : Type} (vs : list A) :
  Promise_all (map (fun v => inr v : Promise A) vs) = inr vs.
Proof.
  induction vs as [|v vs IH]; simpl; [reflexivity|]. now rewrite IH.
Qed.

Lemma Promise_all_rejected {A : Type} (results : list (Promise A)) :
  existsb rejected results = true ->
  exists e, Promise_all results = inl e.
Proof.
  induction results as [|[e|v] rest IH]; simpl; intros H.
  - discriminate.
  - eauto.
  - destruct (IH H) as [e He]. rewrite He. eauto.
Qed.

Lemma stamped_fields (timeline : nat -> N) (records : list PendingRecord) (k : nat) :
  map att_fields (stamped timeline k records) = records.
Proof.
  revert k. induction records as [|r rest IH]; intros k; simpl; [reflexivity|].
  now rewrite IH.
Qed.

Lemma stamped_length (timeline : nat -> N) (records : list PendingRecord) (k : nat) :
  List.length (stamped timeline k records) = List.length records.
Proof. rewrite <- (stamped_fields timeline records k) at 2. now rewrite length_map. Qed.

(** What a batch of submissions does to the mock: it stores the stamped
    records in order, fulfils every promise, and leaves the persisted queue,
    the quota and the alerts alone. *)
Lemma submitAll_mock (records : list PendingRecord) :
  forall (be : MockBackend) (w : Browser),
    let out := submitAll records (be, w) in
    snd out = map (fun v => inr v) (stamped (timeline be) (Date_calls be) records) /\
    attendanceRecords (fst (fst out)) =
      attendanceRecords be ++ stamped (timeline be) (Date_calls be) records /\
    timeline (fst (fst out)) = timeline be /\
    Date_calls (fst (fst out)) = Date_calls be + List.length records /\
    teachers (fst (fst out)) = teachers be /\
    students (fst (fst out)) = students be /\
    item_pendingAttendance (localStorage (snd (fst out))) =
      item_pendingAttendance (localStorage w) /\
    quotaExceeded (localStorage (snd (fst out))) = quotaExceeded (localStorage w) /\
    alerts (snd (fst out)) = alerts w.
Proof.
  induction records as [|r rest IH]; intros be w.
  - simpl. rewrite app_nil_r, Nat.add_0_r. repeat split.
  - cbn [submitAll markAttendance mockApiService mock_markAttendance].
    match goal with
    | |- context [submitAll rest (?b, ?v)] =>
        specialize (IH b v); destruct (submitAll rest (b, v)) as [[be2 w2] results]
    end.
    cbn [fst snd] in *. cbn [timeline Date_calls attendanceRecords teachers students] in IH.
    destruct IH as (Hres & Hrec & Htl & Hcalls & Ht & Hs & Hq & Hquota & Hal).
    repeat split.
    + simpl. unfold Date_now. now rewrite Hres.
    + rewrite Hrec. simpl. unfold Date_now. now rewrite <- app_assoc.
    + exact Htl.
    + rewrite Hcalls. simpl. lia.
    + exact Ht.
    + exact Hs.
    + rewrite Hq. unfold setStoredData, setItem.
      destruct (quotaExceeded (localStorage w)); reflexivity.
    + rewrite Hquota. unfold setStoredData, setItem.
      destruct (quotaExceeded (localStorage w)) eqn:E; simpl; [exact E|exact E].
    + rewrite Hal. unfold setStoredData, setItem.
      destruct (quotaExceeded (localStorage w)); reflexivity.
Qed.

(** ** Sync coordinator *)

Section Coordinator.

Context {B : Type} {api : ApiService B}.

(** The drain guard: nothing happens offline or on an empty queue. *)
Lemma syncOfflineData_idle (s : Sys B) :
  isOffline s = true \/ pendingAttendance s = [] -> syncOfflineData s = s.
Proof.
  intros H. unfold syncOfflineData, syncOfflineData_begin, render; cbn.
  destruct H as [-> | ->]; cbn.
  - rewrite andb_false_r. reflexivity.
  - reflexivity.
Qed.

(** A drain, spelled out on its outcome. *)
Lemma syncOfflineData_drains (s : Sys B) :
  isOffline s = false -> pendingAttendance s <> [] ->
  let w := log (LogSyncing (List.length (pendingAttendance s))) (browser s) in
  let out := submitAll (pendingAttendance s) (backend s, w) in
  let s1 := mkSys (isOffline s) (pendingAttendance s) (queueVersion s) (scanner s)
                  (mountOffline s) (mountQueue s) (draining s)
                  (snd (fst out)) (fst (fst out)) in
  syncOfflineData s = syncOfflineData_settle (Some (Promise_all (snd out))) s1.
Proof.
  intros Hon Hq. unfold syncOfflineData, syncOfflineData_begin, render; cbn.
  rewrite Hon. destruct (pendingAttendance s) as [|r q] eqn:E; [contradiction|].
  cbn [List.length Nat.ltb Nat.leb negb andb].
  destruct (submitAll (r :: q) _) as [[b w] results]. reflexivity.
Qed.

Lemma syncOfflineData_isOffline (s : Sys B) :
  isOffline (syncOfflineData s) = isOffline s.
Proof.
  destruct (isOffline s) eqn:Hoff.
  - rewrite syncOfflineData_idle; auto.
  - destruct (pendingAttendance s) as [|r q] eqn:E.
    + rewrite syncOfflineData_idle; auto.
    + rewrite syncOfflineData_drains; [|assumption|congruence].
      cbn zeta. destruct (Promise_all _); cbn; assumption.
Qed.

(** A drain in which some submission is rejected calls no setter. *)
Lemma syncOfflineData_rejected (s : Sys B) :
  existsb rejected (submissionResults s) = true ->
  pendingAttendance (syncOfflineData s) = pendingAttendance s /\
  queueVersion (syncOfflineData s) = queueVersion s.
Proof.
  intros Hfail.
  destruct (isOffline s) eqn:Hoff; [rewrite syncOfflineData_idle; auto|].
  destruct (pendingAttendance s) as [|r q] eqn:E; [rewrite syncOfflineData_idle; auto|].
  rewrite syncOfflineData_drains; [|assumption|congruence].
  cbn zeta. unfold submissionResults in Hfail. rewrite E in *.
  destruct (Promise_all_rejected _ Hfail) as [e He]. rewrite He.
  cbn. auto.
Qed.

(** A drain in which every submission is fulfilled empties the queue. *)
Lemma syncOfflineData_fulfilled (s : Sys B) (synced : list AttendanceRecord) :
  isOffline s = false -> pendingAttendance s <> [] ->
  Promise_all (submissionResults s) = inr synced ->
  pendingAttendance (syncOfflineData s) = [] /\
  queueVersion (syncOfflineData s) = S (queueVersion s).
Proof.
  intros Hon Hq Hall.
  rewrite syncOfflineData_drains by assumption.
  cbn zeta. unfold submissionResults in Hall. rewrite Hall. cbn. auto.
Qed.

Lemma depsChanged_same (s t : Sys B) :
  isOffline t = isOffline s -> queueVersion t = queueVersion s ->
  depsChanged s t = false.
Proof.
  intros Ho Hv. unfold depsChanged. rewrite Ho, Hv.
  now rewrite Bool.eqb_reflx, Nat.eqb_refl.
Qed.

(** The effect runs the drain at most once: its second pass, after a
    successful drain has replaced the queue, finds the queue empty. *)
Lemma runEffects_once (s : Sys B) : runEffects s = syncEffect s.
Proof.
  unfold runEffects, syncEffect.
  destruct (isOffline s) eqn:Hoff; cbn.
  - rewrite depsChanged_same; auto.
  - rewrite syncOfflineData_isOffline, Hoff. cbn.
    destruct (depsChanged s (syncOfflineData s)) eqn:Hdeps; [|reflexivity].
    destruct (pendingAttendance s) as [|r q] eqn:E.
    + rewrite (syncOfflineData_idle s) in *; auto.
      now rewrite syncOfflineData_idle by auto.
    + apply syncOfflineData_idle. right.
      destruct (existsb rejected (submissionResults s)) eqn:Hrej.
      * destruct (syncOfflineData_rejected s Hrej) as [_ Hv].
        rewrite depsChanged_same in Hdeps; [discriminate| |assumption].
        rewrite syncOfflineData_isOffline. reflexivity.
      * rewrite syncOfflineData_drains; [|assumption|congruence].
        cbn zeta. fold (submissionResults s).
        destruct (Promise_all (submissionResults s)) as [e|vs] eqn:Hall.
        -- exfalso. clear - Hrej Hall.
           induction (submissionResults s) as [|[e'|v] rest IH]; simpl in *;
             try discriminate.
           destruct (Promise_all rest); [auto|discriminate].
        -- reflexivity.
Qed.

End Coordinator.

(** ** Offline capture *)

Section OfflineCapture.

Context {B : Type} {api : ApiService B}.


(** The queue a callback appends to is the one its closure holds, whatever
    the queue has become since that render. *)
Lemma processAttendance_appends_to_closure_queue
    (cl : Closure) (user : User) (now : string) (loc : option Position)
    (code : string) (r : PendingRecord) (s : Sys B) :
  c_isOffline cl = true ->
  buildAttendanceData user now loc code = inr r ->
  pendingAttendance (snd (processAttendance cl user now loc code s))
    = c_pendingAttendance cl ++ [r].
Proof.
  intros Hoff Hbuilt. unfold processAttendance. rewrite Hbuilt, Hoff. reflexivity.
Qed.

(** Offline, a capture without location touches nothing but the queue, to
    which it appends the record it built (nothing, for a rejected code). *)
Lemma capture_offline (user : User) (c : Capture) (s : Sys B) :
  cap_location c = None ->
  isOffline s = true ->
  isOffline (capture user c s) = true /\
  backend (capture user c s) = backend s /\
  draining (capture user c s) = draining s /\
  pendingAttendance (capture user c s) = pendingAttendance s ++ built user [c].
Proof.
  intros Hloc Hoff. unfold capture, processAttendance. cbn [built]. rewrite Hloc.
  cbn [callerClosure render c_isOffline c_pendingAttendance].
  destruct (buildAttendanceData user (cap_now c) None (cap_code c)) as [e|r].
  - cbn. rewrite app_nil_r. auto.
  - rewrite Hoff. cbn. auto.
Qed.


End OfflineCapture.


(** A drain of the mock store: every submission is fulfilled. *)
Lemma syncOfflineData_mock (s : Sys MockBackend) :
  isOffline s = false -> pendingAttendance s <> [] ->
  pendingAttendance (syncOfflineData s) = [] /\
  attendanceRecords (backend (syncOfflineData s)) =
    attendanceRecords (backend s)
      ++ stamped (timeline (backend s)) (Date_calls (backend s)) (pendingAttendance s) /\
  timeline (backend (syncOfflineData s)) = timeline (backend s) /\
  Date_calls (backend (syncOfflineData s)) =
    Date_calls (backend s) + List.length (pendingAttendance s).
Proof.
  intros Hon Hq.
  rewrite syncOfflineData_drains by assumption. cbn zeta.
  pose proof (submitAll_mock (pendingAttendance s) (backend s)
                (log (LogSyncing (List.length (pendingAttendance s))) (browser s))) as H.
  cbn zeta in H.
  destruct (submitAll (pendingAttendance s) _) as [[be w] results].
  cbn [fst snd] in *.
  destruct H as (Hres & Hrec & Htl & Hcalls & _).
  rewrite Hres, Promise_all_fulfilled. cbn. auto.
Qed.

(** C1, on the code. A student scans two session codes while offline, each
    with a position, resuming the scanner in between, and then reconnects.
    The scanner calls the [onScanSuccess] it was started with, which appends
    to the queue as it was when the scanner was mounted: the second scan
    replaces the first record instead of following it.  One record is queued,
    persisted, drained and stored; the first is in no queue and in no store,
    although the student was told it had been saved. *)
Theorem located_offline_scans_keep_the_last :
  let located stamp := withLocation (sampleRecord stamp) (Some samplePosition) in
  let scan stamp := EvScan stamp (inr samplePosition) sampleCode in
  let s0 := step student1 (EvMount false) (clientWith true [] tickingClock) in
  let s1 := step student1 (scan "09:00") s0 in
  let s2 := run student1 [EvResume; scan "09:01"] s1 in
  let s3 := run student1 [EvOnline; EvSettled] s2 in
  isOffline s0 = true /\ pendingAttendance s0 = [] /\
  pendingAttendance s1 = [located "09:00"] /\
  message (scanner s1) = "You are offline. Attendance saved locally." /\
  pendingAttendance s2 = [located "09:01"] /\
  item_pendingAttendance (localStorage (browser s2)) = Some [located "09:01"] /\
  attendanceRecords (backend s2) = attendanceRecords (backend s0) /\
  map att_fields (attendanceRecords (backend s3))
    = map att_fields (attendanceRecords (backend s0)) ++ [located "09:01"] /\
  pendingAttendance s3 = [] /\
  draining s3 = [] /\
  ~ In (located "09:00") (map att_fields (attendanceRecords (backend s3))).
Proof.
  cbn zeta. repeat (split; [reflexivity|]).
  assert (E : map att_fields
                (attendanceRecords
                   (backend
                      (run student1 [EvOnline; EvSettled]
                         (run student1
                            [EvResume; EvScan "09:01" (inr samplePosition) sampleCode]
                            (step student1 (EvScan "09:00" (inr samplePosition) sampleCode)
                               (step student1 (EvMount false)
                                  (clientWith true [] tickingClock)))))))
              = map att_fields
                  (initialAttendance (plainDate (1700000000500 - 86400000))
                                     (plainDate (1700000000501 - 86400000)))
                ++ [withLocation (sampleRecord "09:01") (Some samplePosition)])
    by reflexivity.
  rewrite E. cbn. intros [H|[H|[H|[]]]]; discriminate H.
Qed.

(** ** Failed drains *)

(** C2. If any submission of a drained batch is rejected, whether all of
    them or only some, the pending queue after the drain has settled is the
    queue from before it: the setter is not called, so every record is
    retained, the accepted ones included, none lost and none duplicated.
    This holds of a drain that nothing interleaves with, and, when the
    effect begins the drain and other events come before it settles, of the
    queue as it is when the drain settles. *)
Theorem failed_drain_keeps_queue
    (B : Type) (api : ApiService B) (s : Sys B)
    (Hfailed : existsb rejected (submissionResults s) = true) :
  pendingAttendance (syncOfflineData s) = pendingAttendance s /\
  queueVersion (syncOfflineData s) = queueVersion s /\
  pendingAttendance (runEffects s) = pendingAttendance s /\
  (isOffline s = false -> pendingAttendance s <> [] ->
     exists e,
       draining (startDrain s) = draining s ++ [inl e] /\
       pendingAttendance (startDrain s) = pendingAttendance s /\
       forall (user : User) (later : Sys B) (rest : list Batch),
         draining later = inl e :: rest ->
         pendingAttendance (step user EvSettled later) = pendingAttendance later /\
         queueVersion (step user EvSettled later) = queueVersion later /\
         draining (step user EvSettled later) = rest).
Proof.
  destruct (syncOfflineData_rejected s Hfailed) as [Hq Hv].
  split; [exact Hq|]. split; [exact Hv|]. split.
  - rewrite runEffects_once. unfold syncEffect.
    destruct (negb (isOffline s)); [exact Hq|reflexivity].
  - intros Hon Hne.
    destruct (Promise_all_rejected _ Hfailed) as [e He].
    exists e. unfold startDrain, syncOfflineData_begin, render.
    cbn [c_pendingAttendance c_isOffline]. rewrite Hon.
    destruct (pendingAttendance s) as [|r q] eqn:E; [contradiction|].
    cbn [List.length Nat.ltb Nat.leb negb andb].
    unfold submissionResults in He. rewrite E in He.
    change (backend (with_browser (log (LogSyncing (List.length (r :: q)))) s))
      with (backend s).
    change (browser (with_browser (log (LogSyncing (List.length (r :: q)))) s))
      with (log (LogSyncing (List.length (r :: q))) (browser s)).
    destruct (submitAll (r :: q) _) as [st results]. cbn [snd] in He.
    rewrite He. cbn. split; [reflexivity|]. split; [exact E|].
    intros user later rest Hlater. rewrite Hlater.
    rewrite depsChanged_same by reflexivity. repeat split.
Qed.

Lemma failed_drain_keeps_queue_witness :
  let s := clientWith false threeQueued tickingClock in
  map rejected (@submissionResults _ lossyApiService s) = [false; true; false] /\
  pendingAttendance (@syncOfflineData _ lossyApiService s) = threeQueued /\
  map att_fields (attendanceRecords (backend (@syncOfflineData _ lossyApiService s)))
    = [sampleRecord "09:00"; sampleRecord "09:02"].
Proof.
  cbn zeta. split; [reflexivity|]. split; [|reflexivity].
  apply (failed_drain_keeps_queue MockBackend lossyApiService
           (clientWith false threeQueued tickingClock)).
  reflexivity.
Defined.

(** ** Re-submission *)

Lemma decimal_inj (m n : N) : decimal m = decimal n -> m = n.
Proof.
  unfold decimal. intros H.
  assert (Hu : N.to_uint m = N.to_uint n).
  { pose proof (NilEmpty.usu (N.to_uint m)) as Hm.
    pose proof (NilEmpty.usu (N.to_uint n)) as Hn.
    rewrite H in Hm. congruence. }
  rewrite <- (DecimalN.Unsigned.of_to m), <- (DecimalN.Unsigned.of_to n).
  now rewrite Hu.
Qed.

(** A batch sent through a lossy store: the records that are not lost are
    stored, in order; the promise of each lost one is rejected. *)
Lemma submitAll_flaky_mock (down : PendingRecord -> bool) (records : list PendingRecord) :
  forall (be : MockBackend) (w : Browser),
    let out := @submitAll _ (flakyApiService mockApiService down) records (be, w) in
    let kept := filter (fun r => negb (down r)) records in
    attendanceRecords (fst (fst out)) =
      attendanceRecords be ++ stamped (timeline be) (Date_calls be) kept /\
    timeline (fst (fst out)) = timeline be /\
    Date_calls (fst (fst out)) = Date_calls be + List.length kept /\
    existsb rejected (snd out) = existsb down records.
Proof.
  induction records as [|r rest IH]; intros be w.
  - cbn. rewrite app_nil_r, Nat.add_0_r. auto.
  - cbn [submitAll markAttendance flakyApiService filter existsb].
    unfold flaky_markAttendance at 1 2 3 4.
    destruct (down r) eqn:Hdown; cbn [negb orb].
    + specialize (IH be w). cbn zeta in IH.
      destruct (submitAll rest (be, w)) as [[be2 w2] results].
      cbn [fst snd existsb rejected orb] in *.
      destruct IH as (Hrec & Htl & Hcalls & _). auto.
    + cbn [markAttendance mockApiService mock_markAttendance].
      match goal with
      | |- context [submitAll rest (?b, ?v)] =>
          specialize (IH b v); cbn zeta in IH;
          destruct (submitAll rest (b, v)) as [[be2 w2] results]
      end.
      cbn [fst snd existsb rejected orb stamped List.length
           timeline Date_calls attendanceRecords] in *.
      destruct IH as (Hrec & Htl & Hcalls & Hrej).
      repeat split.
      * rewrite Hrec, <- app_assoc. reflexivity.
      * exact Htl.
      * rewrite Hcalls. lia.
      * exact Hrej.
Qed.

(** A drain through a lossy store that loses at least one record of the
    batch: the others are stored, the queue is kept. *)
Lemma syncOfflineData_flaky_mock (down : PendingRecord -> bool) (s : Sys MockBackend) :
  isOffline s = false ->
  existsb down (pendingAttendance s) = true ->
  let s1 := @syncOfflineData _ (flakyApiService mockApiService down) s in
  isOffline s1 = false /\
  pendingAttendance s1 = pendingAttendance s /\
  attendanceRecords (backend s1) =
    attendanceRecords (backend s)
      ++ stamped (timeline (backend s)) (Date_calls (backend s))
           (filter (fun r => negb (down r)) (pendingAttendance s)) /\
  timeline (backend s1) = timeline (backend s) /\
  Date_calls (backend s1) =
    Date_calls (backend s)
      + List.length (filter (fun r => negb (down r)) (pendingAttendance s)).
Proof.
  intros Hon Hdown. cbn zeta.
  assert (Hq : pendingAttendance s <> []).
  { intros E. rewrite E in Hdown. discriminate. }
  rewrite (@syncOfflineData_drains _ (flakyApiService mockApiService down) s Hon Hq).
  cbn zeta.
  pose proof (submitAll_flaky_mock down (pendingAttendance s) (backend s)
                (log (LogSyncing (List.length (pendingAttendance s))) (browser s))) as H.
  cbn zeta in H.
  destruct (submitAll (pendingAttendance s) _) as [[be w] results].
  cbn [fst snd] in *.
  destruct H as (Hrec & Htl & Hcalls & Hrej).
  rewrite <- Hrej in Hdown.
  destruct (Promise_all_rejected _ Hdown) as [e He]. rewrite He.
  cbn. auto.
Qed.

(** C7, as stated, fails on the identity: two submissions of one record
    for which the clock reads the same millisecond are stored under the
    same identity, as two equal records. *)
Lemma resubmission_reuses_identity :
  let out1 := mock_markAttendance (sampleRecord sampleStamp) (mockWith frozenClock, freshBrowser) in
  let out2 := mock_markAttendance (sampleRecord sampleStamp) (fst out1) in
  snd out1 = snd out2 /\
  attendanceRecords (fst (fst out2)) =
    [{| att_id := "att1700000000500"; att_fields := sampleRecord sampleStamp |};
     {| att_id := "att1700000000500"; att_fields := sampleRecord sampleStamp |}] /\
  ~ (forall (record : PendingRecord) (be : MockBackend) (w : Browser)
            (a1 a2 : AttendanceRecord),
        snd (mock_markAttendance record (be, w)) = inr a1 ->
        snd (mock_markAttendance record (fst (mock_markAttendance record (be, w)))) = inr a2 ->
        att_id a1 <> att_id a2).
Proof.
  cbn zeta. split; [reflexivity|]. split; [reflexivity|].
  intros H.
  apply (H (sampleRecord sampleStamp) (mockWith frozenClock) freshBrowser
           {| att_id := "att1700000000500"; att_fields := sampleRecord sampleStamp |}
           {| att_id := "att1700000000500"; att_fields := sampleRecord sampleStamp |});
    reflexivity.
Qed.

(** C7, amended. The remote store is not idempotent: submitting a record
    twice stores it twice, each time under the identity [att<Date.now()>],
    and the two stored records differ exactly when the clock read
    differently.  Hence, after a drain in which some submission was lost, the
    retry of the whole batch stores once more every record that the first
    drain had already stored. *)
Theorem resubmission_is_stored_again
    (record : PendingRecord) (be : MockBackend) (w : Browser)
    (down : PendingRecord -> bool) (s : Sys MockBackend)
    (Honline : isOffline s = false)
    (Hpartial : existsb down (pendingAttendance s) = true) :
  (let t1 := timeline be (Date_calls be) in
   let t2 := timeline be (S (Date_calls be)) in
   let a1 := {| att_id := "att" ++ decimal t1; att_fields := record |} in
   let a2 := {| att_id := "att" ++ decimal t2; att_fields := record |} in
   let out1 := mock_markAttendance record (be, w) in
   let out2 := mock_markAttendance record (fst out1) in
   snd out1 = inr a1 /\ snd out2 = inr a2 /\
   attendanceRecords (fst (fst out2)) = attendanceRecords be ++ [a1; a2] /\
   (a1 = a2 <-> t1 = t2)) /\
  (let lossy := flakyApiService mockApiService down in
   let accepted := filter (fun r => negb (down r)) (pendingAttendance s) in
   let s1 := @syncOfflineData _ lossy s in
   let s2 := drainThenRetry lossy mockApiService s in
   pendingAttendance s1 = pendingAttendance s /\
   map att_fields (attendanceRecords (backend s1)) =
     map att_fields (attendanceRecords (backend s)) ++ accepted /\
   map att_fields (attendanceRecords (backend s2)) =
     map att_fields (attendanceRecords (backend s)) ++ accepted ++ pendingAttendance s /\
   pendingAttendance s2 = []).
Proof.
  split.
  - cbn zeta. split; [reflexivity|]. split; [reflexivity|].
    split.
    + cbn. now rewrite <- app_assoc.
    + split.
      * intros H. injection H as H. now apply decimal_inj.
      * now intros ->.
  - cbn zeta. unfold drainThenRetry.
    destruct (syncOfflineData_flaky_mock down s Honline Hpartial)
      as (Hon1 & Hq1 & Hrec1 & Htl1 & Hcalls1).
    set (s1 := @syncOfflineData _ (flakyApiService mockApiService down) s) in *.
    assert (Hne : pendingAttendance s1 <> []).
    { rewrite Hq1. intros E. rewrite E in Hpartial. discriminate. }
    destruct (syncOfflineData_mock s1 Hon1 Hne) as (Hempty & Hrec2 & _).
    split; [exact Hq1|]. split; [|split].
    + rewrite Hrec1, map_app, stamped_fields. reflexivity.
    + rewrite Hrec2, Hrec1, !map_app, !stamped_fields, Hq1, app_assoc. reflexivity.
    + exact Hempty.
Qed.

Lemma resubmission_is_stored_again_witness :
  let s := clientWith false threeQueued tickingClock in
  isOffline s = false /\
  existsb secondIsLost (pendingAttendance s) = true /\
  map att_fields
      (attendanceRecords (backend (drainThenRetry lossyApiService mockApiService s)))
    = [sampleRecord "09:00"; sampleRecord "09:02";
       sampleRecord "09:00"; sampleRecord "09:01"; sampleRecord "09:02"].
Proof.
  cbn zeta. split; [reflexivity|]. split; [reflexivity|].
  pose proof (resubmission_is_stored_again (sampleRecord "09:00")
                (mockWith tickingClock) freshBrowser secondIsLost
                (clientWith false threeQueued tickingClock) eq_refl eq_refl) as [_ H].
  cbn zeta in H. destruct H as (_ & _ & H & _).
  exact H.
Defined.

(** ** Storage failures *)

(** A failing write only leaves a line on the console. *)
Lemma setStoredData_swallows (key : string) (put : LocalStorage -> LocalStorage)
    (w : Browser) :
  quotaExceeded (localStorage w) = true ->
  setStoredData key put w = log (LogWriteError key) w.
Proof.
  intros Hfull. unfold setStoredData, setItem. now rewrite Hfull.
Qed.

(** C8, as stated, fails: with storage that accepts no write, an offline
    capture is reported to its caller as saved, although the persisted queue
    was not written; after a reload the record is gone. *)
Lemma enqueue_write_failure_is_silent :
  let out := processAttendance (render clientStorageFull) student1 sampleStamp None
               sampleCode clientStorageFull in
  quotaExceeded (localStorage (browser clientStorageFull)) = true /\
  fst out = inr tt /\
  message (scanner (snd out)) = "Offline. Attendance saved locally (no location)." /\
  messageType (scanner (snd out)) = success /\
  item_pendingAttendance (localStorage (browser (snd out))) = None /\
  pendingAttendance (step student1 (EvMount false) (snd out)) = [] /\
  ~ (forall (s : Sys MockBackend) (user : User) (now : string)
            (loc : option Position) (code : string),
        quotaExceeded (localStorage (browser s)) = true ->
        isOffline s = true ->
        guardRejects code = false ->
        exists e, fst (processAttendance (render s) user now loc code s) = inl e).
Proof.
  cbn zeta. repeat (split; [reflexivity|]).
  intros H.
  destruct (H clientStorageFull student1 sampleStamp None sampleCode
              eq_refl eq_refl eq_refl) as [e He].
  discriminate He.
Qed.

(** C8, amended. When the durable write fails during an enqueue, the
    failure is caught and logged on the console and the enqueue returns
    normally: the caller is told the attendance was saved, the record is
    held in the in-memory queue only, and local storage is left as it was. *)
Theorem enqueue_swallows_write_failure
    (B : Type) (api : ApiService B) (s : Sys B) (user : User) (now : string)
    (loc : option Position) (code : string) (r : PendingRecord)
    (Hfull : quotaExceeded (localStorage (browser s)) = true)
    (Hoffline : isOffline s = true)
    (Hbuilt : buildAttendanceData user now loc code = inr r) :
  let out := processAttendance (render s) user now loc code s in
  fst out = inr tt /\
  messageType (scanner (snd out)) = success /\
  pendingAttendance (snd out) = pendingAttendance s ++ [r] /\
  localStorage (browser (snd out)) = localStorage (browser s) /\
  console (browser (snd out)) = console (browser s) ++ [LogWriteError "pendingAttendance"] /\
  backend (snd out) = backend s.
Proof.
  cbn zeta. unfold processAttendance, render; cbn.
  rewrite Hbuilt, Hoffline. cbn.
  rewrite setStoredData_swallows by assumption.
  destruct loc; cbn; auto 10.
Qed.

Lemma enqueue_swallows_write_failure_witness :
  let out := processAttendance (render clientStorageFull) student1 sampleStamp None
               sampleCode clientStorageFull in
  quotaExceeded (localStorage (browser clientStorageFull)) = true /\
  buildAttendanceData student1 sampleStamp None sampleCode = inr (sampleRecord sampleStamp) /\
  fst out = inr tt /\
  pendingAttendance (snd out) = [sampleRecord sampleStamp] /\
  localStorage (browser (snd out)) = storageFull.
Proof.
  cbn zeta. split; [reflexivity|]. split; [reflexivity|].
  pose proof (enqueue_swallows_write_failure MockBackend mockApiService
                clientStorageFull student1 sampleStamp None sampleCode
                (sampleRecord sampleStamp) eq_refl eq_refl eq_refl) as H.
  cbn zeta in H. destruct H as (Hres & _ & Hq & Hls & _).
  split; [exact Hres|]. split; [exact Hq|exact Hls].
Defined.

(** ** A capture made while a drain is in flight *)

Lemma step_EvOffline {B : Type} {api : ApiService B} (user : User) (s : Sys B) :
  step user EvOffline s = handle user EvOffline s.
Proof.
  unfold step. destruct (depsChanged s (handle user EvOffline s)); reflexivity.
Qed.

(** Whatever is captured while the submissions of a drain are in flight is
    cleared with the batch when the drain succeeds, without having been
    submitted. *)
Lemma drainWithCapture_mock (user : User) (c : Capture) (s : Sys MockBackend) :
  cap_location c = None ->
  isOffline s = false -> pendingAttendance s <> [] ->
  pendingAttendance (drainWithCapture user c s) = [] /\
  map att_fields (attendanceRecords (backend (drainWithCapture user c s))) =
    map att_fields (attendanceRecords (backend s)) ++ pendingAttendance s.
Proof.
  intros Hloc Hon Hq. unfold drainWithCapture, syncOfflineData_begin, render.
  cbn [c_pendingAttendance c_isOffline with_browser backend browser].
  rewrite Hon. destruct (pendingAttendance s) as [|r q] eqn:E; [contradiction|].
  cbn [List.length Nat.ltb Nat.leb negb andb].
  pose proof (submitAll_mock (r :: q) (backend s)
                (log (LogSyncing (List.length (r :: q))) (browser s))) as H.
  cbn zeta in H.
  destruct (submitAll (r :: q) _) as [[be w] results].
  cbn [fst snd] in *.
  destruct H as (Hres & Hrec & _).
  rewrite Hres, Promise_all_fulfilled, step_EvOffline.
  split; [reflexivity|].
  match goal with
  | |- context [capture user c ?t] =>
      destruct (capture_offline user c t Hloc eq_refl) as (_ & Hb & _)
  end.
  cbn [syncOfflineData_settle with_browser setPendingAttendance backend].
  rewrite Hb. cbn [handle setIsOffline with_browser backend].
  rewrite Hrec, map_app, stamped_fields. reflexivity.
Qed.

(** C9, on the code. The queue holds one record and the client is online;
    while the submission of the drain is in flight the connection drops and
    a second attendance is captured.  The capture is queued behind the
    first record, and the clear that ends the successful drain removes both:
    the second record is neither in the remote store nor in the queue, in
    memory or persisted. *)
Theorem capture_during_drain_is_lost :
  let s := clientWith false [sampleRecord "09:00"] tickingClock in
  let inFlight := snd (syncOfflineData_begin (render s) s) in
  let captured := capture student1 sampleCapture (step student1 EvOffline inFlight) in
  let final := drainWithCapture student1 sampleCapture s in
  pendingAttendance captured = [sampleRecord "09:00"; sampleRecord sampleStamp] /\
  pendingAttendance final = [] /\
  item_pendingAttendance (localStorage (browser final)) = Some [] /\
  map att_fields (attendanceRecords (backend final)) = [sampleRecord "09:00"] /\
  ~ In (sampleRecord sampleStamp) (map att_fields (attendanceRecords (backend final))).
Proof.
  cbn zeta. repeat (split; [reflexivity|]).
  assert (E : map att_fields
                (attendanceRecords
                   (backend (drainWithCapture student1 sampleCapture
                               (clientWith false [sampleRecord "09:00"] tickingClock))))
              = [sampleRecord "09:00"]) by reflexivity.
  rewrite E. intros [H|[]]. discriminate H.
Qed.

(** ** What the handlers touch *)

Section Handlers.

Context {B : Type} {api : ApiService B}.

Lemma callMarkAttendance_keeps (record : PendingRecord) (s : Sys B) :
  let s' := snd (callMarkAttendance record s) in
  isOffline s' = isOffline s /\ queueVersion s' = queueVersion s /\
  pendingAttendance s' = pendingAttendance s /\ scanner s' = scanner s /\
  draining s' = draining s.
Proof.
  unfold callMarkAttendance.
  destruct (markAttendance record (backend s, browser s)) as [st res].
  cbn. auto.
Qed.

Lemma processAttendance_touches (cl : Closure) (user : User) (now : string)
    (loc : option Position) (code : string) (s : Sys B) :
  touchesLike cl s (snd (processAttendance cl user now loc code s)).
Proof.
  unfold touchesLike, processAttendance.
  destruct (buildAttendanceData user now loc code) as [e|r]; cbn.
  - split; [reflexivity|]. split; auto.
  - destruct (c_isOffline cl) eqn:Hcl; cbn.
    + split; [reflexivity|]. split; [discriminate|].
      intros _. split; [reflexivity|]. right. now exists r.
    + destruct (callMarkAttendance_keeps r s) as (Ho & Hv & Hq & _).
      destruct (callMarkAttendance r s) as [[e|a] s1]; cbn in *;
        (split; [assumption|]; split; [auto|discriminate]).
Qed.

Lemma processAttendance_draining (cl : Closure) (user : User) (now : string)
    (loc : option Position) (code : string) (s : Sys B) :
  draining (snd (processAttendance cl user now loc code s)) = draining s.
Proof.
  unfold processAttendance.
  destruct (buildAttendanceData user now loc code) as [e|r]; [reflexivity|].
  destruct (c_isOffline cl); [reflexivity|].
  destruct (callMarkAttendance_keeps r s) as (_ & _ & _ & _ & Hd).
  destruct (callMarkAttendance r s) as [[e|a] s1]; cbn in *; exact Hd.
Qed.

Lemma handleMarkWithoutLocation_draining (cl : Closure) (user : User) (now : string)
    (s : Sys B) :
  draining (handleMarkWithoutLocation cl user now s) = draining s.
Proof.
  unfold handleMarkWithoutLocation.
  destruct (c_pendingScanData cl) as [[|c code]|]; try reflexivity.
  match goal with
  | |- context [processAttendance cl user now None ?d ?t] =>
      pose proof (processAttendance_draining cl user now None d t) as H;
      destruct (processAttendance cl user now None d t) as [[e|u] s2]
  end; cbn [snd] in H; cbn in *; exact H.
Qed.

Lemma touchesLike_refl (cl : Closure) (s : Sys B) : touchesLike cl s s.
Proof. unfold touchesLike. repeat split; auto. Qed.

Lemma onScanSuccess_touches (cl : Closure) (user : User) (now : string)
    (located : Promise Position) (code : string) (s : Sys B) :
  touchesLike cl s (onScanSuccess cl user now located code s).
Proof.
  unfold onScanSuccess.
  destruct (c_locationError cl); [apply touchesLike_refl|].
  destruct (c_scanCompleted cl); [apply touchesLike_refl|].
  destruct located as [e|p].
  - unfold touchesLike; cbn. repeat split; auto.
  - match goal with
    | |- context [processAttendance cl user now (Some p) code ?t] =>
        pose proof (processAttendance_touches cl user now (Some p) code t) as H;
        destruct (processAttendance cl user now (Some p) code t) as [[e|u] s2]
    end; cbn [snd] in H; unfold touchesLike in *; cbn in *; tauto.
Qed.

(** A scan whose location request fails changes the scanner's state and the
    console only. *)
Lemma onScanSuccess_denied (cl : Closure) (user : User) (now : string)
    (denied : JsError) (code : string) (s : Sys B) :
  let h := onScanSuccess cl user now (inl denied) code s in
  isOffline h = isOffline s /\ queueVersion h = queueVersion s /\
  pendingAttendance h = pendingAttendance s /\ backend h = backend s /\
  draining h = draining s.
Proof.
  unfold onScanSuccess.
  destruct (c_locationError cl); [auto|].
  destruct (c_scanCompleted cl); cbn; auto.
Qed.

Lemma handleMarkWithoutLocation_touches (cl : Closure) (user : User) (now : string)
    (s : Sys B) :
  touchesLike cl s (handleMarkWithoutLocation cl user now s).
Proof.
  unfold handleMarkWithoutLocation.
  destruct (c_pendingScanData cl) as [[|c code]|]; try apply touchesLike_refl.
  match goal with
  | |- context [processAttendance cl user now None ?d ?t] =>
      pose proof (processAttendance_touches cl user now None d t) as H;
      destruct (processAttendance cl user now None d t) as [[e|u] s2]
  end; cbn [snd] in H; unfold touchesLike in *; cbn in *; tauto.
Qed.

(** The rest of [syncOfflineData] after its [await] either calls no setter
    or leaves the queue empty; it submits nothing. *)
Lemma syncOfflineData_settle_queue (batch : option Batch) (s : Sys B) :
  let h := syncOfflineData_settle batch s in
  isOffline h = isOffline s /\ backend h = backend s /\ draining h = draining s /\
  ((queueVersion h = queueVersion s /\ pendingAttendance h = pendingAttendance s) \/
   pendingAttendance h = []).
Proof.
  destruct batch as [[e|synced]|]; cbn; auto 6.
Qed.

End Handlers.

(** ** When a drain begins *)

Lemma setStoredData_drain_lines (key : string) (put : LocalStorage -> LocalStorage)
    (w : Browser) :
  filter beginsDrain (console (setStoredData key put w)) = filter beginsDrain (console w).
Proof.
  unfold setStoredData, setItem.
  destruct (quotaExceeded (localStorage w)); cbn; [|reflexivity].
  rewrite filter_app. cbn. now rewrite app_nil_r.
Qed.

Lemma submitAll_mock_drain_lines (records : list PendingRecord) :
  forall (be : MockBackend) (w : Browser),
    filter beginsDrain (console (snd (fst (submitAll records (be, w)))))
    = filter beginsDrain (console w).
Proof.
  induction records as [|r rest IH]; intros be w; [reflexivity|].
  cbn [submitAll markAttendance mockApiService mock_markAttendance].
  match goal with
  | |- context [submitAll rest (?b, ?v)] =>
      specialize (IH b v); destruct (submitAll rest (b, v)) as [[be2 w2] results]
  end.
  cbn [fst snd] in *. rewrite IH. apply setStoredData_drain_lines.
Qed.

Lemma drainGuard_false {B : Type} (s : Sys B) :
  drainGuard s = false <-> isOffline s = true \/ pendingAttendance s = [].
Proof.
  unfold drainGuard.
  destruct (pendingAttendance s) as [|r q], (isOffline s); cbn; split; auto;
    intros [H|H]; discriminate.
Qed.

Lemma drainGuard_true {B : Type} (s : Sys B) :
  drainGuard s = true <-> isOffline s = false /\ pendingAttendance s <> [].
Proof.
  unfold drainGuard.
  destruct (pendingAttendance s) as [|r q], (isOffline s); cbn; split;
    try discriminate; try (intros [H1 H2]; congruence); auto.
  split; [reflexivity|discriminate].
Qed.

(** A drain of the mock store writes its log line exactly when the guard
    lets it through. *)
Lemma drainsBegun_syncOfflineData (s : Sys MockBackend) :
  drainsBegun (syncOfflineData s) = drainsBegun s + (if drainGuard s then 1 else 0).
Proof.
  destruct (drainGuard s) eqn:G.
  - apply drainGuard_true in G as [Hon Hq].
    rewrite syncOfflineData_drains by assumption. cbn zeta.
    pose proof (submitAll_mock_drain_lines (pendingAttendance s) (backend s)
                  (log (LogSyncing (List.length (pendingAttendance s))) (browser s))) as H.
    destruct (submitAll (pendingAttendance s) _) as [[be w] results].
    cbn [fst snd] in *.
    unfold drainsBegun.
    destruct (Promise_all results) as [e|vs]; cbn;
      rewrite ?setStoredData_drain_lines; cbn;
      rewrite !filter_app, H; cbn; rewrite filter_app; cbn;
      rewrite !length_app; cbn; lia.
  - apply drainGuard_false in G. rewrite syncOfflineData_idle by assumption. lia.
Qed.

(** The effect's call of [syncOfflineData] writes the log line exactly when
    the guard lets it through, and leaves connectivity and queue alone. *)
Lemma startDrain_begins (s : Sys MockBackend) :
  drainsBegun (startDrain s) = drainsBegun s + (if drainGuard s then 1 else 0) /\
  isOffline (startDrain s) = isOffline s /\
  pendingAttendance (startDrain s) = pendingAttendance s /\
  queueVersion (startDrain s) = queueVersion s.
Proof.
  unfold startDrain, syncOfflineData_begin, drainGuard, render.
  cbn [c_pendingAttendance c_isOffline].
  destruct (Nat.ltb 0 (List.length (pendingAttendance s)) && negb (isOffline s)).
  - pose proof (submitAll_mock_drain_lines (pendingAttendance s)
                  (backend (with_browser
                              (log (LogSyncing (List.length (pendingAttendance s)))) s))
                  (browser (with_browser
                              (log (LogSyncing (List.length (pendingAttendance s)))) s)))
      as H.
    destruct (submitAll (pendingAttendance s) _) as [[be w] results].
    cbn [fst snd] in *. unfold drainsBegun. cbn.
    rewrite H. cbn. rewrite filter_app, length_app. cbn. auto.
  - rewrite Nat.add_0_r. auto.
Qed.

Lemma processAttendance_drainsBegun (cl : Closure) (user : User) (now : string)
    (loc : option Position) (code : string) (s : Sys MockBackend) :
  drainsBegun (snd (processAttendance cl user now loc code s)) = drainsBegun s.
Proof.
  unfold processAttendance, drainsBegun.
  destruct (buildAttendanceData user now loc code) as [e|r]; [reflexivity|].
  destruct (c_isOffline cl); cbn; now rewrite setStoredData_drain_lines.
Qed.

Lemma handle_drainsBegun (user : User) (ev : Event) (s : Sys MockBackend) :
  drainsBegun (handle user ev s) = drainsBegun s.
Proof.
  destruct ev as [online| | |now located code|now| |exceeded|];
    cbn [handle]; try reflexivity.
  - unfold drainsBegun; cbn. rewrite filter_app; cbn. now rewrite app_nil_r.
  - unfold drainsBegun; cbn. rewrite filter_app; cbn. now rewrite app_nil_r.
  - unfold onScanSuccess.
    destruct (c_locationError (mountClosure s)); [reflexivity|].
    destruct (c_scanCompleted (mountClosure s)); [reflexivity|].
    destruct located as [e|p].
    + unfold drainsBegun; cbn. rewrite filter_app; cbn. now rewrite app_nil_r.
    + match goal with
      | |- context [processAttendance ?cl user now (Some p) code ?t] =>
          pose proof (processAttendance_drainsBegun cl user now (Some p) code t) as H;
          destruct (processAttendance cl user now (Some p) code t) as [[e|u] s2]
      end; cbn [snd] in H; unfold drainsBegun in *; cbn in *; rewrite ?filter_app; cbn;
        rewrite ?app_nil_r; exact H.
  - unfold handleMarkWithoutLocation.
    destruct (c_pendingScanData (render s)) as [[|c code]|]; try reflexivity.
    match goal with
    | |- context [processAttendance ?cl user now None ?d ?t] =>
        pose proof (processAttendance_drainsBegun cl user now None d t) as H;
        destruct (processAttendance cl user now None d t) as [[e|u] s2]
    end; cbn [snd] in H; unfold drainsBegun in *; cbn in *; exact H.
  - unfold handleResumeScanning.
    match goal with |- context [if ?b then _ else _] => destruct b end; reflexivity.
  - destruct (draining s) as [|[e|synced] rest]; [reflexivity| |];
      unfold drainsBegun; cbn; rewrite ?setStoredData_drain_lines; cbn;
      rewrite filter_app; cbn; now rewrite app_nil_r.
Qed.

Lemma step_effect {B : Type} {api : ApiService B} (user : User) (ev : Event) (s : Sys B) :
  step user ev s =
    if effectRuns user ev s then drainEffect (handle user ev s) else handle user ev s.
Proof.
  unfold step, effectRuns. destruct ev; reflexivity.
Qed.

Lemma drainsBegun_step (user : User) (ev : Event) (s : Sys MockBackend) :
  drainsBegun (step user ev s) =
    drainsBegun s
    + (if effectRuns user ev s && drainGuard (handle user ev s) then 1 else 0).
Proof.
  rewrite step_effect. destruct (effectRuns user ev s); cbn [andb].
  - unfold drainEffect.
    destruct (isOffline (handle user ev s)) eqn:Hoff; cbn [negb].
    + assert (G : drainGuard (handle user ev s) = false)
        by (apply drainGuard_false; auto).
      rewrite G, handle_drainsBegun. lia.
    + destruct (startDrain_begins (handle user ev s)) as (H & _).
      now rewrite H, handle_drainsBegun.
  - rewrite handle_drainsBegun. lia.
Qed.

(** While the client is offline after the handler, the step is the
    handler: the effect, if it runs, does nothing. *)
Lemma step_offline {B : Type} {api : ApiService B} (user : User) (ev : Event) (s : Sys B) :
  isOffline (handle user ev s) = true -> step user ev s = handle user ev s.
Proof.
  intros Hoff. rewrite step_effect. unfold drainEffect. rewrite Hoff. cbn.
  now destruct (effectRuns user ev s).
Qed.

(** What a handler does to connectivity, queue and remote store, for the
    events that neither mount nor reconnect nor settle a drain, when the
    scanner's callback is up to date or is not asked to process a record. *)
Lemma handle_touches (user : User) (ev : Event) (s : Sys MockBackend) :
  locatedScan ev = false \/ scannerUpToDate s ->
  ev <> EvOnline -> (forall online, ev <> EvMount online) -> ev <> EvSettled ->
  let h := handle user ev s in
  (ev = EvOffline \/ isOffline h = isOffline s) /\
  (isOffline s = false ->
     queueVersion h = queueVersion s /\ pendingAttendance h = pendingAttendance s) /\
  (isOffline s = true ->
     isOffline h = true /\ backend h = backend s /\
     (pendingAttendance h = pendingAttendance s \/
      exists r, pendingAttendance h = pendingAttendance s ++ [r])).
Proof.
  intros Hscan Hnot_online Hnot_mount Hnot_settled. cbn zeta.
  destruct ev as [online| | |now located code|now| |exceeded|].
  - exfalso. now apply (Hnot_mount online).
  - contradiction.
  - cbn. split; [left; reflexivity|]. split; auto.
  - cbn [handle]. destruct located as [denied|p].
    + destruct (onScanSuccess_denied (mountClosure s) user now denied code s)
        as (Ho & Hv & Hq & Hb & _).
      rewrite Ho, Hv, Hq, Hb. split; [auto|]. split; [auto|]. auto.
    + destruct Hscan as [Hscan|[Hconn Hqueue]]; [discriminate Hscan|].
      destruct (onScanSuccess_touches (mountClosure s) user now (inr p) code s)
        as (Ho & Honline & Hoffline).
      cbn [mountClosure c_isOffline c_pendingAttendance] in Honline, Hoffline.
      rewrite Hconn in Honline, Hoffline. rewrite Hqueue in Hoffline.
      split; [auto|]. split; [exact Honline|].
      intros Hoff. destruct (Hoffline Hoff) as [Hb [[Hq _]|[r Hq]]];
        rewrite Ho; eauto.
  - cbn [handle].
    destruct (handleMarkWithoutLocation_touches (render s) user now s)
      as (Ho & Honline & Hoffline).
    cbn [render c_isOffline c_pendingAttendance] in Honline, Hoffline.
    split; [auto|]. split; [exact Honline|].
    intros Hoff. destruct (Hoffline Hoff) as [Hb [[Hq _]|[r Hq]]];
      rewrite Ho; eauto.
  - cbn [handle]. unfold handleResumeScanning.
    match goal with |- context [if ?b then _ else _] => destruct b end; cbn;
      (split; [right; reflexivity|]; split; auto).
  - cbn. split; [right; reflexivity|]. split; auto.
  - contradiction.
Qed.

(** C5, as stated, fails on the trigger: a client that is mounted while
    online with a non-empty persisted queue drains it on mounting, with no
    connectivity transition.  Such a state is reached, for instance, when a
    drain on reconnecting failed and the application is then mounted again
    without the connection having changed. *)
Lemma drain_begins_on_mount :
  isOffline clientOnlineQueued = false /\
  drainsBegun clientOnlineQueued = 0 /\
  drainsBegun (step student1 (EvMount true) clientOnlineQueued) = 1 /\
  map att_fields
      (attendanceRecords
         (backend (run student1 [EvMount true; EvSettled] clientOnlineQueued)))
    = [sampleRecord "09:00"] /\
  pendingAttendance (run student1 [EvMount true; EvSettled] clientOnlineQueued) = [] /\
  (let stillOnline :=
     @run _ lossyApiService student1
       [EvMount true; EvOffline;
        EvScan "09:01" (inl geolocationDenied) sampleCode;
        EvMarkWithoutLocation "09:01"; EvOnline; EvSettled]
       (clientWith false [] tickingClock) in
   isOffline stillOnline = false /\
   pendingAttendance stillOnline = [sampleRecord "09:01"] /\
   draining stillOnline = [] /\
   drainsBegun stillOnline = 1 /\
   drainsBegun (@step _ lossyApiService student1 (EvMount true) stillOnline) = 2) /\
  ~ (forall (user : User) (ev : Event) (s : Sys MockBackend),
        drainsBegun (step user ev s) <> drainsBegun s ->
        ev = EvOnline /\ isOffline s = true /\ pendingAttendance s <> []).
Proof.
  repeat (split; [reflexivity|]).
  split; [cbn zeta; repeat (split; [reflexivity|]); reflexivity|].
  intros H.
  destruct (H student1 (EvMount true) clientOnlineQueued) as [Hev _].
  - cbv. discriminate.
  - discriminate Hev.
Qed.

(** C5, amended. A drain begins only in a step after whose handler the
    client is online with a non-empty queue: never while offline.  When the
    event is not a located scan, or the scanner's callback still sees the
    connectivity and the queue as they are, that step is either the
    connectivity transition to online or the mounting of the application
    while online; and while offline such an event, unless it reconnects,
    mounts or settles a drain begun earlier, leaves the remote store alone,
    begins no drain, and changes the queue at most by appending one record to
    it. *)
Theorem drain_begins_only_online
    (user : User) (ev : Event) (s : Sys MockBackend) :
  (drainsBegun (step user ev s) <> drainsBegun s ->
     isOffline (handle user ev s) = false /\
     isOffline (step user ev s) = false /\
     pendingAttendance (handle user ev s) <> [] /\
     drainsBegun (step user ev s) = S (drainsBegun s)) /\
  (locatedScan ev = false \/ scannerUpToDate s ->
     (drainsBegun (step user ev s) <> drainsBegun s ->
        (ev = EvOnline /\ isOffline s = true) \/ ev = EvMount true) /\
     (isOffline s = true ->
      ev <> EvOnline -> (forall online, ev <> EvMount online) -> ev <> EvSettled ->
        backend (step user ev s) = backend s /\
        drainsBegun (step user ev s) = drainsBegun s /\
        (pendingAttendance (step user ev s) = pendingAttendance s \/
         exists r, pendingAttendance (step user ev s) = pendingAttendance s ++ [r]))).
Proof.
  assert (Hbegins : drainsBegun (step user ev s) <> drainsBegun s ->
                    effectRuns user ev s = true /\
                    isOffline (handle user ev s) = false /\
                    pendingAttendance (handle user ev s) <> [] /\
                    drainsBegun (step user ev s) = S (drainsBegun s)).
  { rewrite drainsBegun_step.
    destruct (effectRuns user ev s) eqn:Hruns; cbn [andb]; [|lia].
    destruct (drainGuard (handle user ev s)) eqn:G; [|lia].
    intros _. apply drainGuard_true in G as [Hon Hq].
    repeat split; try assumption. lia. }
  split.
  - intros Hchanged. destruct (Hbegins Hchanged) as (Hruns & Hon & Hq & Hcount).
    repeat split; try assumption.
    rewrite step_effect, Hruns. unfold drainEffect. rewrite Hon. cbn [negb].
    destruct (startDrain_begins (handle user ev s)) as (_ & Ho & _).
    now rewrite Ho.
  - intros Hscan. split.
    + intros Hchanged. destruct (Hbegins Hchanged) as (Hruns & Hon & Hq & _).
      destruct ev as [online| | |now located code|now| |exceeded|] eqn:Hev;
        cbn [effectRuns] in Hruns.
      * right. cbn in Hon. destruct online; [reflexivity|discriminate].
      * left. split; [reflexivity|].
        destruct (isOffline s) eqn:Hoff; [reflexivity|].
        rewrite depsChanged_same in Hruns; [discriminate| |reflexivity].
        cbn. now rewrite Hoff.
      * discriminate Hon.
      * exfalso.
        destruct (handle_touches user (EvScan now located code) s Hscan)
          as (Ho & Honline & _); try discriminate.
        destruct Ho as [Ho|Ho]; [discriminate Ho|].
        rewrite Ho in Hon. destruct (Honline Hon) as [Hv _].
        rewrite depsChanged_same in Hruns; [discriminate|congruence|assumption].
      * exfalso.
        destruct (handle_touches user (EvMarkWithoutLocation now) s Hscan)
          as (Ho & Honline & _); try discriminate.
        destruct Ho as [Ho|Ho]; [discriminate Ho|].
        rewrite Ho in Hon. destruct (Honline Hon) as [Hv _].
        rewrite depsChanged_same in Hruns; [discriminate|congruence|assumption].
      * exfalso.
        destruct (handle_touches user EvResume s Hscan)
          as (Ho & Honline & _); try discriminate.
        destruct Ho as [Ho|Ho]; [discriminate Ho|].
        rewrite Ho in Hon. destruct (Honline Hon) as [Hv _].
        rewrite depsChanged_same in Hruns; [discriminate|congruence|assumption].
      * exfalso.
        destruct (handle_touches user (EvQuota exceeded) s Hscan)
          as (Ho & Honline & _); try discriminate.
        destruct Ho as [Ho|Ho]; [discriminate Ho|].
        rewrite Ho in Hon. destruct (Honline Hon) as [Hv _].
        rewrite depsChanged_same in Hruns; [discriminate|congruence|assumption].
      * exfalso. cbn [handle] in *.
        destruct (draining s) as [|batch rest]; [
          rewrite depsChanged_same in Hruns; [discriminate|reflexivity|reflexivity]|].
        destruct (syncOfflineData_settle_queue (Some batch)
                    (with_draining (fun _ => rest) s))
          as (Ho & _ & _ & [[Hv Hsame]|Hempty]).
        -- rewrite depsChanged_same in Hruns; [discriminate|exact Ho|exact Hv].
        -- contradiction.
    + intros Hoff Hnot_online Hnot_mount Hnot_settled.
      destruct (handle_touches user ev s Hscan Hnot_online Hnot_mount Hnot_settled)
        as (_ & _ & Hoffline).
      destruct (Hoffline Hoff) as (Ho & Hb & Hq).
      rewrite (step_offline user ev s Ho), handle_drainsBegun. auto.
Qed.

Lemma drain_begins_only_online_witness :
  let s := clientWith true [sampleRecord "09:00"] tickingClock in
  drainsBegun (step student1 EvOnline s) <> drainsBegun s /\
  isOffline s = true /\
  scannerUpToDate s /\
  isOffline (handle student1 EvOnline s) = false /\
  pendingAttendance
    (step student1 (EvMarkWithoutLocation sampleStamp)
       (step student1 (EvScan sampleStamp (inl (mkError "User denied Geolocation")) sampleCode) s))
    = [sampleRecord "09:00"; sampleRecord sampleStamp].
Proof.
  cbn zeta.
  assert (Hdrain : drainsBegun (step student1 EvOnline
                                  (clientWith true [sampleRecord "09:00"] tickingClock))
                   <> drainsBegun (clientWith true [sampleRecord "09:00"] tickingClock))
    by (cbv; discriminate).
  split; [exact Hdrain|]. split; [reflexivity|]. split; [split; reflexivity|].
  destruct (drain_begins_only_online student1 EvOnline
              (clientWith true [sampleRecord "09:00"] tickingClock)) as [H _].
  destruct (H Hdrain) as (Hon & _).
  split; [exact Hon|reflexivity].
Defined.

(** ** Marking without location *)

Lemma build_any_location (user : User) (now : string) (loc loc' : option Position)
    (code : string) (r : PendingRecord) :
  buildAttendanceData user now loc code = inr r ->
  location r = loc /\
  buildAttendanceData user now loc' code = inr (withLocation r loc').
Proof.
  rewrite !buildAttendanceData_cases.
  destruct (before_first dash code); [discriminate|].
  intros H. injection H as <-. split; reflexivity.
Qed.

(** A code the builder accepts is not empty. *)
Lemma built_code_not_empty (user : User) (now : string) (loc : option Position)
    (code : string) (r : PendingRecord) :
  buildAttendanceData user now loc code = inr r -> code <> "".
Proof.
  rewrite buildAttendanceData_cases. intros H ->. discriminate H.
Qed.

(** Through a callback whose closure is online, a record is submitted at
    once and the queue is not used. *)
Lemma processAttendance_online_mock (cl : Closure) (user : User) (now : string)
    (loc : option Position) (code : string) (s : Sys MockBackend) (r : PendingRecord) :
  c_isOffline cl = false ->
  buildAttendanceData user now loc code = inr r ->
  let s' := snd (processAttendance cl user now loc code s) in
  attendanceRecords (backend s') =
    attendanceRecords (backend s) ++ [nextStored (backend s) r] /\
  pendingAttendance s' = pendingAttendance s /\
  queueVersion s' = queueVersion s /\
  isOffline s' = isOffline s.
Proof.
  intros Hon Hbuilt. unfold processAttendance.
  rewrite Hbuilt, Hon. cbn. auto.
Qed.

(** Through a callback whose closure is offline, a record is appended to
    the queue the closure holds and nothing is submitted. *)
Lemma processAttendance_offline {B : Type} {api : ApiService B}
    (cl : Closure) (user : User) (now : string)
    (loc : option Position) (code : string) (s : Sys B) (r : PendingRecord) :
  c_isOffline cl = true ->
  buildAttendanceData user now loc code = inr r ->
  let s' := snd (processAttendance cl user now loc code s) in
  pendingAttendance s' = c_pendingAttendance cl ++ [r] /\
  backend s' = backend s /\
  isOffline s' = isOffline s.
Proof.
  intros Hoff Hbuilt. unfold processAttendance.
  rewrite Hbuilt, Hoff. cbn. auto.
Qed.

(** A scan whose location request is denied records the code and the
    error, and neither queues nor submits anything. *)
Lemma step_scan_denied {B : Type} {api : ApiService B}
    (user : User) (now code : string) (denied : JsError) (s : Sys B) :
  let s1 := step user (EvScan now (inl denied) code) s in
  locationError (scanner s1) = Some (error_message denied) /\
  pendingScanData (scanner s1) = Some code /\
  isOffline s1 = isOffline s /\
  pendingAttendance s1 = pendingAttendance s /\
  queueVersion s1 = queueVersion s /\
  backend s1 = backend s /\
  draining s1 = draining s.
Proof.
  cbn zeta.
  assert (Hh : handle user (EvScan now (inl denied) code) s =
               setPendingScanData (Some code)
                 (setLocationError (Some (error_message denied))
                    (with_browser (log (LogLocationError (error_message denied)))
                       (setMessageType info
                          (setMessage "QR code scanned. Getting location..."
                             (setScannerPaused true s)))))) by reflexivity.
  rewrite step_effect. unfold effectRuns. rewrite Hh.
  rewrite depsChanged_same by reflexivity.
  repeat split.
Qed.

(** The handler of "mark attendance anyway" is the capture of the pending
    code with no location, as far as the queue and the store go. *)
Lemma step_mark_without_location {B : Type} {api : ApiService B}
    (user : User) (now code : string) (s : Sys B) :
  pendingScanData (scanner s) = Some code -> code <> "" ->
  let c := {| cap_now := now; cap_location := None; cap_code := code |} in
  let s2 := step user (EvMarkWithoutLocation now) s in
  pendingAttendance s2 = pendingAttendance (capture user c s) /\
  backend s2 = backend (capture user c s) /\
  isOffline s2 = isOffline s /\
  pendingScanData (scanner s2) = None /\
  locationError (scanner s2) = None /\
  draining s2 = draining s.
Proof.
  intros Hpending Hcode. cbn zeta.
  pose proof (handleMarkWithoutLocation_touches (render s) user now s) as Htouch.
  pose proof (handleMarkWithoutLocation_draining (render s) user now s) as Hdrain.
  assert (Hh : let h := handle user (EvMarkWithoutLocation now) s in
               pendingAttendance h =
                 pendingAttendance (capture user (mkCapture now None code) s) /\
               backend h = backend (capture user (mkCapture now None code) s) /\
               pendingScanData (scanner h) = None /\
               locationError (scanner h) = None).
  { cbn zeta. cbn [handle]. unfold handleMarkWithoutLocation, capture.
    cbn [cap_now cap_location cap_code callerClosure]. unfold render.
    cbn [c_pendingScanData]. rewrite Hpending.
    destruct code as [|c0 code]; [contradiction|].
    unfold processAttendance.
    destruct (buildAttendanceData user now None (String c0 code)) as [e|r]; [cbn; auto|].
    cbn [c_isOffline c_pendingAttendance].
    destruct (isOffline s); [cbn; auto|].
    unfold callMarkAttendance. cbn [backend browser setLocationError with_scanner].
    destruct (markAttendance r (backend s, browser s)) as [st [e|a]]; cbn; auto. }
  cbn zeta in Hh. destruct Hh as (Hq & Hb & Hp & Hl).
  destruct Htouch as (Ho & Honline & Hoffline).
  fold (handle user (EvMarkWithoutLocation now) s) in *.
  rewrite step_effect.
  destruct (isOffline s) eqn:Hoff.
  - unfold drainEffect. rewrite Ho. cbn [negb].
    destruct (effectRuns user (EvMarkWithoutLocation now) s); auto 7.
  - destruct (Honline Hoff) as [Hv _].
    unfold effectRuns. rewrite depsChanged_same by congruence. auto 7.
Qed.

(** C6. When the location request of a scan is denied, the scanner keeps
    the code and offers to mark without location, and nothing is queued or
    submitted yet.  When the user accepts, the record built has location
    exactly null and goes the way a located record goes: offline it is
    appended to the pending queue, online it is submitted to the remote
    store at once; and whichever render's callback makes the call, it takes
    the same branch for a record with a position as for one without.  The
    location of a record is null or a pair of a latitude and a longitude,
    never one without the other. *)
Theorem mark_without_location_same_path
    (user : User) (now now' code : string) (denied : JsError)
    (s : Sys MockBackend) (r : PendingRecord)
    (Hbuilt : buildAttendanceData user now' None code = inr r) :
  let s1 := step user (EvScan now (inl denied) code) s in
  let s2 := step user (EvMarkWithoutLocation now') s1 in
  (locationError (scanner s1) = Some (error_message denied) /\
   pendingScanData (scanner s1) = Some code /\
   pendingAttendance s1 = pendingAttendance s /\
   backend s1 = backend s) /\
  location r = None /\
  (isOffline s = true ->
     pendingAttendance s2 = pendingAttendance s ++ [r] /\ backend s2 = backend s) /\
  (isOffline s = false ->
     attendanceRecords (backend s2) =
       attendanceRecords (backend s) ++ [nextStored (backend s) r] /\
     pendingAttendance s2 = pendingAttendance s) /\
  (forall (p : Position) (cl : Closure),
     let rp := withLocation r (Some p) in
     let marked := snd (processAttendance cl user now' None code s1) in
     let located := snd (processAttendance cl user now' (Some p) code s1) in
     buildAttendanceData user now' (Some p) code = inr rp /\
     (c_isOffline cl = true ->
        pendingAttendance located = c_pendingAttendance cl ++ [rp] /\
        pendingAttendance marked = c_pendingAttendance cl ++ [r] /\
        backend located = backend s /\ backend marked = backend s) /\
     (c_isOffline cl = false ->
        attendanceRecords (backend located) =
          attendanceRecords (backend s) ++ [nextStored (backend s) rp] /\
        attendanceRecords (backend marked) =
          attendanceRecords (backend s) ++ [nextStored (backend s) r] /\
        pendingAttendance located = pendingAttendance s /\
        pendingAttendance marked = pendingAttendance s)) /\
  (forall q : PendingRecord,
     location q = None \/
     exists lat lon, location q = Some {| latitude := lat; longitude := lon |}).
Proof.
  cbn zeta.
  destruct (step_scan_denied user now code denied s)
    as (Hle & Hpd & Ho1 & Hq1 & Hv1 & Hb1 & _).
  set (s1 := step user (EvScan now (inl denied) code) s) in *.
  pose proof (built_code_not_empty user now' None code r Hbuilt) as Hcode.
  destruct (step_mark_without_location user now' code s1 Hpd Hcode)
    as (Hq2 & Hb2 & Ho2 & _).
  destruct (build_any_location user now' None None code r Hbuilt) as [Hloc _].
  unfold capture in Hq2, Hb2.
  cbn [callerClosure cap_location cap_now cap_code] in Hq2, Hb2.
  split; [auto|]. split; [exact Hloc|]. split; [|split; [|split]].
  - intros Hoff. rewrite <- Ho1 in Hoff.
    destruct (processAttendance_offline (render s1) user now' None code s1 r Hoff Hbuilt)
      as (Hq & Hb & _).
    rewrite Hq2, Hb2, Hq, Hb. cbn [render c_pendingAttendance].
    rewrite Hq1, Hb1. auto.
  - intros Hon. rewrite <- Ho1 in Hon.
    destruct (processAttendance_online_mock (render s1) user now' None code s1 r Hon Hbuilt)
      as (Hrec & Hq & _).
    rewrite Hq2, Hb2, Hrec, Hq, Hq1, Hb1. auto.
  - intros p cl.
    destruct (build_any_location user now' None (Some p) code r Hbuilt) as [_ Hbp].
    split; [exact Hbp|]. split.
    + intros Hoff.
      destruct (processAttendance_offline cl user now' (Some p) code s1 _ Hoff Hbp)
        as (Hq & Hb & _).
      destruct (processAttendance_offline cl user now' None code s1 _ Hoff Hbuilt)
        as (Hq' & Hb' & _).
      rewrite Hq, Hb, Hq', Hb', Hb1. auto.
    + intros Hon.
      destruct (processAttendance_online_mock cl user now' (Some p) code s1 _ Hon Hbp)
        as (Hrec & Hq & _).
      destruct (processAttendance_online_mock cl user now' None code s1 _ Hon Hbuilt)
        as (Hrec' & Hq' & _).
      rewrite Hrec, Hq, Hrec', Hq', Hq1, Hb1. auto.
  - intros q. destruct (location q) as [[lat lon]|]; eauto.
Qed.

Lemma mark_without_location_same_path_witness :
  let offline := clientWith true [] tickingClock in
  let online := clientWith false [] tickingClock in
  let denied now := EvScan now (inl geolocationDenied) sampleCode in
  buildAttendanceData student1 sampleStamp None sampleCode = inr (sampleRecord sampleStamp) /\
  pendingAttendance
    (run student1 [denied "22:13:19"; EvMarkWithoutLocation sampleStamp] offline)
    = [sampleRecord sampleStamp] /\
  attendanceRecords
    (backend (run student1 [denied "22:13:19"; EvMarkWithoutLocation sampleStamp] online))
    = [{| att_id := "att1700000000500"; att_fields := sampleRecord sampleStamp |}].
Proof.
  cbn zeta. split; [reflexivity|].
  pose proof (mark_without_location_same_path student1 "22:13:19" sampleStamp sampleCode
                geolocationDenied (clientWith true [] tickingClock)
                (sampleRecord sampleStamp) eq_refl) as Hoff.
  pose proof (mark_without_location_same_path student1 "22:13:19" sampleStamp sampleCode
                geolocationDenied (clientWith false [] tickingClock)
                (sampleRecord sampleStamp) eq_refl) as Hon.
  cbn zeta in Hoff, Hon.
  destruct Hoff as (_ & _ & Hoff & _). destruct Hon as (_ & _ & _ & Hon & _).
  split.
  - exact (proj1 (Hoff eq_refl)).
  - exact (proj1 (Hon eq_refl)).
Defined.

(** * Further properties of the service and the dashboards *)

(** ** Accounts *)

Lemma hasEmail_In (mail : string) (users : list User) :
  hasEmail mail users = true <-> In mail (map email users).
Proof.
  unfold hasEmail. rewrite existsb_exists. split.
  - intros [u [Hu He]]. apply String.eqb_eq in He. subst. now apply in_map.
  - intros H. apply in_map_iff in H as [u [He Hu]].
    exists u. split; [assumption|]. now apply String.eqb_eq.
Qed.

Lemma NoDup_app_single {A : Type} (l : list A) (x : A) :
  NoDup l -> ~ In x l -> NoDup (l ++ [x]).
Proof.
  induction l as [|y l IH]; simpl; intros Hl Hx.
  - constructor; [auto|constructor].
  - inversion Hl; subst. constructor.
    + rewrite in_app_iff. simpl. intuition congruence.
    + apply IH; auto.
Qed.

Lemma NoDup_insert_middle {A : Type} (l r : list A) (x : A) :
  NoDup (l ++ r) -> ~ In x (l ++ r) -> NoDup (l ++ x :: r).
Proof.
  intros Hn Hx. apply NoDup_Add with (a := x) (l := l ++ r).
  - apply Add_app.
  - split; assumption.
Qed.

Lemma registerStudent_cases (userData : UserData) (be : MockBackend) (w : Browser) :
  (In (ud_email userData) (map email (teachers be ++ students be)) /\
   registerStudent userData (be, w) = ((be, w), inl emailExists)) \/
  (~ In (ud_email userData) (map email (teachers be ++ students be)) /\
   exists be',
     registerStudent userData (be, w) =
       ((be', setStoredData "mock_students" (put_mock_students (students be')) w),
        inr (userWithoutPassword
               (newUser userData ("student" ++ decimal (Date_now be)) Student))) /\
     teachers be' = teachers be /\
     students be' =
       students be ++ [newUser userData ("student" ++ decimal (Date_now be)) Student] /\
     attendanceRecords be' = attendanceRecords be).
Proof.
  unfold registerStudent.
  destruct (hasEmail (ud_email userData) (students be)) eqn:Hs;
    [|destruct (hasEmail (ud_email userData) (teachers be)) eqn:Ht]; cbn [orb].
  - left. split; [|reflexivity].
    rewrite map_app, in_app_iff. right. now apply hasEmail_In.
  - left. split; [|reflexivity].
    rewrite map_app, in_app_iff. left. now apply hasEmail_In.
  - right. split.
    + rewrite map_app, in_app_iff. intros [H|H]; apply hasEmail_In in H; congruence.
    + eexists. split; [reflexivity|]. repeat split.
Qed.

Lemma addTeacher_cases (teacherData : UserData) (be : MockBackend) (w : Browser) :
  (In (ud_email teacherData) (map email (teachers be ++ students be)) /\
   addTeacher teacherData (be, w) = ((be, w), inl emailExists)) \/
  (~ In (ud_email teacherData) (map email (teachers be ++ students be)) /\
   exists be',
     addTeacher teacherData (be, w) =
       ((be', setStoredData "mock_teachers" (put_mock_teachers (teachers be')) w),
        inr (userWithoutPassword
               (newUser teacherData (newTeacherId (Date_now be)) Teacher))) /\
     teachers be' =
       teachers be ++ [newUser teacherData (newTeacherId (Date_now be)) Teacher] /\
     students be' = students be /\
     attendanceRecords be' = attendanceRecords be).
Proof.
  unfold addTeacher.
  destruct (hasEmail (ud_email teacherData) (teachers be)) eqn:Ht;
    [|destruct (hasEmail (ud_email teacherData) (students be)) eqn:Hs]; cbn [orb].
  - left. split; [|reflexivity].
    rewrite map_app, in_app_iff. left. now apply hasEmail_In.
  - left. split; [|reflexivity].
    rewrite map_app, in_app_iff. right. now apply hasEmail_In.
  - right. split.
    + rewrite map_app, in_app_iff. intros [H|H]; apply hasEmail_In in H; congruence.
    + eexists. split; [reflexivity|]. repeat split.
Qed.

Lemma applyAccountOp_distinct (op : AccountOp) (be : MockBackend) (w : Browser) :
  distinctEmails be -> distinctEmails (fst (applyAccountOp op (be, w))).
Proof.
  unfold distinctEmails. intros Hd. destruct op as [ud|ud]; cbn [applyAccountOp].
  - destruct (registerStudent_cases ud be w) as [[_ E]|[Hnew [be' (E & Ht & Hs & _)]]];
      rewrite E; cbn [fst]; [assumption|].
    rewrite Ht, Hs, app_assoc, map_app. cbn [map].
    apply NoDup_app_single; assumption.
  - destruct (addTeacher_cases ud be w) as [[_ E]|[Hnew [be' (E & Ht & Hs & _)]]];
      rewrite E; cbn [fst]; [assumption|].
    rewrite Ht, Hs, <- app_assoc, map_app. cbn [app map].
    rewrite map_app in *. apply NoDup_insert_middle; assumption.
Qed.

(** X1. Registration and the adding of teachers keep the emails of all
    accounts, teachers and students together, pairwise distinct, whatever
    the sequence of calls and whichever of them are refused. *)
Theorem account_creation_keeps_emails_distinct
    (ops : list AccountOp) (be : MockBackend) (w : Browser)
    (Hdistinct : distinctEmails be) :
  distinctEmails (fst (applyAccountOps ops (be, w))).
Proof.
  revert be w Hdistinct. induction ops as [|op ops IH]; intros be w Hd; [exact Hd|].
  unfold applyAccountOps in *. cbn [fold_left].
  pose proof (applyAccountOp_distinct op be w Hd) as H1.
  destruct (applyAccountOp op (be, w)) as [be1 w1]. cbn [fst] in H1.
  apply IH. exact H1.
Qed.

Lemma account_creation_keeps_emails_distinct_witness :
  distinctEmails (mockWith tickingClock) /\
  map email
      (students (fst (applyAccountOps [Register aliceData; Register carolData; AddTeacher carolData]
                        (mockWith tickingClock, freshBrowser))))
    = ["alice.j@school.com"; "bob.w@school.com"; "carol.d@school.com"] /\
  distinctEmails
    (fst (applyAccountOps [Register aliceData; Register carolData; AddTeacher carolData]
            (mockWith tickingClock, freshBrowser))).
Proof.
  assert (Hd : distinctEmails (mockWith tickingClock)).
  { unfold distinctEmails. cbn.
    repeat (constructor; [cbn; intuition discriminate|]). constructor. }
  split; [exact Hd|]. split; [reflexivity|].
  apply (account_creation_keeps_emails_distinct
           [Register aliceData; Register carolData; AddTeacher carolData]
           (mockWith tickingClock) freshBrowser Hd).
Defined.

Lemma find_app_last {A : Type} (p : A -> bool) (l : list A) (x : A) :
  (forall v, In v l -> p v = false) -> p x = true -> find p (l ++ [x]) = Some x.
Proof.
  induction l as [|y l IH]; cbn; intros Hl Hx.
  - now rewrite Hx.
  - rewrite (Hl y (or_introl eq_refl)). apply IH; auto.
Qed.

Lemma find_app_first {A : Type} (p : A -> bool) (l r : list A) (v : A) :
  find p l = Some v -> find p (l ++ r) = Some v.
Proof.
  induction l as [|y l IH]; cbn; [discriminate|].
  destruct (p y); auto.
Qed.

(** X2. A student who registers with an unused email and a name no stored
    account bears (case-insensitively) can log in at once with that name and
    the password given, unless these are the name admin and the password 123,
    which login answers with the built-in administrator before it looks at
    any account; the student gets the very user registration returned: a
    student, without the password. *)
Theorem register_then_login
    (toLowerCase : string -> string) (userData : UserData)
    (be : MockBackend) (w : Browser) (p : string)
    (Hemail : ~ In (ud_email userData) (map email (teachers be ++ students be)))
    (Hpassword : ud_password userData = Some p)
    (Hname : forall v, In v (teachers be ++ students be) ->
                       toLowerCase (name v) <> toLowerCase (ud_name userData))
    (Hnot_admin : ud_name userData <> "admin" \/ p <> "123") :
  exists u,
    snd (registerStudent userData (be, w)) = inr u /\
    role u = Student /\ name u = ud_name userData /\ password u = None /\
    login toLowerCase (fst (fst (registerStudent userData (be, w)))) (ud_name userData) p
      = inr u.
Proof.
  destruct (registerStudent_cases userData be w)
    as [[Hin _]|[_ [be' (E & Ht & Hs & _)]]]; [contradiction|].
  rewrite E. cbn [fst snd].
  eexists. split; [reflexivity|]. repeat split.
  unfold login.
  assert (Hadmin : String.eqb (ud_name userData) "admin" && String.eqb p "123" = false).
  { apply andb_false_iff.
    destruct Hnot_admin as [H|H]; [left|right]; now apply String.eqb_neq. }
  rewrite Hadmin, Ht, Hs, app_assoc.
  rewrite find_app_last.
  - cbn. rewrite Hpassword. cbn. now rewrite String.eqb_refl.
  - intros v Hv. apply String.eqb_neq. now apply Hname.
  - cbn. apply String.eqb_refl.
Qed.

Lemma register_then_login_witness :
  exists u,
    snd (registerStudent carolData (mockWith tickingClock, freshBrowser)) = inr u /\
    role u = Student /\ name u = "Carol Diaz" /\ password u = None /\
    login asciiLowerCase
      (fst (fst (registerStudent carolData (mockWith tickingClock, freshBrowser))))
      "Carol Diaz" "secret" = inr u.
Proof.
  apply (register_then_login asciiLowerCase carolData (mockWith tickingClock)
           freshBrowser "secret").
  - cbn. intuition discriminate.
  - reflexivity.
  - cbn. intros v [<-|[<-|[<-|[]]]]; cbn; discriminate.
  - left. discriminate.
Defined.

(** X3. Unless identifier and password are admin and 123, which login
    answers with the built-in administrator before it looks at any account,
    login looks only at the first stored account, teachers before students,
    whose name matches case-insensitively: when the password of that account
    differs from the one given, the login is refused, whatever accounts of
    the same name are stored after it. *)
Theorem login_judges_first_name_match
    (toLowerCase : string -> string) (be : MockBackend)
    (before after : list User) (v : User) (identifier pw : string)
    (Hsplit : teachers be ++ students be = before ++ v :: after)
    (Hbefore : forall u, In u before -> toLowerCase (name u) <> toLowerCase identifier)
    (Hmatch : toLowerCase (name v) = toLowerCase identifier)
    (Hwrong : password v <> Some pw)
    (Hnot_admin : identifier <> "admin" \/ pw <> "123") :
  login toLowerCase be identifier pw = inl (mkError "Invalid credentials").
Proof.
  unfold login.
  assert (Hadmin : String.eqb identifier "admin" && String.eqb pw "123" = false).
  { apply andb_false_iff.
    destruct Hnot_admin as [H|H]; [left|right]; now apply String.eqb_neq. }
  rewrite Hadmin, Hsplit.
  assert (Hfind : find (fun u => String.eqb (toLowerCase (name u)) (toLowerCase identifier))
                    (before ++ v :: after) = Some v).
  { change (v :: after) with ([v] ++ after). rewrite app_assoc.
    apply find_app_first. apply find_app_last.
    - intros u Hu. apply String.eqb_neq. now apply Hbefore.
    - rewrite Hmatch. apply String.eqb_refl. }
  rewrite Hfind.
  destruct (password v) as [q|] eqn:Hq; cbn; [|reflexivity].
  destruct (String.eqb q pw) eqn:E; [|reflexivity].
  apply String.eqb_eq in E. subst. contradiction.
Qed.

Lemma login_judges_first_name_match_witness :
  login asciiLowerCase
    {| teachers := []; students := [student1; newUser aliceData "student1700000000500" Student];
       attendanceRecords := []; timeline := tickingClock;
       toISOString := plainDate; Date_calls := 1 |}
    "alice johnson" "secret" = inl (mkError "Invalid credentials").
Proof.
  apply (login_judges_first_name_match asciiLowerCase _ [] 
           [newUser aliceData "student1700000000500" Student] student1).
  - reflexivity.
  - intros u [].
  - reflexivity.
  - discriminate.
  - left. discriminate.
Defined.

(** ** Teacher management *)

Lemma setAt_lookup (id : string) (y : User) (l : list User) :
  user_id y = id ->
  match findIndex (fun t => String.eqb (user_id t) id) l with
  | None => find (fun t => String.eqb (user_id t) id) l = None
  | Some i =>
      exists x,
        nth_error l i = Some x /\
        find (fun t => String.eqb (user_id t) id) l = Some x /\
        find (fun t => String.eqb (user_id t) id) (setAt i y l) = Some y /\
        (forall j, j <> id ->
           find (fun t => String.eqb (user_id t) j) (setAt i y l)
           = find (fun t => String.eqb (user_id t) j) l) /\
        List.length (setAt i y l) = List.length l
  end.
Proof.
  intros Hy. induction l as [|t l IH]; cbn; [reflexivity|].
  destruct (String.eqb (user_id t) id) eqn:E.
  - exists t. cbn. rewrite Hy, String.eqb_refl. repeat split.
    intros j Hj. apply String.eqb_eq in E.
    assert (E1 : String.eqb id j = false) by (apply String.eqb_neq; congruence).
    rewrite E, E1. reflexivity.
  - destruct (findIndex _ l) as [i|].
    + destruct IH as (x & Hn & Hf & Hs & Ho & Hl).
      exists x. cbn. rewrite E. repeat split; auto.
      intros j Hj. destruct (String.eqb (user_id t) j); auto.
    + exact IH.
Qed.

Lemma updateTeacher_cases
    (teacher : User) (be : MockBackend) (w : Browser) :
  match teacherById (user_id teacher) be with
  | None => updateTeacher teacher (be, w) = ((be, w), inl teacherNotFound)
  | Some original =>
      let updated := updatedTeacherData original teacher in
      exists be',
        updateTeacher teacher (be, w) =
          ((be', setStoredData "mock_teachers" (put_mock_teachers (teachers be')) w),
           inr (userWithoutPassword updated)) /\
        teacherById (user_id teacher) be' = Some updated /\
        (forall j, j <> user_id teacher -> teacherById j be' = teacherById j be) /\
        List.length (teachers be') = List.length (teachers be) /\
        students be' = students be /\
        attendanceRecords be' = attendanceRecords be /\
        (truthy (password teacher) = false -> password updated = password original) /\
        (truthy (password teacher) = true -> password updated = password teacher)
  end.
Proof.
  unfold teacherById, updateTeacher.
  pose proof (fun y => setAt_lookup (user_id teacher) y (teachers be)) as H.
  destruct (findIndex _ (teachers be)) as [i|].
  - destruct (H (updatedTeacherData teacher teacher) eq_refl) as (x & Hn & Hf & _).
    rewrite Hf, Hn. cbn zeta.
    destruct (H (updatedTeacherData x teacher) eq_refl) as (x' & Hn' & _ & Hs & Ho & Hl).
    eexists. split; [reflexivity|]. cbn [teachers students attendanceRecords].
    repeat split; auto.
    + unfold updatedTeacherData; cbn. now intros ->.
    + unfold updatedTeacherData; cbn. now intros ->.
  - rewrite (H teacher eq_refl). reflexivity.
Qed.

(** X4. [updateTeacher] acts on the first stored teacher with the identity
    given, and fails with "Teacher not found", changing nothing, when there
    is none.  Otherwise that teacher, and no other, is replaced: looking the
    identity up afterwards gives the merged record, every other identity
    denotes what it did, the number of teachers and the students are
    unchanged, the user returned has no password, and a call with an empty
    or absent password leaves the stored password as it was. *)
Theorem updateTeacher_replaces_one
    (teacher : User) (be : MockBackend) (w : Browser) :
  match teacherById (user_id teacher) be with
  | None => updateTeacher teacher (be, w) = ((be, w), inl teacherNotFound)
  | Some original =>
      let updated := updatedTeacherData original teacher in
      exists be',
        updateTeacher teacher (be, w) =
          ((be', setStoredData "mock_teachers" (put_mock_teachers (teachers be')) w),
           inr (userWithoutPassword updated)) /\
        teacherById (user_id teacher) be' = Some updated /\
        (forall j, j <> user_id teacher -> teacherById j be' = teacherById j be) /\
        List.length (teachers be') = List.length (teachers be) /\
        students be' = students be /\
        attendanceRecords be' = attendanceRecords be /\
        (truthy (password teacher) = false -> password updated = password original) /\
        (truthy (password teacher) = true -> password updated = password teacher)
  end.
Proof. exact (updateTeacher_cases teacher be w). Qed.

Lemma filter_find_other (id j : string) (l : list User) :
  j <> id ->
  find (fun t => String.eqb (user_id t) j)
       (filter (fun t => negb (String.eqb (user_id t) id)) l)
  = find (fun t => String.eqb (user_id t) j) l.
Proof.
  intros Hj. induction l as [|t l IH]; cbn; [reflexivity|].
  destruct (String.eqb (user_id t) id) eqn:E; cbn.
  - apply String.eqb_eq in E.
    assert (E1 : String.eqb (user_id t) j = false) by (apply String.eqb_neq; congruence).
    now rewrite E1.
  - destruct (String.eqb (user_id t) j); auto.
Qed.

Lemma filter_find_self (id : string) (l : list User) :
  find (fun t => String.eqb (user_id t) id)
       (filter (fun t => negb (String.eqb (user_id t) id)) l) = None.
Proof.
  induction l as [|t l IH]; cbn; [reflexivity|].
  destruct (String.eqb (user_id t) id) eqn:E; cbn; [assumption|].
  now rewrite E.
Qed.

Lemma filter_idem {A : Type} (p : A -> bool) (l : list A) :
  filter p (filter p l) = filter p l.
Proof.
  induction l as [|x l IH]; cbn; [reflexivity|].
  destruct (p x) eqn:E; cbn; rewrite ?E, IH; reflexivity.
Qed.

Lemma filter_none {A : Type} (p : A -> bool) (l : list A) :
  (forall x, In x l -> p x = true) -> filter p l = l.
Proof.
  induction l as [|x l IH]; cbn; intros H; [reflexivity|].
  rewrite (H x (or_introl eq_refl)), IH; auto.
Qed.

(** X5. [deleteTeacher] always answers success.  Afterwards no stored
    teacher has the identity given, every other identity denotes the teacher
    it did, and students and attendance are untouched; deleting an identity
    no teacher has, for instance a second time, changes no teacher. *)
Theorem deleteTeacher_removes_identity
    (id : string) (be : MockBackend) (w : Browser) :
  let out := deleteTeacher id (be, w) in
  let be' := fst (fst out) in
  snd out = inr true /\
  teacherById id be' = None /\
  (forall j, j <> id -> teacherById j be' = teacherById j be) /\
  students be' = students be /\
  attendanceRecords be' = attendanceRecords be /\
  (teacherById id be = None -> teachers be' = teachers be) /\
  teachers (fst (fst (deleteTeacher id (fst out)))) = teachers be'.
Proof.
  cbn zeta. unfold deleteTeacher, teacherById; cbn.
  split; [reflexivity|]. split; [apply filter_find_self|].
  split; [intros j Hj; now apply filter_find_other|].
  split; [reflexivity|]. split; [reflexivity|]. split.
  - intros Hnone. apply filter_none. intros x Hx.
    destruct (String.eqb (user_id x) id) eqn:E; [|reflexivity].
    exfalso. apply (find_none _ _ Hnone) in Hx. cbn in Hx. congruence.
  - apply filter_idem.
Qed.

(** What a successful [login] returns. *)
Lemma login_result (toLowerCase : string -> string) (be : MockBackend)
    (identifier pw : string) (u : User) :
  login toLowerCase be identifier pw = inr u ->
  (identifier = "admin" /\ pw = "123" /\ u = MOCK_ADMIN) \/
  (exists v, In v (teachers be ++ students be) /\ u = userWithoutPassword v /\
             password v = Some pw /\
             toLowerCase (name v) = toLowerCase identifier).
Proof.
  unfold login.
  destruct (String.eqb identifier "admin") eqn:Ei, (String.eqb pw "123") eqn:Ep; cbn [andb].
  1: { intros H. injection H as <-. left.
       apply String.eqb_eq in Ei, Ep. auto. }
  all: destruct (find _ _) as [v|] eqn:Hf; [|discriminate];
    destruct (password v) as [q|] eqn:Hq; cbn; [|discriminate];
    destruct (String.eqb q pw) eqn:Eq; [|discriminate];
    intros H; injection H as <-; right;
    apply find_some in Hf as [Hin Hn];
    apply String.eqb_eq in Hn, Eq; subst;
    exists v; auto.
Qed.

(** X6. No password leaves the service through the account operations:
    every user listed by [getTeachers] and every user returned by
    [registerStudent], [addTeacher] or [updateTeacher] has no password
    field. *)
Theorem account_results_carry_no_password
    (be : MockBackend) (w : Browser) (data : UserData) (teacher u : User)
    (st' : MockBackend * Browser) :
  (In u (getTeachers be) -> password u = None) /\
  (registerStudent data (be, w) = (st', inr u) -> password u = None) /\
  (addTeacher data (be, w) = (st', inr u) -> password u = None) /\
  (updateTeacher teacher (be, w) = (st', inr u) -> password u = None).
Proof.
  repeat split.
  - unfold getTeachers. intros H. apply in_map_iff in H as [v [<- _]]. reflexivity.
  - destruct (registerStudent_cases data be w) as [[_ E]|[_ [be' (E & _)]]];
      rewrite E; intros H; [discriminate|]. injection H as _ <-. reflexivity.
  - destruct (addTeacher_cases data be w) as [[_ E]|[_ [be' (E & _)]]];
      rewrite E; intros H; [discriminate|]. injection H as _ <-. reflexivity.
  - pose proof (updateTeacher_cases teacher be w) as Hc.
    destruct (teacherById (user_id teacher) be) as [original|].
    + destruct Hc as [be' (E & _)]. rewrite E. intros H. injection H as _ <-. reflexivity.
    + rewrite Hc. discriminate.
Qed.

Lemma account_results_carry_no_password_witness :
  password teacher1 = Some "password123" /\
  (forall u, In u (getTeachers (mockWith tickingClock)) -> password u = None) /\
  snd (updateTeacher teacher1 (mockWith tickingClock, freshBrowser))
    = inr (userWithoutPassword teacher1).
Proof.
  split; [reflexivity|]. split; [|reflexivity].
  intros u Hu.
  exact (proj1 (account_results_carry_no_password (mockWith tickingClock) freshBrowser
                  aliceData teacher1 u (mockWith tickingClock, freshBrowser)) Hu).
Defined.

(** X7. [getStudents] returns the stored accounts as they are, the password
    included: a student who has just registered is in the list with the
    password given at registration. *)
Theorem getStudents_exposes_password
    (data : UserData) (be : MockBackend) (w : Browser)
    (st' : MockBackend * Browser) (u : User)
    (Hregistered : registerStudent data (be, w) = (st', inr u)) :
  exists v,
    In v (getStudents (fst st')) /\
    userWithoutPassword v = u /\
    email v = ud_email data /\
    password v = ud_password data.
Proof.
  destruct (registerStudent_cases data be w) as [[_ E]|[_ [be' (E & _ & Hs & _)]]];
    rewrite E in Hregistered; [discriminate|].
  injection Hregistered as <- <-. cbn [fst].
  eexists. split; [|repeat split].
  unfold getStudents. rewrite Hs, in_app_iff. right. left. reflexivity.
Qed.

Lemma getStudents_exposes_password_witness :
  exists v,
    In v (getStudents (fst (fst (registerStudent carolData
                                   (mockWith tickingClock, freshBrowser))))) /\
    userWithoutPassword v
      = userWithoutPassword (newUser carolData "student1700000000500" Student) /\
    email v = "carol.d@school.com" /\
    password v = Some "secret".
Proof.
  apply (getStudents_exposes_password carolData (mockWith tickingClock) freshBrowser
           (fst (registerStudent carolData (mockWith tickingClock, freshBrowser)))).
  reflexivity.
Defined.

Lemma typeAll_keeps_password (changes : list (InputName * string)) :
  forall m : ManagerState,
    (forall c, In c changes -> isPasswordInput (fst c) = false) ->
    f_password (m_form (typeAll changes m)) = f_password (m_form m) /\
    f_id (m_form (typeAll changes m)) = f_id (m_form m) /\
    f_role (m_form (typeAll changes m)) = f_role (m_form m) /\
    editingTeacher (typeAll changes m) = editingTeacher m.
Proof.
  induction changes as [|[input value] changes IH]; intros m Hc; [repeat split|].
  unfold typeAll in *. cbn [fold_left fst snd].
  destruct (IH (typeInForm input value m)) as (Hp & Hi & Hr & He).
  { intros c Hin. apply Hc. now right. }
  rewrite Hp, Hi, Hr, He.
  specialize (Hc (input, value) (or_introl eq_refl)). cbn in Hc.
  destruct input; try discriminate; repeat split.
Qed.

(** X8. Editing a teacher in the form and saving without touching the
    password input leaves the stored password as it was, whatever is typed
    into the other inputs: the teacher of that identity now carries the
    typed name and email and the old password, the modal closes and the
    refreshed list shows the teacher. *)
Theorem edit_without_password_keeps_it
    (be : MockBackend) (w : Browser) (original : User)
    (changes : list (InputName * string)) (m : ManagerState)
    (Hstored : teacherById (user_id original) be = Some original)
    (Hchanges : forall c, In c changes -> isPasswordInput (fst c) = false) :
  let typed := typeAll changes (handleOpenModalForEdit (userWithoutPassword original) m) in
  let out := submitTeacherForm typed (be, w) in
  exists updated,
    teacherById (user_id original) (fst (snd out)) = Some updated /\
    password updated = password original /\
    name updated = f_name (m_form typed) /\
    email updated = f_email (m_form typed) /\
    isModalOpen (fst out) = false /\
    In (userWithoutPassword updated) (m_teachers (fst out)).
Proof.
  cbn zeta.
  destruct (typeAll_keeps_password changes
              (handleOpenModalForEdit (userWithoutPassword original) m) Hchanges)
    as (Hp & Hi & Hr & He).
  set (typed := typeAll changes (handleOpenModalForEdit (userWithoutPassword original) m)) in *.
  cbn in Hp, Hi, Hr, He.
  unfold submitTeacherForm, handleFormSubmit. rewrite He.
  set (merged := mergeEdit (userWithoutPassword original) (m_form typed)).
  assert (Hid : user_id merged = user_id original).
  { unfold merged, mergeEdit; cbn. now rewrite Hi. }
  assert (Hpw : truthy (password merged) = false).
  { unfold merged, mergeEdit; cbn. now rewrite Hp. }
  pose proof (updateTeacher_cases merged be w) as Hc.
  rewrite Hid, Hstored in Hc. cbn zeta in Hc.
  destruct Hc as (be' & E & Hlook & _ & _ & _ & _ & Hkeep & _).
  rewrite E. cbn [fst snd isModalOpen m_teachers].
  exists (updatedTeacherData original merged).
  split; [exact Hlook|]. split; [exact (Hkeep Hpw)|].
  split; [reflexivity|]. split; [reflexivity|]. split; [reflexivity|].
  unfold getTeachers. apply in_map.
  unfold teacherById in Hlook. apply find_some in Hlook. apply Hlook.
Qed.

Lemma edit_without_password_keeps_it_witness :
  let typed := typeAll [(InName, "Dr. E. Reed"); (InPhone, "555-0100")]
                 (handleOpenModalForEdit (userWithoutPassword teacher1) closedManager) in
  teacherById "teacher1" (mockWith tickingClock) = Some teacher1 /\
  exists updated,
    teacherById "teacher1"
      (fst (snd (submitTeacherForm typed (mockWith tickingClock, freshBrowser))))
      = Some updated /\
    password updated = Some "password123" /\
    name updated = "Dr. E. Reed".
Proof.
  cbn zeta. split; [reflexivity|].
  destruct (edit_without_password_keeps_it (mockWith tickingClock) freshBrowser teacher1
              [(InName, "Dr. E. Reed"); (InPhone, "555-0100")] closedManager eq_refl)
    as (updated & Hl & Hp & Hn & _).
  - intros c [<-|[<-|[]]]; reflexivity.
  - exists updated. split; [exact Hl|]. split; [exact Hp|exact Hn].
Defined.

(** ** Login screen *)

Lemma sameRole_eq (a b : Role) : sameRole a b = true <-> a = b.
Proof. destruct a, b; cbn; split; (reflexivity || discriminate). Qed.

(** X9. The login screen hands a user on only when the service accepted
    the credentials and the role of the account is that of the portal
    chosen; the user handed on has no password, and neither the accounts nor
    the browser have changed. *)
Theorem login_screen_admits_matching_role
    (toLowerCase : string -> string) (l l' : LoginState)
    (st st' : MockBackend * Browser) (u : User)
    (Hadmitted : loginSubmit toLowerCase l st = (l', st', Some u)) :
  role u = activeTab l /\
  password u = None /\
  st' = st /\
  l_error l' = "" /\
  login toLowerCase (fst st)
    (if isAdminTab (activeTab l) then "admin" else identifier l) (l_password l) = inr u.
Proof.
  unfold loginSubmit in Hadmitted.
  destruct (isRegistering l && isStudentTab (activeTab l)).
  - destruct (isEmpty (l_name l) || isEmpty (identifier l) || isEmpty (l_password l)
              || isEmpty (l_enrollmentNumber l)); [discriminate|].
    destruct (registerStudent _ st) as [st1 [e|v]]; discriminate.
  - destruct (login toLowerCase (fst st) _ (l_password l)) as [e|v] eqn:Hlogin;
      [discriminate|].
    destruct (sameRole (role v) (activeTab l)) eqn:Hrole; [|discriminate].
    injection Hadmitted as <- <- <-.
    apply sameRole_eq in Hrole.
    repeat split; try assumption.
    destruct (login_result _ _ _ _ _ Hlogin) as [(_ & _ & ->)|(x & _ & -> & _)];
      reflexivity.
Qed.

Lemma login_screen_admits_matching_role_witness :
  loginSubmit asciiLowerCase (studentTab "alice johnson" "password123")
    (mockWith tickingClock, freshBrowser)
  = (studentTab "alice johnson" "password123", (mockWith tickingClock, freshBrowser),
     Some (userWithoutPassword student1)) /\
  role (userWithoutPassword student1) = Student /\
  snd (loginSubmit asciiLowerCase (studentTab "dr. evelyn reed" "password123")
         (mockWith tickingClock, freshBrowser)) = None.
Proof.
  split; [reflexivity|]. split; [|reflexivity].
  exact (proj1 (login_screen_admits_matching_role asciiLowerCase
                  (studentTab "alice johnson" "password123")
                  (studentTab "alice johnson" "password123")
                  (mockWith tickingClock, freshBrowser)
                  (mockWith tickingClock, freshBrowser)
                  (userWithoutPassword student1) eq_refl)).
Defined.

(** X10. On the Admin portal the identifier typed is not used.  As long as
    no stored account has the role Admin, the portal admits exactly the
    password "123", and the user it admits is the built-in administrator. *)
Theorem admin_portal_admits_only_its_password
    (toLowerCase : string -> string) (l : LoginState) (st : MockBackend * Browser)
    (Htab : activeTab l = Admin)
    (Hroles : forall v, In v (teachers (fst st) ++ students (fst st)) -> role v <> Admin) :
  (l_password l = "123" ->
     snd (loginSubmit toLowerCase l st) = Some MOCK_ADMIN) /\
  (l_password l <> "123" ->
     snd (loginSubmit toLowerCase l st) = None) /\
  (forall typed,
     snd (loginSubmit toLowerCase
            (mkLogin (isRegistering l) Admin typed (l_password l) (l_name l)
                     (l_enrollmentNumber l) (l_error l)) st)
     = snd (loginSubmit toLowerCase l st)).
Proof.
  assert (Hgen : forall l0, activeTab l0 = Admin ->
            snd (loginSubmit toLowerCase l0 st) =
              match login toLowerCase (fst st) "admin" (l_password l0) with
              | inr user => if sameRole (role user) Admin then Some user else None
              | inl _ => None
              end).
  { intros l0 H0. unfold loginSubmit. rewrite H0. cbn [isStudentTab isAdminTab].
    rewrite andb_false_r.
    destruct (login toLowerCase (fst st) "admin" (l_password l0)) as [e|v];
      [reflexivity|].
    destruct (sameRole (role v) Admin); reflexivity. }
  split; [|split].
  - intros Hpw. rewrite (Hgen l Htab), Hpw. reflexivity.
  - intros Hpw. rewrite (Hgen l Htab).
    destruct (login toLowerCase (fst st) "admin" (l_password l)) as [e|v] eqn:Hlogin;
      [reflexivity|].
    destruct (login_result _ _ _ _ _ Hlogin) as [(_ & Hp & _)|(x & Hin & -> & _)];
      [contradiction|].
    destruct (sameRole (role (userWithoutPassword x)) Admin) eqn:Hr; [|reflexivity].
    apply sameRole_eq in Hr. cbn in Hr. exfalso. exact (Hroles x Hin Hr).
  - intros typed. rewrite (Hgen l Htab).
    rewrite (Hgen (mkLogin (isRegistering l) Admin typed (l_password l) (l_name l)
                           (l_enrollmentNumber l) (l_error l)) eq_refl).
    reflexivity.
Qed.

Lemma admin_portal_admits_only_its_password_witness :
  snd (loginSubmit asciiLowerCase (adminTab "123") (mockWith tickingClock, freshBrowser))
    = Some MOCK_ADMIN /\
  snd (loginSubmit asciiLowerCase (adminTab "password123")
         (mockWith tickingClock, freshBrowser)) = None.
Proof.
  assert (Hroles : forall v,
            In v (teachers (fst (mockWith tickingClock, freshBrowser))
                  ++ students (fst (mockWith tickingClock, freshBrowser))) ->
            role v <> Admin).
  { cbn. intros v [<-|[<-|[<-|[]]]]; discriminate. }
  split.
  - exact (proj1 (admin_portal_admits_only_its_password asciiLowerCase (adminTab "123")
                    (mockWith tickingClock, freshBrowser) eq_refl Hroles) eq_refl).
  - apply (proj1 (proj2 (admin_portal_admits_only_its_password asciiLowerCase
                           (adminTab "password123")
                           (mockWith tickingClock, freshBrowser) eq_refl Hroles))).
    discriminate.
Defined.

(** X11. Submitting the registration form never logs anyone in.  When one
    of the four fields is empty, nothing is sent to the service and the
    error "All fields are required for registration." is shown; when the
    service refuses the email, its message is shown and the fields are kept;
    when the account is created, the fields are cleared and the screen
    returns to login. *)
Theorem registration_never_logs_in
    (toLowerCase : string -> string) (l : LoginState) (st : MockBackend * Browser)
    (Hregistering : isRegistering l = true) (Htab : activeTab l = Student) :
  let out := loginSubmit toLowerCase l st in
  let data := {| ud_name := l_name l; ud_email := identifier l;
                 ud_password := Some (l_password l); ud_phone := None;
                 ud_address := None; ud_specialization := None;
                 ud_enrollmentNumber := Some (l_enrollmentNumber l) |} in
  snd out = None /\
  ((l_name l = "" \/ identifier l = "" \/ l_password l = "" \/ l_enrollmentNumber l = "") ->
     snd (fst out) = st /\
     l_error (fst (fst out)) = "All fields are required for registration." /\
     isRegistering (fst (fst out)) = true) /\
  (l_name l <> "" -> identifier l <> "" -> l_password l <> "" ->
   l_enrollmentNumber l <> "" ->
     fst (snd (fst out)) = fst (fst (registerStudent data st)) /\
     match snd (registerStudent data st) with
     | inr _ => fst (fst out) = mkLogin false Student "" "" "" "" ""
     | inl _ => isRegistering (fst (fst out)) = true /\
                identifier (fst (fst out)) = identifier l /\
                l_error (fst (fst out)) = "An account with this email already exists."
     end).
Proof.
  cbn zeta. unfold loginSubmit. rewrite Hregistering, Htab. cbn [isStudentTab andb].
  assert (Hempty : forall s, isEmpty s = true <-> s = "").
  { intros s. destruct s; cbn; split; (reflexivity || discriminate). }
  destruct (isEmpty (l_name l)) eqn:E1; [|destruct (isEmpty (identifier l)) eqn:E2;
    [|destruct (isEmpty (l_password l)) eqn:E3;
      [|destruct (isEmpty (l_enrollmentNumber l)) eqn:E4]]]; cbn [orb].
  1-4: split; [reflexivity|]; split; [intros _; repeat split|];
       intros H1 H2 H3 H4; exfalso.
  - apply H1. now apply Hempty.
  - apply H2. now apply Hempty.
  - apply H3. now apply Hempty.
  - apply H4. now apply Hempty.
  - destruct (registerStudent _ st) as [st1 [e|v]] eqn:Hreg; cbn [fst snd].
    + split; [reflexivity|]. split.
      * intros [H|[H|[H|H]]]; apply Hempty in H; congruence.
      * intros _ _ _ _. split; [reflexivity|].
        destruct st as [be w].
        destruct (registerStudent_cases
                    {| ud_name := l_name l; ud_email := identifier l;
                       ud_password := Some (l_password l); ud_phone := None;
                       ud_address := None; ud_specialization := None;
                       ud_enrollmentNumber := Some (l_enrollmentNumber l) |} be w)
          as [[_ E]|[_ [be' (E & _)]]]; rewrite E in Hreg; [|discriminate].
        injection Hreg as _ <-. repeat split.
    + split; [reflexivity|]. split.
      * intros [H|[H|[H|H]]]; apply Hempty in H; congruence.
      * intros _ _ _ _. split; reflexivity.
Qed.

Lemma registration_never_logs_in_witness :
  let l := registeringTab "Carol Diaz" "carol.d@school.com" "secret" "" in
  let out := loginSubmit asciiLowerCase l (mockWith tickingClock, freshBrowser) in
  snd out = None /\
  snd (fst out) = (mockWith tickingClock, freshBrowser) /\
  l_error (fst (fst out)) = "All fields are required for registration.".
Proof.
  cbn zeta.
  pose proof (registration_never_logs_in asciiLowerCase
                (registeringTab "Carol Diaz" "carol.d@school.com" "secret" "")
                (mockWith tickingClock, freshBrowser) eq_refl eq_refl) as H.
  cbn zeta in H. destruct H as (Hnone & Hempty & _).
  split; [exact Hnone|].
  destruct Hempty as (Hst & Herr & _); [right; right; right; reflexivity|].
  split; [exact Hst|exact Herr].
Defined.

(** ** Attendance of a session *)

Lemma getAttendanceForSession_after_mark
    (record : PendingRecord) (session : string) (be : MockBackend) (w : Browser) :
  getAttendanceForSession session (fst (fst (mock_markAttendance record (be, w))))
  = getAttendanceForSession session be
    ++ (if String.eqb (sessionId record) session then [nextStored be record] else []).
Proof.
  unfold getAttendanceForSession, mock_markAttendance. cbn.
  rewrite filter_app. cbn.
  destruct (String.eqb (sessionId record) session); reflexivity.
Qed.

(** X12. A record accepted by [markAttendance] is listed from then on
    under its own session, after the records the session already had, and
    under no other session: the attendance of every other session reads as
    before. *)
Theorem marked_attendance_is_listed_in_its_session
    (record : PendingRecord) (session : string) (be : MockBackend) (w : Browser) :
  let be' := fst (fst (mock_markAttendance record (be, w))) in
  getAttendanceForSession (sessionId record) be'
    = getAttendanceForSession (sessionId record) be ++ [nextStored be record] /\
  (session <> sessionId record ->
     getAttendanceForSession session be' = getAttendanceForSession session be) /\
  (forall a, In a (getAttendanceForSession session be') ->
             sessionId (att_fields a) = session /\ In a (getAllAttendance be')).
Proof.
  cbn zeta. split; [|split].
  - rewrite getAttendanceForSession_after_mark. now rewrite String.eqb_refl.
  - intros Hs. rewrite getAttendanceForSession_after_mark.
    assert (E : String.eqb (sessionId record) session = false)
      by (apply String.eqb_neq; congruence).
    rewrite E. apply app_nil_r.
  - intros a Ha. unfold getAttendanceForSession in Ha.
    apply filter_In in Ha as [Hin Hs]. apply String.eqb_eq in Hs. auto.
Qed.

(** The outcomes of a manual mark against the mock store. *)
Lemma handleManualMark_cases
    (user : User) (sessionCode now : string) (t : TakerState)
    (be : MockBackend) (w : Browser) :
  let out := handleManualMarkByEnrollment user sessionCode now t (be, w) in
  (snd out = (be, w) /\
   t_records (fst out) = t_records t /\
   snd (manualMarkMessage (fst out)) <> success /\
   (enrollmentInput t = "" \/
    find (hasEnrollment (enrollmentInput t)) (allStudents t) = None \/
    exists s, find (hasEnrollment (enrollmentInput t)) (allStudents t) = Some s /\
              isPresent (user_id s) t = true)) \/
  (exists s,
     enrollmentInput t <> "" /\
     find (hasEnrollment (enrollmentInput t)) (allStudents t) = Some s /\
     isPresent (user_id s) t = false /\
     snd out = fst (mock_markAttendance (manualRecord user s sessionCode now) (be, w)) /\
     fst out = fetchAttendance sessionCode (fst (snd out))
                 (mkTaker (t_records t) (allStudents t) ""
                    (("Successfully marked " ++ name s ++ " as present.")%string, success))).
Proof.
  cbn zeta. unfold handleManualMarkByEnrollment.
  destruct (enrollmentInput t) as [|c rest] eqn:Hin; cbn [isEmpty].
  - left. repeat split; auto. cbn. discriminate.
  - destruct (find (hasEnrollment (String c rest)) (allStudents t)) as [s|] eqn:Hf.
    + destruct (isPresent (user_id s) t) eqn:Hp.
      * left. repeat split; eauto. cbn. discriminate.
      * right. exists s. repeat split; auto. discriminate.
    + left. repeat split; auto. cbn. discriminate.
Qed.

(** X13. A manual mark stores at most one record, and none at all when the
    input is empty, when no known student has the enrollment number, or when
    the student found is already in the attendance shown.  It stores one only
    for a non-empty input, and the record is then for the student found, in
    the teacher's name and for the session shown, without location. *)
Theorem manual_mark_stores_one_unlocated_record
    (user : User) (sessionCode now : string) (t : TakerState)
    (be : MockBackend) (w : Browser) :
  let out := handleManualMarkByEnrollment user sessionCode now t (be, w) in
  (attendanceRecords (fst (snd out)) = attendanceRecords be /\
   (enrollmentInput t = "" \/
    find (hasEnrollment (enrollmentInput t)) (allStudents t) = None \/
    exists s, find (hasEnrollment (enrollmentInput t)) (allStudents t) = Some s /\
              isPresent (user_id s) t = true)) \/
  (exists s a,
     enrollmentInput t <> "" /\
     find (hasEnrollment (enrollmentInput t)) (allStudents t) = Some s /\
     isPresent (user_id s) t = false /\
     attendanceRecords (fst (snd out)) = attendanceRecords be ++ [a] /\
     studentId (att_fields a) = user_id s /\
     enrollmentNumber s = Some (enrollmentInput t) /\
     teacherId (att_fields a) = user_id user /\
     sessionId (att_fields a) = sessionCode /\
     location (att_fields a) = None).
Proof.
  cbn zeta.
  destruct (handleManualMark_cases user sessionCode now t be w)
    as [(Hst & _ & _ & Hwhy)|(s & Hne & Hf & Hp & Hst & _)].
  - left. rewrite Hst. auto.
  - right. exists s, (nextStored be (manualRecord user s sessionCode now)).
    rewrite Hst. split; [exact Hne|]. repeat split; auto.
    apply find_some in Hf as [_ He]. unfold hasEnrollment in He.
    destruct (enrollmentNumber s) as [e|]; [|discriminate].
    apply String.eqb_eq in He. now subst.
Qed.

(** X14. After a manual mark has succeeded for a session with a code, the
    attendance shown contains the student and the input is cleared; typing
    the same enrollment number again is answered with "already marked as
    present" and stores nothing. *)
Theorem manual_mark_is_not_repeated
    (user s : User) (sessionCode now now' : string) (t : TakerState)
    (be : MockBackend) (w : Browser)
    (Hcode : sessionCode <> "")
    (Hinput : enrollmentInput t <> "")
    (Hfound : find (hasEnrollment (enrollmentInput t)) (allStudents t) = Some s)
    (Habsent : isPresent (user_id s) t = false) :
  let out := handleManualMarkByEnrollment user sessionCode now t (be, w) in
  let again := handleManualMarkByEnrollment user sessionCode now'
                 (setEnrollmentInput (enrollmentInput t) (fst out)) (snd out) in
  isPresent (user_id s) (fst out) = true /\
  enrollmentInput (fst out) = "" /\
  t_records (fst out) = getAttendanceForSession sessionCode (fst (snd out)) /\
  snd again = snd out /\
  manualMarkMessage (fst again)
    = ((name s ++ " is already marked as present.")%string, info).
Proof.
  cbn zeta.
  destruct (handleManualMark_cases user sessionCode now t be w)
    as [(_ & _ & _ & [H|[H|(s' & H & Hp)]])|(s' & _ & Hf & _ & Hst & Ht)];
    try congruence.
  assert (s' = s) by congruence. subst s'.
  destruct (handleManualMarkByEnrollment user sessionCode now t (be, w)) as [t1 st1].
  cbn [fst snd] in *. subst st1.
  assert (Hrec : t_records t1 =
                 getAttendanceForSession sessionCode
                   (fst (fst (mock_markAttendance (manualRecord user s sessionCode now) (be, w))))).
  { rewrite Ht. unfold fetchAttendance.
    destruct sessionCode; [contradiction|reflexivity]. }
  assert (Hpresent : isPresent (user_id s) t1 = true).
  { unfold isPresent. rewrite Hrec, getAttendanceForSession_after_mark.
    cbn [manualRecord sessionId]. rewrite String.eqb_refl.
    rewrite existsb_app. cbn. rewrite String.eqb_refl. cbn. apply orb_true_r. }
  assert (Hstudents : allStudents t1 = allStudents t /\ enrollmentInput t1 = "").
  { rewrite Ht. unfold fetchAttendance. destruct (isEmpty sessionCode); auto. }
  destruct Hstudents as [Hall Hcleared].
  split; [exact Hpresent|]. split; [exact Hcleared|]. split; [exact Hrec|].
  unfold handleManualMarkByEnrollment, setEnrollmentInput.
  cbn [enrollmentInput allStudents].
  destruct (enrollmentInput t) as [|c rest] eqn:Hin; [contradiction|].
  cbn [isEmpty]. rewrite Hall, Hfound.
  unfold isPresent in *. cbn [t_records]. rewrite Hpresent.
  split; reflexivity.
Qed.

Lemma manual_mark_is_not_repeated_witness :
  let t := takerWith [student1; student2] "S002" in
  let out := handleManualMarkByEnrollment teacher1 sampleCode "09:00" t
               (mockWith tickingClock, freshBrowser) in
  let again := handleManualMarkByEnrollment teacher1 sampleCode "09:05"
                 (setEnrollmentInput "S002" (fst out)) (snd out) in
  map att_fields (attendanceRecords (fst (snd out)))
    = [manualRecord teacher1 student2 sampleCode "09:00"] /\
  snd again = snd out /\
  manualMarkMessage (fst again) = ("Bob Williams is already marked as present.", info).
Proof.
  cbn zeta. split; [reflexivity|].
  destruct (manual_mark_is_not_repeated teacher1 student2 sampleCode "09:00" "09:05"
              (takerWith [student1; student2] "S002") (mockWith tickingClock) freshBrowser)
    as (_ & _ & _ & Hsame & Hmsg); try discriminate; try reflexivity.
  split; [exact Hsame|exact Hmsg].
Defined.

(** X15. The round trip of a session code: the code a teacher's dashboard
    generates, scanned with a position by a student whose scanner was started
    while online, puts into the attendance the teacher fetches for that code
    one more record, which names the student and the teacher and carries the
    position; the queue is not used and the scan is marked completed.  The
    connectivity that counts is the one at the start of the scanner, whatever
    it is when the code is scanned. *)
Theorem scanned_code_reaches_the_teacher
    (teacher student : User) (ms : N) (now : string) (p : Position)
    (s : Sys MockBackend) (t : TakerState)
    (Hid : user_id teacher <> "")
    (Hplain : occurs dash (user_id teacher) = false)
    (Hstarted_online : mountOffline s = false) :
  let code := generateCode teacher ms in
  let s' := step student (EvScan now (inr p) code) s in
  exists a,
    t_records (fetchAttendance code (backend s') t)
      = getAttendanceForSession code (backend s) ++ [a] /\
    studentId (att_fields a) = user_id student /\
    studentName (att_fields a) = name student /\
    teacherId (att_fields a) = user_id teacher /\
    sessionId (att_fields a) = code /\
    location (att_fields a) = Some p /\
    pendingAttendance s' = pendingAttendance s /\
    scanCompleted (scanner s') = true.
Proof.
  cbn zeta.
  assert (Hbuilt : buildAttendanceData student now (Some p) (generateCode teacher ms)
                   = inr {| studentId := user_id student; studentName := name student;
                            studentEnrollmentNumber := enrollmentNumber student;
                            teacherId := user_id teacher;
                            sessionId := generateCode teacher ms;
                            timestamp := now; location := Some p |}).
  { unfold generateCode.
    rewrite buildAttendanceData_cases, (sessionCodeOf_first_piece _ _ Hplain).
    destruct (user_id teacher); [contradiction|reflexivity]. }
  set (s1 := setMessageType info
               (setMessage "QR code scanned. Getting location..."
                  (setScannerPaused true s))).
  destruct (processAttendance_online_mock (mountClosure s) student now (Some p)
              (generateCode teacher ms) s1 _ Hstarted_online Hbuilt)
    as (Hrec & Hq & Hv & Ho).
  assert (Hh : handle student (EvScan now (inr p) (generateCode teacher ms)) s
               = setScanCompleted true
                   (snd (processAttendance (mountClosure s) student now (Some p)
                           (generateCode teacher ms) s1))).
  { cbn [handle]. unfold onScanSuccess.
    cbn [mountClosure c_locationError c_scanCompleted initialScanner
         locationError scanCompleted].
    fold s1. unfold processAttendance. rewrite Hbuilt.
    cbn [c_isOffline mountClosure]. rewrite Hstarted_online. reflexivity. }
  assert (Hstep : step student (EvScan now (inr p) (generateCode teacher ms)) s
                  = handle student (EvScan now (inr p) (generateCode teacher ms)) s).
  { rewrite step_effect. unfold effectRuns. rewrite Hh.
    rewrite depsChanged_same; [reflexivity| |].
    - cbn [setScanCompleted with_scanner isOffline]. exact Ho.
    - cbn [setScanCompleted with_scanner queueVersion]. exact Hv. }
  rewrite Hstep, Hh.
  cbn [setScanCompleted with_scanner backend pendingAttendance scanner scanCompleted].
  match type of Hrec with
  | _ = _ ++ [?a] => exists a
  end.
  split; [|repeat split; exact Hq].
  unfold fetchAttendance.
  assert (Hne : isEmpty (generateCode teacher ms) = false).
  { unfold generateCode, sessionCodeOf. destruct (user_id teacher); reflexivity. }
  rewrite Hne. cbn [t_records]. unfold getAttendanceForSession.
  rewrite Hrec, filter_app. cbn. now rewrite String.eqb_refl.
Qed.

Lemma scanned_code_reaches_the_teacher_witness :
  let code := generateCode teacher1 1700000000000 in
  let started := clientWith false [] tickingClock in
  let s' := run student1 [EvOffline; EvScan "09:00" (inr samplePosition) code] started in
  code = sampleCode /\
  isOffline s' = true /\
  exists a,
    t_records (fetchAttendance code (backend s') (takerWith [] ""))
      = getAttendanceForSession code (backend started) ++ [a] /\
    studentId (att_fields a) = "student1" /\
    teacherId (att_fields a) = "teacher1" /\
    location (att_fields a) = Some samplePosition.
Proof.
  cbn zeta. split; [reflexivity|]. split; [reflexivity|].
  destruct (scanned_code_reaches_the_teacher teacher1 student1 1700000000000 "09:00"
              samplePosition (step student1 EvOffline (clientWith false [] tickingClock))
              (takerWith [] ""))
    as (a & Hr & Hs & _ & Ht & _ & Hl & _); try discriminate; try reflexivity.
  exists a. split; [exact Hr|]. split; [exact Hs|]. split; [exact Ht|exact Hl].
Defined.

(** ** Invariants of the client *)

Lemma storeExtends_refl (s : Sys MockBackend) : storeExtends s s.
Proof. exists []. now rewrite app_nil_r. Qed.

Lemma storeExtends_trans (s1 s2 s3 : Sys MockBackend) :
  storeExtends s1 s2 -> storeExtends s2 s3 -> storeExtends s1 s3.
Proof.
  intros [a Ha] [b Hb]. exists (a ++ b). now rewrite Hb, Ha, app_assoc.
Qed.

Lemma storeExtends_same (s s' : Sys MockBackend) :
  attendanceRecords (backend s') = attendanceRecords (backend s) -> storeExtends s s'.
Proof. intros H. exists []. now rewrite H, app_nil_r. Qed.

(** Writes that succeed keep local storage accepting writes, and a write of
    another key leaves the persisted attendance list alone. *)
Lemma setPendingAttendance_persisted (v : list PendingRecord) (s : Sys MockBackend) :
  storePersisted s -> storePersisted (setPendingAttendance v s).
Proof.
  unfold storePersisted, persisted. intros [Hq Hp].
  cbn [setPendingAttendance browser backend]. unfold setStoredData, setItem.
  rewrite Hq. cbn. auto.
Qed.

Lemma mock_markAttendance_persisted (r : PendingRecord) (be : MockBackend) (w : Browser) :
  quotaExceeded (localStorage w) = false ->
  persisted (fst (fst (mock_markAttendance r (be, w))))
            (snd (fst (mock_markAttendance r (be, w)))).
Proof.
  intros Hq. unfold persisted, mock_markAttendance, setStoredData, setItem.
  cbn. rewrite Hq. cbn. auto.
Qed.

Lemma submitAll_persisted (records : list PendingRecord) :
  forall (be : MockBackend) (w : Browser),
    persisted be w ->
    persisted (fst (fst (submitAll records (be, w)))) (snd (fst (submitAll records (be, w)))).
Proof.
  induction records as [|r rest IH]; intros be w Hp; [exact Hp|].
  cbn [submitAll markAttendance mockApiService].
  pose proof (mock_markAttendance_persisted r be w (proj1 Hp)) as H1.
  destruct (mock_markAttendance r (be, w)) as [[be1 w1] res]. cbn [fst snd] in H1.
  specialize (IH be1 w1 H1).
  destruct (submitAll rest (be1, w1)) as [[be2 w2] results]. exact IH.
Qed.

Lemma processAttendance_store (cl : Closure) (user : User) (now : string)
    (loc : option Position) (code : string) (s : Sys MockBackend) :
  let s' := snd (processAttendance cl user now loc code s) in
  storeExtends s s' /\ (storePersisted s -> storePersisted s').
Proof.
  cbn zeta. unfold processAttendance.
  destruct (buildAttendanceData user now loc code) as [e|r];
    [split; [apply storeExtends_refl|auto]|].
  destruct (c_isOffline cl); cbn [snd].
  - split; [apply storeExtends_same; reflexivity|].
    intros Hp.
    exact (setPendingAttendance_persisted (c_pendingAttendance cl ++ [r]) s Hp).
  - split.
    + eexists. cbn. reflexivity.
    + intros [Hq _]. pose proof (mock_markAttendance_persisted r (backend s) (browser s) Hq).
      assumption.
Qed.

Lemma syncOfflineData_settle_store (batch : option Batch) (s : Sys MockBackend) :
  let s' := syncOfflineData_settle batch s in
  storeExtends s s' /\ (storePersisted s -> storePersisted s').
Proof.
  cbn zeta. destruct batch as [[e|synced]|].
  - split; [apply storeExtends_same; reflexivity|auto].
  - split; [apply storeExtends_same; reflexivity|].
    intros Hp.
    exact (setPendingAttendance_persisted []
             (with_browser (log (LogSynced synced)) s) Hp).
  - split; [apply storeExtends_refl|auto].
Qed.

Lemma startDrain_store (s : Sys MockBackend) :
  storeExtends s (startDrain s) /\ (storePersisted s -> storePersisted (startDrain s)).
Proof.
  unfold startDrain, syncOfflineData_begin.
  destruct (Nat.ltb 0 (List.length (c_pendingAttendance (render s)))
            && negb (c_isOffline (render s)));
    [|split; [apply storeExtends_refl|auto]].
  set (w := browser (with_browser
                       (log (LogSyncing (List.length (c_pendingAttendance (render s))))) s)).
  pose proof (submitAll_mock (c_pendingAttendance (render s)) (backend s) w) as H.
  pose proof (submitAll_persisted (c_pendingAttendance (render s)) (backend s) w) as Hp.
  cbn zeta in H.
  change (backend
            (with_browser
               (log (LogSyncing (List.length (c_pendingAttendance (render s))))) s))
    with (backend s).
  destruct (submitAll (c_pendingAttendance (render s)) (backend s, w)) as [[be w'] results].
  cbn [fst snd] in *. destruct H as (_ & Hrec & _).
  split.
  - eexists. cbn. exact Hrec.
  - intros Hs. apply Hp. exact Hs.
Qed.

Lemma handle_store (user : User) (ev : Event) (s : Sys MockBackend) :
  let h := handle user ev s in
  (isMount ev = false -> storeExtends s h) /\
  (storePersisted s -> fillsStorage ev = false -> storeExtends s h /\ storePersisted h).
Proof.
  cbn zeta.
  destruct ev as [online| | |now located code|now| |exceeded|]; cbn [handle isMount fillsStorage].
  - split; [discriminate|]. intros [Hq Hp] _.
    assert (E : attendanceRecords (mock_moduleLoad (browser s) (backend s))
                = attendanceRecords (backend s)).
    { unfold mock_moduleLoad, getStoredData. cbn. now rewrite Hp. }
    split.
    + apply storeExtends_same. exact E.
    + split; [exact Hq|]. cbn [browser backend moduleLoad mockApiService].
      rewrite E. exact Hp.
  - split; [intros _; apply storeExtends_same; reflexivity|].
    intros Hp _. split; [apply storeExtends_same; reflexivity|exact Hp].
  - split; [intros _; apply storeExtends_same; reflexivity|].
    intros Hp _. split; [apply storeExtends_same; reflexivity|exact Hp].
  - assert (H : storeExtends s (onScanSuccess (mountClosure s) user now located code s) /\
                (storePersisted s ->
                 storePersisted (onScanSuccess (mountClosure s) user now located code s))).
    { unfold onScanSuccess.
      destruct (c_locationError (mountClosure s)); [split; [apply storeExtends_refl|auto]|].
      destruct (c_scanCompleted (mountClosure s)); [split; [apply storeExtends_refl|auto]|].
      destruct located as [e|p]; [split; [apply storeExtends_same; reflexivity|auto]|].
      match goal with
      | |- context [processAttendance ?cl user now (Some p) code ?t] =>
          pose proof (processAttendance_store cl user now (Some p) code t) as H;
          destruct (processAttendance cl user now (Some p) code t) as [[e|u] s2]
      end; cbn [snd] in H; destruct H as [[a Ha] Hp];
        (split; [exists a; exact Ha|intros Hs; exact (Hp Hs)]). }
    destruct H as [He Hp]. split; [auto|]. intros Hs _. auto.
  - assert (H : storeExtends s (handleMarkWithoutLocation (render s) user now s) /\
                (storePersisted s ->
                 storePersisted (handleMarkWithoutLocation (render s) user now s))).
    { unfold handleMarkWithoutLocation.
      destruct (c_pendingScanData (render s)) as [[|c code]|];
        try (split; [apply storeExtends_refl|auto]).
      match goal with
      | |- context [processAttendance ?cl user now None ?d ?t] =>
          pose proof (processAttendance_store cl user now None d t) as H;
          destruct (processAttendance cl user now None d t) as [[e|u] s2]
      end; cbn [snd] in H; destruct H as [[a Ha] Hp];
        (split; [exists a; exact Ha|intros Hs; exact (Hp Hs)]). }
    destruct H as [He Hp]. split; [auto|]. intros Hs _. auto.
  - unfold handleResumeScanning.
    match goal with |- context [if ?b then _ else _] => destruct b end;
      (split; [intros _; apply storeExtends_same; reflexivity|];
       intros Hp _; split; [apply storeExtends_same; reflexivity|exact Hp]).
  - split; [intros _; apply storeExtends_same; reflexivity|].
    intros [Hq Hp] ->. split; [apply storeExtends_same; reflexivity|].
    split; [reflexivity|exact Hp].
  - destruct (draining s) as [|batch rest].
    + split; [intros _; apply storeExtends_refl|].
      intros Hp _. split; [apply storeExtends_refl|exact Hp].
    + destruct (syncOfflineData_settle_store (Some batch)
                  (with_draining (fun _ => rest) s)) as [[a Ha] Hp].
      split; [intros _; exists a; exact Ha|].
      intros Hs _. split; [exists a; exact Ha|exact (Hp Hs)].
Qed.

Lemma step_store (user : User) (ev : Event) (s : Sys MockBackend) :
  (isMount ev = false -> storeExtends s (step user ev s)) /\
  (storePersisted s -> fillsStorage ev = false ->
     storeExtends s (step user ev s) /\ storePersisted (step user ev s)).
Proof.
  destruct (handle_store user ev s) as [Hplain Hkept].
  assert (Heffect : storeExtends (handle user ev s) (drainEffect (handle user ev s)) /\
                    (storePersisted (handle user ev s) ->
                     storePersisted (drainEffect (handle user ev s)))).
  { unfold drainEffect. destruct (negb (isOffline (handle user ev s)));
      [apply startDrain_store|split; [apply storeExtends_refl|auto]]. }
  destruct Heffect as [He Hp].
  rewrite step_effect. destruct (effectRuns user ev s).
  - split.
    + intros Hm. eapply storeExtends_trans; [exact (Hplain Hm)|exact He].
    + intros Hs Hf. destruct (Hkept Hs Hf) as [H1 H2].
      split; [eapply storeExtends_trans; [exact H1|exact He]|exact (Hp H2)].
  - split; [exact Hplain|exact Hkept].
Qed.

(** X16. Between page loads the client only ever appends to the remote
    attendance store: whatever the events (connectivity, scans, marking
    without location, drains settling, storage filling up), every record
    stored before is still there afterwards, at the same place.  Across page
    loads this holds as long as local storage accepts writes and holds the
    attendance list: a page load reads the list back from there. *)
Theorem client_only_appends_to_the_store
    (user : User) (evs : list Event) (s : Sys MockBackend) :
  (forallb (fun ev => negb (isMount ev)) evs = true ->
     storeExtends s (run user evs s)) /\
  (storePersisted s -> forallb (fun ev => negb (fillsStorage ev)) evs = true ->
     storeExtends s (run user evs s) /\ storePersisted (run user evs s)).
Proof.
  revert s. induction evs as [|ev evs IH]; intros s.
  - split; [intros _; apply storeExtends_refl|].
    intros Hs _. split; [apply storeExtends_refl|exact Hs].
  - unfold run in *. cbn [fold_left forallb].
    destruct (step_store user ev s) as [Hplain Hkept].
    destruct (IH (step user ev s)) as [IHplain IHkept].
    split.
    + intros H. apply andb_prop in H as [Hev Hrest].
      apply negb_true_iff in Hev.
      eapply storeExtends_trans; [exact (Hplain Hev)|exact (IHplain Hrest)].
    + intros Hs H. apply andb_prop in H as [Hev Hrest].
      apply negb_true_iff in Hev.
      destruct (Hkept Hs Hev) as [H1 H2].
      destruct (IHkept H2 Hrest) as [H3 H4].
      split; [eapply storeExtends_trans; [exact H1|exact H3]|exact H4].
Qed.

(** A record whose write failed is lost by the next page load. *)
Lemma client_only_appends_to_the_store_witness :
  let s := clientOnlineQueued in
  let scan := EvScan "09:05" (inr samplePosition) sampleCode in
  storePersisted s /\
  storeExtends s (run student1 [scan; EvMount true; EvSettled] s) /\
  List.length (attendanceRecords (backend (run student1 [scan; EvMount true; EvSettled] s)))
    = 2 /\
  attendanceRecords (backend (run student1 [EvQuota true; scan] s)) <> [] /\
  attendanceRecords (backend (run student1 [EvQuota true; scan; EvMount false] s)) = [].
Proof.
  cbn zeta.
  assert (Hs : storePersisted clientOnlineQueued) by (split; reflexivity).
  split; [exact Hs|]. split; [|split; [reflexivity|split; [discriminate|reflexivity]]].
  exact (proj1 (proj2 (client_only_appends_to_the_store student1
                         [EvScan "09:05" (inr samplePosition) sampleCode;
                          EvMount true; EvSettled] clientOnlineQueued) Hs eq_refl)).
Defined.

(** ** Persistence of the attendance store *)

(** X17. Each accepted submission writes the whole attendance list to
    local storage.  When the write succeeds, the persisted list is the list
    in memory, whatever was persisted before; when it fails, the record is
    still added in memory and returned to the caller, the persisted list
    stays as it was, and the only trace is a line on the console. *)
Theorem markAttendance_persists_whole_list
    (record : PendingRecord) (be : MockBackend) (w : Browser) :
  let out := mock_markAttendance record (be, w) in
  let be' := fst (fst out) in
  let w' := snd (fst out) in
  snd out = inr (nextStored be record) /\
  attendanceRecords be' = attendanceRecords be ++ [nextStored be record] /\
  (quotaExceeded (localStorage w) = false ->
     getStoredData item_mock_attendance [] w' = attendanceRecords be' /\
     console w' = console w) /\
  (quotaExceeded (localStorage w) = true ->
     localStorage w' = localStorage w /\
     console w' = console w ++ [LogWriteError "mock_attendance"]).
Proof.
  cbn zeta. unfold mock_markAttendance, getStoredData, setStoredData, setItem; cbn.
  split; [reflexivity|]. split; [reflexivity|].
  split; intros Hq; rewrite Hq; cbn; auto.
Qed.

(** ** Quizzes *)

Lemma decimal_plain (n : N) : occurs dash (decimal n) = false.
Proof. unfold decimal. apply string_of_uint_plain. Qed.

Lemma generated_id_is_no_saved_id (a : string) (n : N) :
  ("quiz-" ++ a)%string <> ("quiz" ++ decimal n)%string.
Proof.
  cbn. intros H. injection H as H.
  pose proof (decimal_plain n) as Hp. rewrite <- H in Hp. cbn in Hp. discriminate.
Qed.

Lemma saveQuiz_savedIdentities (quiz : Quiz) (now : N) (tables : QuizTables) (w : Browser) :
  savedIdentities tables ->
  savedIdentities (fst (fst (saveQuiz quiz now (tables, w)))).
Proof.
  unfold savedIdentities, saveQuiz; cbn. intros H.
  apply Forall_app. split; [exact H|].
  constructor; [|constructor]. now exists now.
Qed.

Lemma getQuizById_generated (a : string) (tables : QuizTables) :
  savedIdentities tables -> getQuizById ("quiz-" ++ a) tables = None.
Proof.
  unfold savedIdentities, getQuizById. intros H.
  induction H as [|q l [n Hq] _ IH]; cbn; [reflexivity|].
  assert (E : String.eqb (quiz_id q) ("quiz-" ++ a) = false).
  { apply String.eqb_neq. rewrite Hq. intros C. symmetry in C.
    exact (generated_id_is_no_saved_id a n C). }
  cbn in E. rewrite E. exact IH.
Qed.

Lemma handleGenerate_success (g : Gemini) (now1 now2 : N) (s s' : GeneratorState)
    (st st' : QuizTables * Browser) (quiz : Quiz) :
  handleGenerate g now1 now2 s st = (s', st', Some quiz) ->
  exists file,
    g_file s = Some file /\
    (1 <= numQuestions s)%Z /\
    generateQuiz g (file_text file) (difficulty s) (numQuestions s) = inr (questions quiz) /\
    quiz = {| quiz_id := "quiz-" ++ decimal now1; title := file_name file;
              questions := questions quiz |} /\
    st' = fst (saveQuiz quiz now2 st).
Proof.
  unfold handleGenerate.
  destruct (g_file s) as [file|]; [|discriminate].
  destruct (Z.ltb (numQuestions s) 1) eqn:Hn; [discriminate|].
  destruct (generateQuiz g (file_text file) (difficulty s) (numQuestions s))
    as [e|qs] eqn:Hg; [discriminate|].
  destruct st as [tables w]. cbn. intros H. injection H as _ <- <-.
  exists file. apply Z.ltb_ge in Hn.
  split; [reflexivity|]. split; [exact Hn|]. split; [exact Hg|].
  split; reflexivity.
Qed.

(** X18. The quiz handed to the quiz view is not the quiz that was saved:
    [handleGenerate] gives it the identity [quiz-<clock>] while [saveQuiz]
    stores its title and questions under [quiz<clock>].  In a store filled by
    [saveQuiz], looking up the identity the view carries, or the [quizId] of
    any result submitted for it, finds no quiz. *)
Theorem generated_quiz_is_not_found
    (g : Gemini) (now1 now2 : N) (s s' : GeneratorState)
    (st st' : QuizTables * Browser) (quiz : Quiz)
    (Hstore : savedIdentities (fst st))
    (Hgenerated : handleGenerate g now1 now2 s st = (s', st', Some quiz)) :
  quiz_id quiz = ("quiz-" ++ decimal now1)%string /\
  getQuizById (quiz_id quiz) (fst st') = None /\
  (forall (user : User) (view : QuizViewState),
     getQuizById (quizId (resultDataOf quiz user view)) (fst st') = None) /\
  getQuizById ("quiz" ++ decimal now2) (fst st')
    = match getQuizById ("quiz" ++ decimal now2) (fst st) with
      | Some earlier => Some earlier
      | None => Some {| quiz_id := "quiz" ++ decimal now2; title := title quiz;
                        questions := questions quiz |}
      end /\
  savedIdentities (fst st').
Proof.
  destruct (handleGenerate_success _ _ _ _ _ _ _ _ Hgenerated)
    as (file & _ & _ & _ & Hq & Hst).
  destruct st as [tables w]. cbn [fst] in *.
  assert (Hsaved : savedIdentities (fst st')).
  { rewrite Hst. now apply saveQuiz_savedIdentities. }
  assert (Hid : quiz_id quiz = ("quiz-" ++ decimal now1)%string) by (now rewrite Hq).
  split; [exact Hid|]. split; [|split; [|split]].
  - rewrite Hid. now apply getQuizById_generated.
  - intros user view. cbn [resultDataOf quizId]. rewrite Hid.
    now apply getQuizById_generated.
  - rewrite Hst. unfold getQuizById, saveQuiz. cbn [fst quizzes].
    destruct (find _ (quizzes tables)) as [earlier|] eqn:Hf.
    + now apply find_app_first.
    + apply find_app_last.
      * intros v Hv. exact (find_none _ _ Hf v Hv).
      * cbn. apply String.eqb_refl.
  - exact Hsaved.
Qed.

Lemma generated_quiz_is_not_found_witness :
  let s := handleFileChange (Some [notesFile]) initialGenerator in
  let out := handleGenerate cannedGemini 1700000000500 1700000000501 s
               (emptyTables, freshBrowser) in
  snd out = Some sampleQuiz /\
  map quiz_id (quizzes (fst (snd (fst out)))) = ["quiz1700000000501"] /\
  getQuizById (quiz_id sampleQuiz) (fst (snd (fst out))) = None.
Proof.
  cbn zeta. split; [reflexivity|]. split; [reflexivity|].
  refine (proj1 (proj2 (generated_quiz_is_not_found cannedGemini 1700000000500
                          1700000000501
                          (handleFileChange (Some [notesFile]) initialGenerator)
                          _ (emptyTables, freshBrowser) _ sampleQuiz _ eq_refl))).
  constructor.
Defined.

Lemma generatorStep_invariant (ev : GeneratorEvent) (s : GeneratorState) :
  (numQuestions s <= 20)%Z /\
  (forall f, g_file s = Some f -> file_type f = "text/plain") ->
  (numQuestions (generatorStep ev s) <= 20)%Z /\
  (forall f, g_file (generatorStep ev s) = Some f -> file_type f = "text/plain").
Proof.
  intros [Hn Hf]. destruct ev as [files|parsed|level]; cbn [generatorStep].
  - unfold handleFileChange. destruct files as [[|f fs]|]; cbn; auto.
    + split; [exact Hn|discriminate].
    + destruct (String.eqb (file_type f) "text/plain") eqn:E; cbn.
      * split; [exact Hn|]. intros f' H. injection H as <-. now apply String.eqb_eq.
      * split; [exact Hn|discriminate].
  - unfold handleNumQuestionsChange. cbn [numQuestions g_file]. split; [|exact Hf].
    destruct parsed as [v|].
    + destruct (Z.ltb 20 v) eqn:E; [lia|]. apply Z.ltb_ge in E. exact E.
    + cbn. lia.
  - cbn. auto.
Qed.

Lemma generatorRun_invariant (evs : list GeneratorEvent) :
  forall s : GeneratorState,
    (numQuestions s <= 20)%Z /\
    (forall f, g_file s = Some f -> file_type f = "text/plain") ->
    (numQuestions (generatorRun evs s) <= 20)%Z /\
    (forall f, g_file (generatorRun evs s) = Some f -> file_type f = "text/plain").
Proof.
  unfold generatorRun.
  induction evs as [|ev evs IH]; intros s0 H0; [exact H0|].
  cbn [fold_left]. apply IH. now apply generatorStep_invariant.
Qed.

(** X19. However the file input, the count input and the difficulty are
    used, the number of questions never exceeds 20 and the file held is a
    plain-text file; a quiz is generated and handed on only for such a file
    and for between 1 and 20 questions, with the file's name as title and
    with the questions the service returned for the file's text. *)
Theorem quiz_is_generated_within_bounds
    (g : Gemini) (now1 now2 : N) (evs : list GeneratorEvent)
    (st st' : QuizTables * Browser) (s' : GeneratorState) (quiz : Quiz)
    (Hgenerated : handleGenerate g now1 now2 (generatorRun evs initialGenerator) st
                  = (s', st', Some quiz)) :
  let s := generatorRun evs initialGenerator in
  (1 <= numQuestions s <= 20)%Z /\
  exists file,
    g_file s = Some file /\
    file_type file = "text/plain" /\
    title quiz = file_name file /\
    generateQuiz g (file_text file) (difficulty s) (numQuestions s) = inr (questions quiz).
Proof.
  cbn zeta.
  assert (Hinv : (numQuestions (generatorRun evs initialGenerator) <= 20)%Z /\
                 (forall f, g_file (generatorRun evs initialGenerator) = Some f ->
                            file_type f = "text/plain")).
  { apply generatorRun_invariant. cbn. split; [lia|discriminate]. }
  destruct Hinv as [Hmax Hfile].
  destruct (handleGenerate_success _ _ _ _ _ _ _ _ Hgenerated)
    as (file & Hf & Hmin & Hg & Hq & _).
  split; [lia|]. exists file.
  split; [exact Hf|]. split; [exact (Hfile file Hf)|].
  split; [now rewrite Hq|exact Hg].
Qed.

Lemma quiz_is_generated_within_bounds_witness :
  let evs := [TypeCount (Some 99%Z); PickFile (Some [notesFile])] in
  snd (handleGenerate cannedGemini 1700000000500 1700000000501
         (generatorRun evs initialGenerator) (emptyTables, freshBrowser))
    = Some sampleQuiz /\
  (1 <= numQuestions (generatorRun evs initialGenerator) <= 20)%Z.
Proof.
  cbn zeta. split; [reflexivity|].
  exact (proj1 (quiz_is_generated_within_bounds cannedGemini 1700000000500 1700000000501
                  [TypeCount (Some 99%Z); PickFile (Some [notesFile])]
                  (emptyTables, freshBrowser) _ _ sampleQuiz eq_refl)).
Defined.

(** X20. [generateQuiz] rejects with one of two messages only.  Without an
    API key it rejects with "API key is not configured." and the model is
    not consulted; with a key, every failure inside (the model call, the
    parsing, an answer without a [questions] array) is reported with the
    same "Failed to generate quiz" message, so the more precise "Invalid
    response format" message never reaches the caller.  It fulfils exactly
    when the parsed answer holds a [questions] array, with that array. *)
Theorem generateQuiz_outcomes
    (g : Gemini) (content level : string) (n : Z) :
  match generateQuiz g content level n with
  | inr qs =>
      truthy (API_KEY g) = true /\
      exists text,
        generateContent g (promptOf content level n) = inr text /\
        parseResponse g text = inr (ResponseWith (QuestionsArray qs))
  | inl e =>
      e <> invalidResponse /\
      ((truthy (API_KEY g) = false /\ e = apiKeyMissing) \/
       (truthy (API_KEY g) = true /\ e = generationFailed /\
        forall text qs,
          generateContent g (promptOf content level n) = inr text ->
          parseResponse g text <> inr (ResponseWith (QuestionsArray qs))))
  end.
Proof.
  unfold generateQuiz, generateQuiz_try.
  destruct (truthy (API_KEY g)) eqn:Hk; cbn [negb].
  - destruct (generateContent g (promptOf content level n)) as [e|text] eqn:Hc.
    + split; [discriminate|]. right. repeat split. intros t qs Ht. discriminate.
    + destruct (parseResponse g text) as [e|[|[| |qs]]] eqn:Hp.
      5: { split; [reflexivity|]. exists text. auto. }
      all: split; [discriminate|]; right; repeat split;
        intros t qs Ht; injection Ht as <-; rewrite Hp; discriminate.
  - split; [discriminate|]. left. auto.
Qed.

Lemma generateQuiz_outcomes_sample :
  generateQuiz malformedGemini "Newton's laws." "Medium" 5
    = inl generationFailed /\
  generateQuiz (mkGemini None (generateContent cannedGemini) (parseResponse cannedGemini))
    "Newton's laws." "Medium" 5 = inl apiKeyMissing /\
  generateQuiz cannedGemini "Newton's laws." "Medium" 5 = inr sampleQuestions.
Proof. repeat split. Qed.

Lemma substring_prefix (n : nat) :
  forall s more : string,
    n <= String.length s ->
    substring 0 n (s ++ more) = substring 0 n s.
Proof.
  induction n as [|n IH]; intros s more Hn.
  - destruct s, more; reflexivity.
  - destruct s as [|c s]; cbn in Hn; [lia|].
    cbn. rewrite IH by lia. reflexivity.
Qed.

Lemma substring_length_le (n : nat) :
  forall s : string, String.length (substring 0 n s) <= n.
Proof.
  induction n as [|n IH]; intros s.
  - destruct s; cbn; lia.
  - destruct s as [|c s]; cbn; [lia|]. specialize (IH s). lia.
Qed.

(** X21. Only the first 30000 characters of the content reach the model:
    the part of a prompt taken from the content is never longer, and
    content that continues beyond them gives the same prompt, hence the same
    outcome, as the content cut there. *)
Theorem prompt_uses_bounded_content
    (g : Gemini) (content more level : string) (n : Z)
    (Hlong : contentLimit <= String.length content) :
  String.length (substring 0 contentLimit (content ++ more)) <= contentLimit /\
  promptOf (content ++ more) level n = promptOf content level n /\
  generateQuiz g (content ++ more) level n = generateQuiz g content level n.
Proof.
  assert (Hp : promptOf (content ++ more) level n = promptOf content level n).
  { unfold promptOf. now rewrite substring_prefix. }
  split; [apply substring_length_le|]. split; [exact Hp|].
  unfold generateQuiz. now rewrite Hp.
Qed.

Lemma padding_length (n : nat) : String.length (padding n) = n.
Proof. induction n as [|n IH]; cbn; [reflexivity|]. now rewrite IH. Qed.

Lemma prompt_uses_bounded_content_witness :
  contentLimit <= String.length (padding contentLimit) /\
  promptOf (padding contentLimit ++ "and more") "Hard" 3
    = promptOf (padding contentLimit) "Hard" 3.
Proof.
  assert (H : contentLimit <= String.length (padding contentLimit))
    by (rewrite padding_length; apply le_n).
  split; [exact H|].
  exact (proj1 (proj2 (prompt_uses_bounded_content cannedGemini (padding contentLimit)
                         "and more" "Hard" 3 H))).
Defined.

(** ** Taking a quiz *)

Lemma setAt_length {A : Type} (i : nat) (v : A) (l : list A) :
  List.length (setAt i v l) = List.length l.
Proof.
  revert i. induction l as [|x l IH]; intros [|i]; cbn; auto.
Qed.

Lemma setAt_nth {A : Type} (l : list A) :
  forall (i j : nat) (v : A),
    i < List.length l ->
    nth_error (setAt i v l) j = if Nat.eqb j i then Some v else nth_error l j.
Proof.
  induction l as [|x l IH]; intros [|i] [|j] v Hi; cbn in *; try lia; auto.
  apply IH. lia.
Qed.

Lemma quizStep_invariant (quiz : Quiz) (ev : QuizEvent) (s : QuizViewState) :
  currentQuestionIndex s < List.length (questions quiz) ->
  List.length (view_answers s) = List.length (questions quiz) ->
  currentQuestionIndex (quizStep quiz ev s) < List.length (questions quiz) /\
  List.length (view_answers (quizStep quiz ev s)) = List.length (questions quiz).
Proof.
  intros Hi Hl. destruct ev as [o|]; cbn [quizStep].
  - unfold handleAnswer, assignAt; cbn [currentQuestionIndex view_answers].
    assert (E : Nat.ltb (currentQuestionIndex s) (List.length (view_answers s)) = true)
      by (apply Nat.ltb_lt; lia).
    rewrite E, setAt_length. auto.
  - unfold handleNext.
    destruct (Nat.ltb (currentQuestionIndex s) (List.length (questions quiz) - 1)) eqn:E;
      cbn; [|auto].
    apply Nat.ltb_lt in E. split; [lia|exact Hl].
Qed.

Lemma quizRun_invariant (quiz : Quiz) (evs : list QuizEvent) :
  forall s : QuizViewState,
    currentQuestionIndex s < List.length (questions quiz) ->
    List.length (view_answers s) = List.length (questions quiz) ->
    currentQuestionIndex (quizRun quiz evs s) < List.length (questions quiz) /\
    List.length (view_answers (quizRun quiz evs s)) = List.length (questions quiz).
Proof.
  unfold quizRun. induction evs as [|ev evs IH]; intros s Hi Hl; [auto|].
  cbn [fold_left].
  destruct (quizStep_invariant quiz ev s Hi Hl) as [Hi' Hl']. now apply IH.
Qed.

(** X22. While a quiz with at least one question is taken, whatever is
    answered and however often "next" is pressed, the current question
    exists and there is one answer slot per question; answering sets the slot
    of the current question and leaves every other slot as it was. *)
Theorem quiz_view_stays_within_the_quiz
    (quiz : Quiz) (evs : list QuizEvent) (optionIndex j : nat)
    (Hquestions : questions quiz <> []) :
  let s := quizRun quiz evs (initialQuizView quiz) in
  currentQuestionIndex s < List.length (questions quiz) /\
  List.length (view_answers s) = List.length (questions quiz) /\
  nth_error (view_answers (handleAnswer optionIndex s)) j
    = (if Nat.eqb j (currentQuestionIndex s) then Some (Some (Z.of_nat optionIndex))
       else nth_error (view_answers s) j).
Proof.
  cbn zeta.
  destruct (quizRun_invariant quiz evs (initialQuizView quiz)) as [Hi Hl].
  - cbn. destruct (questions quiz); [contradiction|cbn; lia].
  - cbn. apply repeat_length.
  - split; [exact Hi|]. split; [exact Hl|].
    unfold handleAnswer, assignAt; cbn [view_answers].
    assert (E : Nat.ltb (currentQuestionIndex (quizRun quiz evs (initialQuizView quiz)))
                  (List.length (view_answers (quizRun quiz evs (initialQuizView quiz))))
                = true) by (apply Nat.ltb_lt; lia).
    rewrite E. apply setAt_nth. lia.
Qed.

Lemma quiz_view_stays_within_the_quiz_witness :
  let s := quizRun sampleQuiz [Answer 2; Next; Next; Next; Answer 1] (initialQuizView sampleQuiz) in
  questions sampleQuiz <> [] /\
  view_answers s = [Some 2%Z; Some 1%Z] /\
  currentQuestionIndex s < 2.
Proof.
  cbn zeta. split; [discriminate|]. split; [reflexivity|].
  exact (proj1 (quiz_view_stays_within_the_quiz sampleQuiz
                  [Answer 2; Next; Next; Next; Answer 1] 0 0
                  ltac:(discriminate))).
Defined.

Lemma nth_error_skipn_0 {A : Type} (i : nat) :
  forall l : list A, nth_error (skipn i l) 0 = nth_error l i.
Proof.
  induction i as [|i IH]; intros [|x l]; try reflexivity.
  change (skipn (S i) (x :: l)) with (skipn i l).
  change (nth_error (x :: l) (S i)) with (nth_error l i).
  apply IH.
Qed.

Lemma skipn_1_skipn {A : Type} (i : nat) :
  forall l : list A, skipn 1 (skipn i l) = skipn (S i) l.
Proof.
  induction i as [|i IH]; intros [|x l]; try reflexivity.
  change (skipn (S i) (x :: l)) with (skipn i l).
  change (skipn (S (S i)) (x :: l)) with (skipn (S i) l).
  apply IH.
Qed.

Lemma countCorrect_shift (qs : list QuizQuestion) :
  forall (i : nat) (given : list (option Z)) (score : nat),
    countCorrect qs i given score = score + countCorrect qs 0 (skipn i given) 0.
Proof.
  induction qs as [|q qs IH]; intros i given score; cbn [countCorrect]; [lia|].
  rewrite (IH (S i) given), (IH 1 (skipn i given)).
  rewrite nth_error_skipn_0, skipn_1_skipn.
  destruct (answeredCorrectly (nth_error given i) q); lia.
Qed.

Lemma countCorrect_cons (q : QuizQuestion) (qs : list QuizQuestion)
    (given : list (option Z)) :
  countCorrect (q :: qs) 0 given 0
  = (if answeredCorrectly (nth_error given 0) q then 1 else 0)
    + countCorrect qs 0 (tl given) 0.
Proof.
  cbn [countCorrect]. rewrite countCorrect_shift.
  replace (skipn 1 given) with (tl given) by (destruct given; reflexivity).
  reflexivity.
Qed.

Lemma countCorrect_bounds (qs : list QuizQuestion) :
  forall given : list (option Z),
    countCorrect qs 0 given 0 <= List.length qs /\
    countCorrect qs 0 given 0 <= List.length (filter isAnswered given).
Proof.
  induction qs as [|q qs IH]; intros given; [cbn; lia|].
  rewrite countCorrect_cons. destruct (IH (tl given)) as [H1 H2].
  destruct given as [|[a|] gs]; cbn in *.
  - lia.
  - destruct (Z.eqb a (correctAnswerIndex q)); lia.
  - lia.
Qed.

(** X23. The number of correct answers that [handleSubmit] counts is at
    most the number of questions and at most the number of questions
    answered: a question without an answer never counts.  With no answer
    given it is 0, and with the correct option chosen for each question it is
    the number of questions. *)
Theorem quiz_score_counts_correct_answers
    (qs : list QuizQuestion) (given : list (option Z)) :
  countCorrect qs 0 given 0 <= List.length qs /\
  countCorrect qs 0 given 0 <= List.length (filter isAnswered given) /\
  countCorrect qs 0 (repeat None (List.length qs)) 0 = 0 /\
  countCorrect qs 0 (map (fun q => Some (correctAnswerIndex q)) qs) 0 = List.length qs.
Proof.
  destruct (countCorrect_bounds qs given) as [H1 H2].
  split; [exact H1|]. split; [exact H2|]. split.
  - clear. induction qs as [|q qs IH]; [reflexivity|].
    rewrite countCorrect_cons. cbn. exact IH.
  - clear. induction qs as [|q qs IH]; [reflexivity|].
    rewrite countCorrect_cons. cbn [map nth_error answeredCorrectly tl].
    assert (E : Z.eqb (correctAnswerIndex q) (correctAnswerIndex q) = true)
      by (apply Z.eqb_eq; reflexivity).
    rewrite E, IH. reflexivity.
Qed.

(** X24. A result submitted from the quiz view is listed from then on
    among the results of the student who took the quiz, after those already
    there, with the answers given and under the identity of the quiz taken;
    the results of the other students and the stored quizzes are unchanged. *)
Theorem submitted_result_is_listed
    (quiz : Quiz) (user : User) (now student : string) (view : QuizViewState)
    (tables : QuizTables) (w : Browser) :
  let out := quizSubmit quiz user now view (tables, w) in
  let tables' := fst (fst out) in
  getQuizResults (user_id user) tables'
    = getQuizResults (user_id user) tables ++ [snd out] /\
  answers (result_data (snd out)) = view_answers view /\
  quizId (result_data (snd out)) = quiz_id quiz /\
  submittedAt (snd out) = now /\
  (student <> user_id user ->
     getQuizResults student tables' = getQuizResults student tables) /\
  quizzes tables' = quizzes tables.
Proof.
  cbn zeta. unfold quizSubmit, submitQuiz, getQuizResults; cbn.
  rewrite !filter_app. cbn. rewrite String.eqb_refl.
  repeat split.
  intros Hs.
  assert (E : String.eqb (user_id user) student = false)
    by (apply String.eqb_neq; congruence).
  rewrite E. now rewrite app_nil_r.
Qed.

(** ** Adding a teacher through the form *)



(** ** The round trip of captures marked without location *)





